(** * myrandr: the xrandr report parser and the panel navigation of the TUI

    A shallow embedding of [xrandr_parser.c] ([parse_xrandr_output]) and of
    the positioning variant of [tui.c] ([setup_display_data], the command
    builders, the key handling of [main] and the drawing functions), with
    the C library calls they make ([fgets], [strstr], [isspace], [sscanf],
    [strtod], [snprintf]) modelled for the "C" locale on a platform with
    32-bit [int] and IEEE binary64 [double]; what is drawn is the list of
    curses calls made.

    Conventions.
    - A C string is a [string]; a read past a NUL is cut by [c_str].
    - [int] values are [Z]; a conversion that does not fit raises [UB].
    - A [double] is a sign, mantissa and binary exponent ([double]); text is
      converted with round-to-nearest-even, as the C library does.
    - Memory allocation is taken to succeed ([realloc], [malloc]); array
      lengths ([display_count], [mode_count], [rate_count]) are the lengths
      of the lists that model the arrays.
    - Undefined behaviour of the C program (an overrun of [name[32]], an
      out-of-range [%d], an index past an array) is the explicit outcome
      [UB], never a made-up value. *)

From Stdlib Require Import ZArith List String Ascii Bool Lia SpecFloat.
From Stdlib Require Import DecimalString DecimalN.
Import ListNotations.

Open Scope string_scope.
Open Scope Z_scope.

(* ================================================================== *)
(** * Outcomes of C code that may have undefined behaviour              *)
(* ================================================================== *)

Inductive result (A : Type) : Type :=
| Ok (a : A)
| UB.
Arguments Ok {A} a.
Arguments UB {A}.

Definition bind {A B : Type} (r : result A) (k : A -> result B) : result B :=
  match r with
  | Ok a => k a
  | UB => UB
  end.

Notation "x <- e ;; k" := (bind e (fun x => k))
  (at level 61, e at next level, right associativity).
Notation "' p <- e ;; k" := (bind e (fun x => let 'p := x in k))
  (at level 61, p pattern, e at next level, right associativity).

(** ** Arrays *)

(** [a[i] = x]; a store past the end of the array is undefined. *)
Fixpoint array_store {A : Type} (a : list A) (i : nat) (x : A)
  : result (list A) :=
  match a, i with
  | [], _ => UB
  | _ :: a', O => Ok (x :: a')
  | y :: a', S i' => a'' <- array_store a' i' x ;; Ok (y :: a'')
  end.

(** [a[i]] for an [int] index; a read outside the array is undefined. *)
Definition array_get {A : Type} (a : list A) (i : Z) : result A :=
  if i <? 0 then UB
  else match nth_error a (Z.to_nat i) with
       | Some x => Ok x
       | None => UB
       end.

(* ================================================================== *)
(** * The C library, as far as the program uses it                      *)
(* ================================================================== *)

Module LibC.

(** ** <ctype.h>, "C" locale *)

Definition isspace (c : ascii) : bool :=
  match c with
  | " "%char | "009"%char | "010"%char | "011"%char | "012"%char
  | "013"%char => true
  | _ => false
  end.

Definition isdigit (c : ascii) : bool :=
  let n := N_of_ascii c in ((48 <=? n) && (n <=? 57))%N.

Definition digit_val (c : ascii) : Z := Z.of_N (N_of_ascii c) - 48.

Definition isxdigit (c : ascii) : bool :=
  let n := N_of_ascii c in
  (((48 <=? n) && (n <=? 57)) || ((65 <=? n) && (n <=? 70))
   || ((97 <=? n) && (n <=? 102)))%N.

Definition xdigit_val (c : ascii) : Z :=
  let n := N_of_ascii c in
  if (n <=? 57)%N then Z.of_N n - 48
  else if (n <=? 70)%N then Z.of_N n - 55
  else Z.of_N n - 87.

Definition isalnum_ (c : ascii) : bool :=
  let n := N_of_ascii c in
  (((48 <=? n) && (n <=? 57)) || ((65 <=? n) && (n <=? 90))
   || ((97 <=? n) && (n <=? 122)) || (n =? 95))%N.

Definition tolower (c : ascii) : ascii :=
  let n := N_of_ascii c in
  if ((65 <=? n) && (n <=? 90))%N then ascii_of_N (n + 32) else c.

(** ** C strings *)

(** What the string functions see of a buffer: the bytes before the first
    NUL. *)
Fixpoint c_str (buf : string) : string :=
  match buf with
  | EmptyString => EmptyString
  | String c rest =>
      if Ascii.eqb c "000"%char then EmptyString else String c (c_str rest)
  end.

(** [&s[n]] *)
Fixpoint str_drop (n : nat) (s : string) : string :=
  match n, s with
  | O, _ => s
  | S n', String _ rest => str_drop n' rest
  | S _, EmptyString => EmptyString
  end.

Fixpoint str_take (n : nat) (s : string) : string :=
  match n, s with
  | O, _ => EmptyString
  | S n', String c rest => String c (str_take n' rest)
  | S _, EmptyString => EmptyString
  end.

Fixpoint starts_with (needle s : string) : bool :=
  match needle, s with
  | EmptyString, _ => true
  | String a needle', String b s' => Ascii.eqb a b && starts_with needle' s'
  | String _ _, EmptyString => false
  end.

(** Like [starts_with], but the input is compared after [tolower]; the
    needle is given in lower case. *)
Fixpoint starts_with_nocase (needle s : string) : bool :=
  match needle, s with
  | EmptyString, _ => true
  | String a needle', String b s' =>
      Ascii.eqb a (tolower b) && starts_with_nocase needle' s'
  | String _ _, EmptyString => false
  end.

(** [strstr(haystack, needle)]: the suffix of [haystack] that starts at the
    first occurrence of [needle], [None] for a null result. *)
Fixpoint strstr (haystack needle : string) : option string :=
  if starts_with needle haystack then Some haystack
  else match haystack with
       | EmptyString => None
       | String _ rest => strstr rest needle
       end.

Definition non_null {A : Type} (p : option A) : bool :=
  match p with Some _ => true | None => false end.

Fixpoint skip_spaces (s : string) : string :=
  match s with
  | String c rest => if isspace c then skip_spaces rest else s
  | EmptyString => s
  end.

(** ** fgets *)

(** [fgets_read room stream]: up to [room] characters of [stream], stopping
    after a newline; the characters read and the rest of the stream. *)
Fixpoint fgets_read (room : nat) (stream : string) : string * string :=
  match room, stream with
  | O, _ => (EmptyString, stream)
  | S _, EmptyString => (EmptyString, EmptyString)
  | S room', String c rest =>
      if Ascii.eqb c "010"%char then (String c EmptyString, rest)
      else let (got, rest') := fgets_read room' rest in (String c got, rest')
  end.

(** [fgets(buf, size, fp)]: [None] at end of file, else the buffer contents
    (at most [size - 1] characters) and the rest of the stream. *)
Definition fgets (size : nat) (stream : string) : option (string * string) :=
  match stream with
  | EmptyString => None
  | _ => Some (fgets_read (size - 1) stream)
  end.

(** The successive results of [fgets] until it returns NULL.  Every call
    with [size >= 2] takes at least one character, so [String.length stream]
    calls are enough (lemma [fgets_all_complete]). *)
Fixpoint fgets_loop (fuel : nat) (size : nat) (stream : string) : list string :=
  match fuel with
  | O => []
  | S fuel' =>
      match fgets size stream with
      | None => []
      | Some (buf, rest) => buf :: fgets_loop fuel' size rest
      end
  end.

Definition fgets_all (size : nat) (stream : string) : list string :=
  fgets_loop (String.length stream) size stream.

(** ** Integer conversion, as [%d] does it *)

Definition INT_MAX : Z := 2147483647.
Definition INT_MIN : Z := -2147483648.
Definition in_int (z : Z) : bool := (INT_MIN <=? z) && (z <=? INT_MAX).

(** Accumulate a run of decimal digits: value, number of digits, rest. *)
Fixpoint scan_digits (acc : Z) (n : nat) (s : string) : Z * nat * string :=
  match s with
  | String c rest =>
      if isdigit c then scan_digits (10 * acc + digit_val c) (S n) rest
      else (acc, n, s)
  | EmptyString => (acc, n, s)
  end.

(** An optional sign: is it negative, and the rest. *)
Definition scan_sign (s : string) : bool * string :=
  match s with
  | String c rest =>
      if Ascii.eqb c "-"%char then (true, rest)
      else if Ascii.eqb c "+"%char then (false, rest)
      else (false, s)
  | EmptyString => (false, s)
  end.

(** An optionally signed decimal integer with at least one digit, no
    leading white space. *)
Definition scan_int (s : string) : option (Z * string) :=
  let (neg, s1) := scan_sign s in
  match scan_digits 0 0 s1 with
  | (_, O, _) => None
  | (v, S _, rest) => Some (if neg then - v else v, rest)
  end.

(** ** sscanf, for the directives the program uses *)

Inductive directive : Type :=
| D_space            (* white space in the format: any run of white space *)
| D_lit (c : ascii)  (* an ordinary character: that character *)
| D_s                (* %s *)
| D_d                (* %d *)
| D_n.               (* %n *)

Fixpoint parse_format (fmt : string) : list directive :=
  match fmt with
  | EmptyString => []
  | String "%"%char (String "s"%char rest) => D_s :: parse_format rest
  | String "%"%char (String "d"%char rest) => D_d :: parse_format rest
  | String "%"%char (String "n"%char rest) => D_n :: parse_format rest
  | String c rest =>
      if isspace c then D_space :: parse_format rest
      else D_lit c :: parse_format rest
  end.

(** What a conversion stores through its pointer argument. *)
Inductive stored : Type :=
| St_str (s : string)
| St_int (z : Z)
| St_count (n : nat).

(** The run of non-white-space characters [%s] takes, and the rest. *)
Fixpoint scan_word (s : string) : string * string :=
  match s with
  | String c rest =>
      if isspace c then (EmptyString, s)
      else let (w, rest') := scan_word rest in (String c w, rest')
  | EmptyString => (EmptyString, s)
  end.

(** [run_scanf ds input pos]: the values stored, in order, up to the first
    directive that fails; [pos] counts the characters consumed so far. *)
Fixpoint run_scanf (ds : list directive) (input : string) (pos : nat)
  : list stored :=
  let advance (rest : string) : nat :=
    (pos + (String.length input - String.length rest))%nat in
  match ds with
  | [] => []
  | D_space :: ds' =>
      let rest := skip_spaces input in run_scanf ds' rest (advance rest)
  | D_lit c :: ds' =>
      match input with
      | String c' rest =>
          if Ascii.eqb c c' then run_scanf ds' rest (S pos) else []
      | EmptyString => []
      end
  | D_s :: ds' =>
      match scan_word (skip_spaces input) with
      | (EmptyString, _) => []
      | (w, rest) => St_str w :: run_scanf ds' rest (advance rest)
      end
  | D_d :: ds' =>
      match scan_int (skip_spaces input) with
      | None => []
      | Some (z, rest) => St_int z :: run_scanf ds' rest (advance rest)
      end
  | D_n :: ds' => St_count pos :: run_scanf ds' input pos
  end.

Definition sscanf (str fmt : string) : list stored :=
  run_scanf (parse_format fmt) str 0.

(** The return value of [sscanf]: the conversions assigned, [%n] apart.
    (When the input ends before the first conversion C returns [EOF]
    instead of 0; the program only ever compares the value with 2.) *)
Fixpoint assigned (vals : list stored) : Z :=
  match vals with
  | [] => 0
  | St_count _ :: vals' => assigned vals'
  | _ :: vals' => 1 + assigned vals'
  end.

(** ** double, strtod *)

(** An IEEE binary64 value: [D_finite s m e] is (-1)^s * m * 2^e with the
    mantissa and exponent in canonical form. *)
Inductive double : Type :=
| D_zero (s : bool)
| D_inf (s : bool)
| D_nan (s : bool)
| D_finite (s : bool) (m : positive) (e : Z).

Definition prec : Z := 53.
Definition emax : Z := 1024.

Definition of_spec (x : spec_float) : double :=
  match x with
  | S754_zero s => D_zero s
  | S754_infinity s => D_inf s
  | S754_nan => D_nan false
  | S754_finite s m e => D_finite s m e
  end.

(** The double nearest to (-1)^neg * m * 2^e2 (ties to even). *)
Definition round_bin (neg : bool) (m e2 : Z) : double :=
  of_spec (binary_normalize prec emax (if neg then - m else m) e2 neg).

(** The double nearest to (-1)^neg * m * 10^e10 (ties to even). *)
Definition round_dec (neg : bool) (m e10 : Z) : double :=
  if m =? 0 then D_zero neg
  else if 0 <=? e10 then round_bin neg (m * 10 ^ e10) 0
  else
    let '(q, e, loc) := SFdiv_core_binary prec emax m 0 (10 ^ (- e10)) 0 in
    of_spec (binary_round_aux prec emax neg q e loc).

Fixpoint scan_xdigits (acc : Z) (n : nat) (s : string) : Z * nat * string :=
  match s with
  | String c rest =>
      if isxdigit c then scan_xdigits (16 * acc + xdigit_val c) (S n) rest
      else (acc, n, s)
  | EmptyString => (acc, n, s)
  end.

(** An exponent part: the letter [e] (given in lower case), an optional
    sign and at least one digit; without the digits nothing is taken. *)
Definition scan_exponent (letter : ascii) (s : string) : Z * string :=
  match s with
  | String c s1 =>
      if Ascii.eqb (tolower c) letter then
        let (neg, s2) := scan_sign s1 in
        match scan_digits 0 0 s2 with
        | (_, O, _) => (0, s)
        | (v, S _, rest) => (if neg then - v else v, rest)
        end
      else (0, s)
  | EmptyString => (0, s)
  end.

(** Digits, an optional point, digits; at least one digit in all. *)
Definition scan_dec_float (neg : bool) (s : string) : option (double * string) :=
  let '(m1, n1, r1) := scan_digits 0 0 s in
  let '(m2, n2, r2) :=
    match r1 with
    | String c r =>
        if Ascii.eqb c "."%char then scan_digits m1 0 r else (m1, O, r1)
    | EmptyString => (m1, O, r1)
    end in
  match (n1 + n2)%nat with
  | O => None
  | S _ =>
      let (ex, r3) := scan_exponent "e"%char r2 in
      Some (round_dec neg m2 (ex - Z.of_nat n2), r3)
  end.

(** The same in base 16, after the [0x]; the exponent is a power of two. *)
Definition scan_hex_float (neg : bool) (s : string) : option (double * string) :=
  let '(m1, n1, r1) := scan_xdigits 0 0 s in
  let '(m2, n2, r2) :=
    match r1 with
    | String c r =>
        if Ascii.eqb c "."%char then scan_xdigits m1 0 r else (m1, O, r1)
    | EmptyString => (m1, O, r1)
    end in
  match (n1 + n2)%nat with
  | O => None
  | S _ =>
      let (ex, r3) := scan_exponent "p"%char r2 in
      Some (round_bin neg m2 (ex - 4 * Z.of_nat n2), r3)
  end.

Fixpoint skip_alnum_ (s : string) : string :=
  match s with
  | String c rest => if isalnum_ c then skip_alnum_ rest else s
  | EmptyString => s
  end.

(** The optional [(n-char-sequence)] after NAN. *)
Definition skip_nan_payload (s : string) : string :=
  match s with
  | String c r =>
      if Ascii.eqb c "("%char then
        match skip_alnum_ r with
        | String c' r' => if Ascii.eqb c' ")"%char then r' else s
        | EmptyString => s
        end
      else s
  | EmptyString => s
  end.

(** [strtod(nptr, &endptr)]: [None] when no conversion is made (then
    [endptr == nptr]), else the value and [endptr]. *)
Definition strtod (nptr : string) : option (double * string) :=
  let (neg, s) := scan_sign (skip_spaces nptr) in
  if starts_with_nocase "infinity" s then Some (D_inf neg, str_drop 8 s)
  else if starts_with_nocase "inf" s then Some (D_inf neg, str_drop 3 s)
  else if starts_with_nocase "nan" s then
    Some (D_nan neg, skip_nan_payload (str_drop 3 s))
  else
    match (if starts_with_nocase "0x" s
           then scan_hex_float neg (str_drop 2 s) else None) with
    | Some r => Some r
    | None => scan_dec_float neg s
    end.

(** ** printf conversions *)

Definition fmt_uint (n : Z) : string :=
  NilZero.string_of_uint (N.to_uint (Z.to_N n)).

(** [%d] *)
Definition fmt_d (z : Z) : string :=
  if z <? 0 then "-" ++ fmt_uint (- z) else fmt_uint z.

Definition digit_char (d : Z) : ascii := ascii_of_N (Z.to_N (48 + d)).

(** m * 2^e in hundredths, rounded to the nearest integer, ties to even. *)
Definition hundredths (m : positive) (e : Z) : Z :=
  if 0 <=? e then Z.pos m * 2 ^ e * 100
  else
    let num := Z.pos m * 100 in
    let den := 2 ^ (- e) in
    let q := num / den in
    let r := num mod den in
    match 2 * r ?= den with
    | Lt => q
    | Gt => q + 1
    | Eq => if Z.even q then q else q + 1
    end.

Definition sign_str (s : bool) : string := if s then "-" else "".

(** [%.2f] *)
Definition fmt_2f (x : double) : string :=
  match x with
  | D_nan s => sign_str s ++ "nan"
  | D_inf s => sign_str s ++ "inf"
  | D_zero s => sign_str s ++ "0.00"
  | D_finite s m e =>
      let h := hundredths m e in
      sign_str s ++ fmt_uint (h / 100) ++ "."
        ++ String (digit_char (h / 10 mod 10))
             (String (digit_char (h mod 10)) EmptyString)
  end.

Inductive parg : Type :=
| P_str (s : string)
| P_int (z : Z)
| P_dbl (x : double).

(** The output of a printf-family call for a format with [%s], [%d] and
    [%.2f]; an argument of the wrong kind is undefined. *)
Fixpoint format (fmt : string) (args : list parg) : result string :=
  match fmt with
  | EmptyString => Ok EmptyString
  | String "%"%char (String "s"%char rest) =>
      match args with
      | P_str s :: args' => r <- format rest args' ;; Ok (s ++ r)
      | _ => UB
      end
  | String "%"%char (String "d"%char rest) =>
      match args with
      | P_int z :: args' => r <- format rest args' ;; Ok (fmt_d z ++ r)
      | _ => UB
      end
  | String "%"%char (String "."%char (String "2"%char (String "f"%char rest))) =>
      match args with
      | P_dbl x :: args' => r <- format rest args' ;; Ok (fmt_2f x ++ r)
      | _ => UB
      end
  | String c rest => r <- format rest args ;; Ok (String c r)
  end.

(** [snprintf(buf, size, fmt, ...)]: what ends up in [buf], at most
    [size - 1] characters. *)
Definition snprintf (size : nat) (fmt : string) (args : list parg)
  : result string :=
  s <- format fmt args ;; Ok (str_take (size - 1) s).

End LibC.

(* ================================================================== *)
(** * xrandr_parser.h, xrandr_parser.c                                  *)
(* ================================================================== *)

Module Parser.
Import LibC.

(** The flags [is_current], [is_preferred], [connected] and [is_primary]
    are C [int]s that only ever hold 0 or 1. *)
Record RefreshRate : Type := {
  rate : double;
  is_current : bool;     (* marked with '*' *)
  is_preferred : bool    (* marked with '+' *)
}.

Record Mode : Type := {
  m_width : Z;
  m_height : Z;
  refresh_rates : list RefreshRate
}.

Definition rate_count (m : Mode) : Z := Z.of_nat (List.length (refresh_rates m)).

(** [is_active] is read by the positioning variant of the TUI
    ([d->is_active]); the parser never writes it, so it keeps the 0 of the
    [memset]. *)
Record Display : Type := {
  name : string;
  connected : bool;
  is_primary : bool;
  is_active : bool;
  width : Z;
  height : Z;
  x_offset : Z;
  y_offset : Z;
  modes : list Mode
}.

Definition mode_count (d : Display) : Z := Z.of_nat (List.length (modes d)).

(** [memset(current_display_ptr, 0, sizeof(Display))] *)
Definition zero_display : Display :=
  {| name := ""; connected := false; is_primary := false; is_active := false;
     width := 0; height := 0; x_offset := 0; y_offset := 0; modes := [] |}.

Definition set_name (s : string) (d : Display) : Display :=
  {| name := s; connected := connected d; is_primary := is_primary d;
     is_active := is_active d; width := width d; height := height d;
     x_offset := x_offset d; y_offset := y_offset d; modes := modes d |}.
Definition set_connected (b : bool) (d : Display) : Display :=
  {| name := name d; connected := b; is_primary := is_primary d;
     is_active := is_active d; width := width d; height := height d;
     x_offset := x_offset d; y_offset := y_offset d; modes := modes d |}.
Definition set_is_primary (b : bool) (d : Display) : Display :=
  {| name := name d; connected := connected d; is_primary := b;
     is_active := is_active d; width := width d; height := height d;
     x_offset := x_offset d; y_offset := y_offset d; modes := modes d |}.
Definition set_width (z : Z) (d : Display) : Display :=
  {| name := name d; connected := connected d; is_primary := is_primary d;
     is_active := is_active d; width := z; height := height d;
     x_offset := x_offset d; y_offset := y_offset d; modes := modes d |}.
Definition set_height (z : Z) (d : Display) : Display :=
  {| name := name d; connected := connected d; is_primary := is_primary d;
     is_active := is_active d; width := width d; height := z;
     x_offset := x_offset d; y_offset := y_offset d; modes := modes d |}.
Definition set_x_offset (z : Z) (d : Display) : Display :=
  {| name := name d; connected := connected d; is_primary := is_primary d;
     is_active := is_active d; width := width d; height := height d;
     x_offset := z; y_offset := y_offset d; modes := modes d |}.
Definition set_y_offset (z : Z) (d : Display) : Display :=
  {| name := name d; connected := connected d; is_primary := is_primary d;
     is_active := is_active d; width := width d; height := height d;
     x_offset := x_offset d; y_offset := z; modes := modes d |}.
Definition set_modes (ms : list Mode) (d : Display) : Display :=
  {| name := name d; connected := connected d; is_primary := is_primary d;
     is_active := is_active d; width := width d; height := height d;
     x_offset := x_offset d; y_offset := y_offset d; modes := ms |}.

Definition set_current (r : RefreshRate) : RefreshRate :=
  {| rate := rate r; is_current := true; is_preferred := is_preferred r |}.
Definition set_preferred (r : RefreshRate) : RefreshRate :=
  {| rate := rate r; is_current := is_current r; is_preferred := true |}.

(** ** Storing what sscanf converted *)

(** [%s] into [char name[32]]: 31 characters and the terminator fit. *)
Definition store_name (s : string) (d : Display) : result Display :=
  if (String.length s <=? 31)%nat then Ok (set_name s d) else UB.

(** Successive [%d] results go to successive [int] fields. *)
Fixpoint store_ints (fields : list (Z -> Display -> Display))
  (vals : list stored) (d : Display) : result Display :=
  match fields, vals with
  | set :: fields', St_int z :: vals' =>
      if in_int z then store_ints fields' vals' (set z d) else UB
  | _, _ => Ok d
  end.

(** [%d] into a local [int]: every value converted must fit. *)
Fixpoint ints_fit (vals : list stored) : bool :=
  match vals with
  | [] => true
  | St_int z :: vals' => in_int z && ints_fit vals'
  | _ :: vals' => ints_fit vals'
  end.

(** The arguments of the header [sscanf] calls: [name], then [&width],
    [&height], [&x_offset], [&y_offset]. *)
Definition store_header (vals : list stored) (d : Display) : result Display :=
  match vals with
  | St_str s :: ints =>
      d' <- store_name s d ;;
      store_ints [set_width; set_height; set_x_offset; set_y_offset] ints d'
  | _ => Ok d
  end.

(** ** The refresh-rate scan of a mode line *)

(** The inner [while (1)]: skip white space, take one marker, repeat. *)
Fixpoint marker_loop (fuel : nat) (current_rate : RefreshRate) (ptr : string)
  : RefreshRate * string :=
  match fuel with
  | O => (current_rate, ptr)
  | S fuel' =>
      let ptr := skip_spaces ptr in
      match ptr with
      | String c ptr' =>
          if Ascii.eqb c "*"%char
          then marker_loop fuel' (set_current current_rate) ptr'
          else if Ascii.eqb c "+"%char
          then marker_loop fuel' (set_preferred current_rate) ptr'
          else (current_rate, ptr)
      | EmptyString => (current_rate, ptr)
      end
  end.

(** Every round of [marker_loop] but the last takes a character, so
    [S (length ptr)] rounds reach the [break] (lemma [marker_loop_fuel]). *)
Definition scan_markers (current_rate : RefreshRate) (ptr : string)
  : RefreshRate * string :=
  marker_loop (S (String.length ptr)) current_rate ptr.

(** The outer [while (1)]: [strtod], a new zeroed rate, its markers. *)
Fixpoint rate_loop (fuel : nat) (ptr : string) : list RefreshRate :=
  match fuel with
  | O => []
  | S fuel' =>
      match strtod ptr with
      | None => []                                   (* ptr == endptr *)
      | Some (rate_val, endptr) =>
          let current_rate :=
            {| rate := rate_val; is_current := false; is_preferred := false |} in
          let (current_rate', ptr') := scan_markers current_rate endptr in
          current_rate' :: rate_loop fuel' ptr'
      end
  end.

(** A conversion by [strtod] takes at least one character, so
    [S (length ptr)] rounds reach the [break] (lemma [rate_loop_fuel]). *)
Definition scan_rates (ptr : string) : list RefreshRate :=
  rate_loop (S (String.length ptr)) ptr.

(** ** The line loop *)

(** [displays] with [*display_count] as its length, and
    [current_display_ptr] as an index into it ([None] for NULL). *)
Record loop_state : Type := {
  displays : list Display;
  current_display_ptr : option nat
}.

Definition initial_state : loop_state :=
  {| displays := []; current_display_ptr := None |}.

(** The branch [if (strstr(line, " connected"))]: a new zeroed element at
    the end of [displays], which [current_display_ptr] then points to. *)
Definition header_line (st : loop_state) (line : string) : result loop_state :=
  let display_count := S (List.length (displays st)) in
  let open (d : Display) : loop_state :=
    {| displays := displays st ++ [d];
       current_display_ptr := Some (display_count - 1)%nat |} in
  let d := zero_display in
  if non_null (strstr line " connected") then
    let d := set_connected true d in
    if non_null (strstr line " primary") then
      let d := set_is_primary true d in
      d' <- store_header
              (sscanf line "%s connected primary %dx%d+%d+%d") d ;;
      Ok (open d')
    else
      let d := set_is_primary false d in
      d' <- store_header (sscanf line "%s connected %dx%d+%d+%d") d ;;
      Ok (open d')
  else
    let d := set_connected false d in
    d' <- store_header (sscanf line "%s disconnected") d ;;
    Ok (open d').                                     (* continue *)

(** The branch for an indented line under an open connected display.  The
    three values are stored exactly when [sscanf] returns 2 (lemma
    [mode_scan_returns_2]). *)
Definition mode_line (st : loop_state) (i : nat) (d : Display) (line : string)
  : result loop_state :=
  let vals := sscanf line " %dx%d %n" in
  if negb (ints_fit vals) then UB
  else
    match vals with
    | [St_int w; St_int h; St_count n] =>             (* sscanf(...) == 2 *)
        let ptr := str_drop n line in
        let current_mode :=
          {| m_width := w; m_height := h; refresh_rates := scan_rates ptr |} in
        let d' := set_modes (modes d ++ [current_mode]) d in
        ds <- array_store (displays st) i d' ;;
        Ok {| displays := ds; current_display_ptr := current_display_ptr st |}
    | _ => Ok st
    end.

Definition first_char_isspace (line : string) : bool :=
  match line with
  | String c _ => isspace c
  | EmptyString => false
  end.

Definition close_display (st : loop_state) : loop_state :=
  {| displays := displays st; current_display_ptr := None |}.

(** The body of [while (fgets(line, sizeof(line), fp) != NULL)]. *)
Definition process_line (st : loop_state) (buf : string) : result loop_state :=
  let line := c_str buf in
  if non_null (strstr line " connected") then header_line st line
  else
    match current_display_ptr st with
    | Some i =>
        match nth_error (displays st) i with
        | Some d =>
            if connected d && first_char_isspace line
            then mode_line st i d line
            else Ok (close_display st)
        | None => UB
        end
    | None => Ok (close_display st)
    end.

Fixpoint line_loop (bufs : list string) (st : loop_state) : result loop_state :=
  match bufs with
  | [] => Ok st
  | buf :: bufs' => st' <- process_line st buf ;; line_loop bufs' st'
  end.

(** The loop over the buffers [fgets] delivers, and the [return displays]
    after it. *)
Definition parse_buffers (bufs : list string) : result (option (list Display)) :=
  st <- line_loop bufs initial_state ;;
  Ok (match displays st with
      | [] => None            (* realloc was never called *)
      | ds => Some ds
      end).

(** [sizeof(line)] *)
Definition LINE_SIZE : nat := 256.

(** [parse_xrandr_output(&display_count)].  The argument is what
    [popen("xrandr", "r")] gives: [None] for NULL, else all the text the
    command writes.  The result is the returned pointer, [None] for NULL;
    [*display_count] is the length of the array ([display_count_of]). *)
Definition parse_xrandr_output (popen : option string)
  : result (option (list Display)) :=
  match popen with
  | None => Ok None
  | Some stream => parse_buffers (fgets_all LINE_SIZE stream)
  end.

Definition display_count_of (ret : option (list Display)) : Z :=
  match ret with
  | Some ds => Z.of_nat (List.length ds)
  | None => 0
  end.

End Parser.

(* ================================================================== *)
(** * tui.c (the variant with the positioning panel)                    *)
(* ================================================================== *)

Module Tui.
Import LibC Parser.

Inductive AppState : Type :=
| STATE_MONITOR_SELECT
| STATE_MODE_SELECT
| STATE_RATE_SELECT
| STATE_POSITION_SELECT.

Inductive PositionPanelFocus : Type :=
| POS_PANEL_TARGET
| POS_PANEL_DIRECTION.

(** What [getch()] returns: a character, or one of the curses key codes
    the [switch] names (their numbers are those of <ncurses.h> and play no
    part); every other code takes no [case]. *)
Inductive key : Type :=
| Char (c : ascii)
| KEY_UP
| KEY_DOWN
| KEY_LEFT
| KEY_RIGHT
| KEY_RESIZE
| KEY_other.

(** ** The command builders *)

(** [sizeof(command)] *)
Definition COMMAND_SIZE : nat := 256.

(** The [command] buffer of [toggle_display_power]. *)
Definition toggle_display_power_command (display : Display) : result string :=
  if is_active display
  then snprintf COMMAND_SIZE "xrandr --output %s --off" [P_str (name display)]
  else snprintf COMMAND_SIZE "xrandr --output %s --auto" [P_str (name display)].

(** The [command] buffer of [apply_position_settings]. *)
Definition apply_position_settings_command
  (source_display target_display : Display) (direction : string)
  : result string :=
  snprintf COMMAND_SIZE "xrandr --output %s --%s %s --auto"
    [P_str (name source_display); P_str direction;
     P_str (name target_display)].

(** The [command] buffer of [apply_xrandr_settings]. *)
Definition apply_xrandr_settings_command
  (display : Display) (mode : Mode) (r : RefreshRate) : result string :=
  snprintf COMMAND_SIZE "xrandr --output %s --mode %dx%d --rate %.2f"
    [P_str (name display); P_int (m_width mode); P_int (m_height mode);
     P_dbl (rate r)].

(** ** setup_display_data *)

(** What [setup_display_data] hands back through its six pointers. *)
Record display_data : Type := {
  d_displays : list Display;
  d_menu_items : list string;
  d_num_items : Z;
  d_connected_displays : list Display;   (* pointers into [d_displays] *)
  d_connected_count : Z
}.

(** The first loop: one increment of [connected_count] for each connected
    display. *)
Definition count_connected (displays : list Display) : Z :=
  fold_left (fun n d => if connected d then n + 1 else n) displays 0.

(** [malloc(n * sizeof ...)]: [n] slots, none written yet.  The request
    is taken to succeed, also for [n = 0], where the C library may return
    either NULL or a pointer (glibc returns a pointer). *)
Definition malloc {A : Type} (n : Z) : list (option A) :=
  repeat None (Z.to_nat n).

(** The second loop, over [displays[i]] in order, writing slot
    [current_item] of both arrays. *)
Fixpoint fill_menu (displays : list Display)
  (menu_items : list (option string))
  (connected_displays : list (option Display)) (current_item : nat)
  : result (list (option string) * list (option Display)) :=
  match displays with
  | [] => Ok (menu_items, connected_displays)
  | d :: displays' =>
      if connected d then
        menu_items' <- array_store menu_items current_item (Some (name d)) ;;
        connected_displays' <-
          array_store connected_displays current_item (Some d) ;;
        fill_menu displays' menu_items' connected_displays' (S current_item)
      else fill_menu displays' menu_items connected_displays current_item
  end.

(** An array all of whose slots have been written. *)
Fixpoint written {A : Type} (a : list (option A)) : option (list A) :=
  match a with
  | [] => Some []
  | Some x :: a' => option_map (cons x) (written a')
  | None :: _ => None
  end.

(** The part of [setup_display_data] after the parse succeeded. *)
Definition build_display_data (displays : list Display) : result display_data :=
  let connected_count := count_connected displays in
  let menu_items := malloc (connected_count + 1) in
  let connected_displays := malloc connected_count in
  '(menu_items, connected_displays) <-
     fill_menu displays menu_items connected_displays 0 ;;
  menu_items <- array_store menu_items (Z.to_nat connected_count) (Some "Exit") ;;
  match written menu_items, written connected_displays with
  | Some menu, Some conn =>
      Ok {| d_displays := displays; d_menu_items := menu;
            d_num_items := connected_count + 1;
            d_connected_displays := conn;
            d_connected_count := connected_count |}
  | _, _ => UB                      (* a slot would be read unwritten *)
  end.

(** [setup_display_data]: [Ok None] is the [return false]. *)
Definition setup_display_data (popen : option string)
  : result (option display_data) :=
  ret <- parse_xrandr_output popen ;;
  match ret with
  | None => Ok None                 (* *displays == NULL *)
  | Some displays => data <- build_display_data displays ;; Ok (Some data)
  end.

(** ** The variables of main *)

(** [position_target_displays]: NULL, a live array, or a pointer that has
    been passed to [free] and not reset. *)
Inductive target_array : Type :=
| Null
| Live (targets : list Display)
| Freed.

Record App : Type := mkApp {
  data : display_data;
  state : AppState;
  monitor_highlight : Z;
  mode_highlight : Z;
  rate_highlight : Z;
  monitor_scroll : Z;
  mode_scroll : Z;
  rate_scroll : Z;
  pos_panel_focus : PositionPanelFocus;
  pos_target_highlight : Z;
  pos_direction_highlight : Z;
  position_target_displays : target_array;
  position_target_count : Z;
  rows : Z;
  needs_redraw : bool;
  commands : list string               (* what was passed to system(), in order *)
}.

Definition displays (s : App) := d_displays (data s).
Definition menu_items (s : App) := d_menu_items (data s).
Definition num_items (s : App) := d_num_items (data s).
Definition connected_displays (s : App) := d_connected_displays (data s).
Definition connected_count (s : App) := d_connected_count (data s).

Definition position_directions : list string :=
  ["right-of"; "left-of"; "above"; "below"; "same-as"].
Definition position_direction_count : Z :=
  Z.of_nat (List.length position_directions).

(** The state at the top of the main loop before its first round.  [rows]
    is not initialised in the source; [needs_redraw] makes the first round
    assign it before any use. *)
Definition initial_app (d : display_data) (rows_indeterminate : Z) : App :=
  {| data := d; state := STATE_MONITOR_SELECT;
     monitor_highlight := 0; mode_highlight := 0; rate_highlight := 0;
     monitor_scroll := 0; mode_scroll := 0; rate_scroll := 0;
     pos_panel_focus := POS_PANEL_TARGET;
     pos_target_highlight := 0; pos_direction_highlight := 0;
     position_target_displays := Null; position_target_count := 0;
     rows := rows_indeterminate; needs_redraw := true; commands := [] |}.

Definition set_data v (s : App) : App :=
  mkApp v (state s) (monitor_highlight s) (mode_highlight s) (rate_highlight s)
    (monitor_scroll s) (mode_scroll s) (rate_scroll s) (pos_panel_focus s)
    (pos_target_highlight s) (pos_direction_highlight s)
    (position_target_displays s) (position_target_count s) (rows s)
    (needs_redraw s) (commands s).
Definition set_state v (s : App) : App :=
  mkApp (data s) v (monitor_highlight s) (mode_highlight s) (rate_highlight s)
    (monitor_scroll s) (mode_scroll s) (rate_scroll s) (pos_panel_focus s)
    (pos_target_highlight s) (pos_direction_highlight s)
    (position_target_displays s) (position_target_count s) (rows s)
    (needs_redraw s) (commands s).
Definition set_monitor (highlight scroll : Z) (s : App) : App :=
  mkApp (data s) (state s) highlight (mode_highlight s) (rate_highlight s)
    scroll (mode_scroll s) (rate_scroll s) (pos_panel_focus s)
    (pos_target_highlight s) (pos_direction_highlight s)
    (position_target_displays s) (position_target_count s) (rows s)
    (needs_redraw s) (commands s).
Definition set_mode (highlight scroll : Z) (s : App) : App :=
  mkApp (data s) (state s) (monitor_highlight s) highlight (rate_highlight s)
    (monitor_scroll s) scroll (rate_scroll s) (pos_panel_focus s)
    (pos_target_highlight s) (pos_direction_highlight s)
    (position_target_displays s) (position_target_count s) (rows s)
    (needs_redraw s) (commands s).
Definition set_rate (highlight scroll : Z) (s : App) : App :=
  mkApp (data s) (state s) (monitor_highlight s) (mode_highlight s) highlight
    (monitor_scroll s) (mode_scroll s) scroll (pos_panel_focus s)
    (pos_target_highlight s) (pos_direction_highlight s)
    (position_target_displays s) (position_target_count s) (rows s)
    (needs_redraw s) (commands s).
Definition set_pos_panel_focus v (s : App) : App :=
  mkApp (data s) (state s) (monitor_highlight s) (mode_highlight s)
    (rate_highlight s) (monitor_scroll s) (mode_scroll s) (rate_scroll s) v
    (pos_target_highlight s) (pos_direction_highlight s)
    (position_target_displays s) (position_target_count s) (rows s)
    (needs_redraw s) (commands s).
Definition set_pos_target_highlight v (s : App) : App :=
  mkApp (data s) (state s) (monitor_highlight s) (mode_highlight s)
    (rate_highlight s) (monitor_scroll s) (mode_scroll s) (rate_scroll s)
    (pos_panel_focus s) v (pos_direction_highlight s)
    (position_target_displays s) (position_target_count s) (rows s)
    (needs_redraw s) (commands s).
Definition set_pos_direction_highlight v (s : App) : App :=
  mkApp (data s) (state s) (monitor_highlight s) (mode_highlight s)
    (rate_highlight s) (monitor_scroll s) (mode_scroll s) (rate_scroll s)
    (pos_panel_focus s) (pos_target_highlight s) v
    (position_target_displays s) (position_target_count s) (rows s)
    (needs_redraw s) (commands s).
Definition set_position_target_displays v (s : App) : App :=
  mkApp (data s) (state s) (monitor_highlight s) (mode_highlight s)
    (rate_highlight s) (monitor_scroll s) (mode_scroll s) (rate_scroll s)
    (pos_panel_focus s) (pos_target_highlight s) (pos_direction_highlight s)
    v (position_target_count s) (rows s) (needs_redraw s) (commands s).
Definition set_position_target_count v (s : App) : App :=
  mkApp (data s) (state s) (monitor_highlight s) (mode_highlight s)
    (rate_highlight s) (monitor_scroll s) (mode_scroll s) (rate_scroll s)
    (pos_panel_focus s) (pos_target_highlight s) (pos_direction_highlight s)
    (position_target_displays s) v (rows s) (needs_redraw s) (commands s).
Definition set_rows v (s : App) : App :=
  mkApp (data s) (state s) (monitor_highlight s) (mode_highlight s)
    (rate_highlight s) (monitor_scroll s) (mode_scroll s) (rate_scroll s)
    (pos_panel_focus s) (pos_target_highlight s) (pos_direction_highlight s)
    (position_target_displays s) (position_target_count s) v
    (needs_redraw s) (commands s).
Definition set_needs_redraw v (s : App) : App :=
  mkApp (data s) (state s) (monitor_highlight s) (mode_highlight s)
    (rate_highlight s) (monitor_scroll s) (mode_scroll s) (rate_scroll s)
    (pos_panel_focus s) (pos_target_highlight s) (pos_direction_highlight s)
    (position_target_displays s) (position_target_count s) (rows s)
    v (commands s).
Definition run_command (command : string) (s : App) : App :=
  mkApp (data s) (state s) (monitor_highlight s) (mode_highlight s)
    (rate_highlight s) (monitor_scroll s) (mode_scroll s) (rate_scroll s)
    (pos_panel_focus s) (pos_target_highlight s) (pos_direction_highlight s)
    (position_target_displays s) (position_target_count s) (rows s)
    (needs_redraw s) (commands s ++ [command]).

(** ** One round of the main loop *)

(** How a round ends: back to the top of [while (1)], or out of [main]
    ([goto end_loop] and the failure paths) with an exit code. *)
Inductive step : Type :=
| Continue (s : App)
| Return (code : Z).

(** [free(position_target_displays)]: the variable keeps the pointer, which
    now dangles ([Freed]); freeing such a pointer again is undefined. *)
Definition free_targets (s : App) : result App :=
  match position_target_displays s with
  | Null => Ok s
  | Live _ => Ok (set_position_target_displays Freed s)
  | Freed => UB
  end.

(** [free(position_target_displays); position_target_displays = NULL;] *)
Definition free_targets_null (s : App) : result App :=
  s' <- free_targets s ;; Ok (set_position_target_displays Null s').

(** The common tail of the three state-changing cases: the old data is
    freed, [setup_display_data] runs again ([popen] is what xrandr now
    reports), and on success the UI goes back to the top. *)
Definition reparse_and_reset (popen : option string) (s : App) : result step :=
  r <- setup_display_data popen ;;
  match r with
  | None => Ok (Return 1)
  | Some d =>
      let s := set_data d s in
      let s := set_state STATE_MONITOR_SELECT s in
      let s := set_monitor 0 0 s in
      let s := set_mode 0 0 s in
      let s := set_rate 0 0 s in
      Ok (Continue (set_needs_redraw true s))
  end.

(** [(h == 0) ? count - 1 : h - 1] *)
Definition wrap_up (count highlight : Z) : Z :=
  if highlight =? 0 then count - 1 else highlight - 1.

(** [(h + 1) % count]; C's [%] truncates, and a zero divisor is
    undefined. *)
Definition wrap_down (count highlight : Z) : result Z :=
  if count =? 0 then UB else Ok (Z.rem (highlight + 1) count).

(** The scroll adjustment after [wrap_up], for the new [highlight]. *)
Definition scroll_up (count view_height highlight scroll : Z) : Z :=
  if highlight <? scroll then highlight
  else if highlight >=? count - 1
       then (if count >? view_height then count - view_height else 0)
       else scroll.

(** The scroll adjustment after [wrap_down], for the new [highlight]. *)
Definition scroll_down (view_height highlight scroll : Z) : Z :=
  if highlight >=? scroll + view_height then highlight - view_height + 1
  else if highlight =? 0 then 0
  else scroll.

Definition monitor_view_height (s : App) : Z := rows s - 4.
Definition right_panel_view_height (s : App) : Z :=
  let h := rows s - 8 in if h <? 1 then 1 else h.

(** [case KEY_UP: case 'k':] *)
Definition on_up (s : App) : result step :=
  s' <-
    match state s with
    | STATE_MONITOR_SELECT =>
        let h := wrap_up (num_items s) (monitor_highlight s) in
        Ok (set_monitor h
              (scroll_up (num_items s) (monitor_view_height s) h
                 (monitor_scroll s)) s)
    | STATE_MODE_SELECT =>
        d <- array_get (connected_displays s) (monitor_highlight s) ;;
        if mode_count d >? 0 then
          let h := wrap_up (mode_count d) (mode_highlight s) in
          Ok (set_mode h
                (scroll_up (mode_count d) (right_panel_view_height s) h
                   (mode_scroll s)) s)
        else Ok s
    | STATE_POSITION_SELECT =>
        match pos_panel_focus s with
        | POS_PANEL_TARGET =>
            if position_target_count s >? 0 then
              Ok (set_pos_target_highlight
                    (wrap_up (position_target_count s)
                       (pos_target_highlight s)) s)
            else Ok s
        | POS_PANEL_DIRECTION =>
            Ok (set_pos_direction_highlight
                  (wrap_up position_direction_count
                     (pos_direction_highlight s)) s)
        end
    | STATE_RATE_SELECT =>
        d <- array_get (connected_displays s) (monitor_highlight s) ;;
        if mode_count d >? 0 then
          m <- array_get (modes d) (mode_highlight s) ;;
          if rate_count m >? 0 then
            let h := wrap_up (rate_count m) (rate_highlight s) in
            Ok (set_rate h
                  (scroll_up (rate_count m) (right_panel_view_height s) h
                     (rate_scroll s)) s)
          else Ok s
        else Ok s
    end ;;
  Ok (Continue (set_needs_redraw true s')).

(** [case KEY_DOWN: case 'j':] *)
Definition on_down (s : App) : result step :=
  s' <-
    match state s with
    | STATE_MONITOR_SELECT =>
        h <- wrap_down (num_items s) (monitor_highlight s) ;;
        Ok (set_monitor h
              (scroll_down (monitor_view_height s) h (monitor_scroll s)) s)
    | STATE_MODE_SELECT =>
        d <- array_get (connected_displays s) (monitor_highlight s) ;;
        if mode_count d >? 0 then
          h <- wrap_down (mode_count d) (mode_highlight s) ;;
          Ok (set_mode h
                (scroll_down (right_panel_view_height s) h (mode_scroll s)) s)
        else Ok s
    | STATE_POSITION_SELECT =>
        match pos_panel_focus s with
        | POS_PANEL_TARGET =>
            if position_target_count s >? 0 then
              h <- wrap_down (position_target_count s)
                     (pos_target_highlight s) ;;
              Ok (set_pos_target_highlight h s)
            else Ok s
        | POS_PANEL_DIRECTION =>
            h <- wrap_down position_direction_count
                   (pos_direction_highlight s) ;;
            Ok (set_pos_direction_highlight h s)
        end
    | STATE_RATE_SELECT =>
        d <- array_get (connected_displays s) (monitor_highlight s) ;;
        if mode_count d >? 0 then
          m <- array_get (modes d) (mode_highlight s) ;;
          if rate_count m >? 0 then
            h <- wrap_down (rate_count m) (rate_highlight s) ;;
            Ok (set_rate h
                  (scroll_down (right_panel_view_height s) h (rate_scroll s)) s)
          else Ok s
        else Ok s
    end ;;
  Ok (Continue (set_needs_redraw true s')).

(** [case 'o': case 'O':] *)
Definition on_toggle (popen : option string) (s : App) : result step :=
  match state s with
  | STATE_MONITOR_SELECT =>
      if monitor_highlight s <? connected_count s then
        selected_display <-
          array_get (connected_displays s) (monitor_highlight s) ;;
        command <- toggle_display_power_command selected_display ;;
        let s := run_command command s in
        s <- free_targets s ;;
        reparse_and_reset popen s
      else Ok (Continue s)
  | _ => Ok (Continue s)
  end.

(** The loop of [case 'p'] over [connected_displays[i]], skipping
    [i == monitor_highlight] and writing slot [current_target]. *)
Fixpoint fill_targets (connected : list Display) (i monitor_highlight : Z)
  (targets : list (option Display)) (current_target : nat)
  : result (list (option Display)) :=
  match connected with
  | [] => Ok targets
  | d :: connected' =>
      if i =? monitor_highlight
      then fill_targets connected' (i + 1) monitor_highlight targets
             current_target
      else
        targets' <- array_store targets current_target (Some d) ;;
        fill_targets connected' (i + 1) monitor_highlight targets'
          (S current_target)
  end.

(** [case 'p': case 'P':].  The loop runs over the first [connected_count]
    entries of [connected_displays], which are all of them as
    [setup_display_data] builds the two. *)
Definition on_position (s : App) : result step :=
  match state s with
  | STATE_MONITOR_SELECT =>
      if connected_count s >? 1 then
        let s := set_state STATE_POSITION_SELECT s in
        s <- free_targets s ;;
        let s := set_position_target_count (connected_count s - 1) s in
        targets <-
          fill_targets (firstn (Z.to_nat (connected_count s))
                          (connected_displays s))
            0 (monitor_highlight s) (malloc (position_target_count s)) 0 ;;
        match written targets with
        | None => UB
        | Some targets =>
            let s := set_position_target_displays (Live targets) s in
            let s := set_pos_panel_focus POS_PANEL_TARGET s in
            let s := set_pos_target_highlight 0 s in
            let s := set_pos_direction_highlight 0 s in
            Ok (Continue (set_needs_redraw true s))
        end
      else Ok (Continue s)
  | _ => Ok (Continue s)
  end.

(** [case 9:] *)
Definition on_tab (s : App) : result step :=
  match state s with
  | STATE_POSITION_SELECT =>
      let focus :=
        match pos_panel_focus s with
        | POS_PANEL_TARGET => POS_PANEL_DIRECTION
        | POS_PANEL_DIRECTION => POS_PANEL_TARGET
        end in
      Ok (Continue (set_needs_redraw true (set_pos_panel_focus focus s)))
  | _ => Ok (Continue s)
  end.

Definition enter_mode_select (s : App) : App :=
  let s := set_state STATE_MODE_SELECT s in
  let s := set_mode 0 0 s in
  let s := set_rate 0 0 s in
  set_needs_redraw true s.

Definition enter_rate_select (s : App) : App :=
  let s := set_state STATE_RATE_SELECT s in
  let s := set_rate 0 0 s in
  set_needs_redraw true s.

(** [case KEY_RIGHT: case 'l':] *)
Definition on_right (s : App) : result step :=
  match state s with
  | STATE_MONITOR_SELECT =>
      if monitor_highlight s <? connected_count s
      then Ok (Continue (enter_mode_select s))
      else Ok (Continue s)
  | STATE_MODE_SELECT =>
      d <- array_get (connected_displays s) (monitor_highlight s) ;;
      if mode_count d >? 0 then Ok (Continue (enter_rate_select s))
      else Ok (Continue s)
  | _ => Ok (Continue s)
  end.

(** [case KEY_LEFT: case 'h':] *)
Definition on_left (s : App) : result step :=
  match state s with
  | STATE_POSITION_SELECT =>
      let s := set_state STATE_MONITOR_SELECT s in
      s <- free_targets_null s ;;
      let s := set_position_target_count 0 s in
      Ok (Continue (set_needs_redraw true s))
  | STATE_RATE_SELECT =>
      let s := set_state STATE_MODE_SELECT s in
      let s := set_rate 0 0 s in
      Ok (Continue (set_needs_redraw true s))
  | STATE_MODE_SELECT =>
      let s := set_state STATE_MONITOR_SELECT s in
      let s := set_mode 0 0 s in
      Ok (Continue (set_needs_redraw true s))
  | STATE_MONITOR_SELECT => Ok (Continue s)
  end.

(** [position_target_displays[i]] *)
Definition target_get (s : App) (i : Z) : result Display :=
  match position_target_displays s with
  | Live targets => array_get targets i
  | _ => UB
  end.

(** [case 10:] *)
Definition on_enter (popen : option string) (s : App) : result step :=
  match state s with
  | STATE_MONITOR_SELECT =>
      if monitor_highlight s =? connected_count s then Ok (Return 0)
      else Ok (Continue (enter_mode_select s))
  | STATE_MODE_SELECT =>
      d <- array_get (connected_displays s) (monitor_highlight s) ;;
      if mode_count d >? 0 then Ok (Continue (enter_rate_select s))
      else Ok (Continue s)
  | STATE_POSITION_SELECT =>
      source_display <-
        array_get (connected_displays s) (monitor_highlight s) ;;
      target_display <- target_get s (pos_target_highlight s) ;;
      direction <- array_get position_directions (pos_direction_highlight s) ;;
      command <-
        apply_position_settings_command source_display target_display
          direction ;;
      let s := run_command command s in
      s <- free_targets_null s ;;
      reparse_and_reset popen s
  | STATE_RATE_SELECT =>
      selected_display <-
        array_get (connected_displays s) (monitor_highlight s) ;;
      selected_mode <- array_get (modes selected_display) (mode_highlight s) ;;
      selected_rate <-
        array_get (refresh_rates selected_mode) (rate_highlight s) ;;
      command <-
        apply_xrandr_settings_command selected_display selected_mode
          selected_rate ;;
      let s := run_command command s in
      s <- free_targets_null s ;;
      reparse_and_reset popen s
  end.

(** The [case] labels of the [switch (ch)], grouped as in the source;
    [Case_default] stands for a code no label matches. *)
Inductive case_label : Type :=
| Case_q            (* case 'q': case 'Q': *)
| Case_o            (* case 'o': case 'O': *)
| Case_p            (* case 'p': case 'P': *)
| Case_KEY_RESIZE
| Case_KEY_UP       (* case KEY_UP: case 'k': *)
| Case_KEY_DOWN     (* case KEY_DOWN: case 'j': *)
| Case_tab          (* case 9: *)
| Case_KEY_RIGHT    (* case KEY_RIGHT: case 'l': *)
| Case_KEY_LEFT     (* case KEY_LEFT: case 'h': *)
| Case_enter        (* case 10: *)
| Case_default.

Definition case_of (ch : key) : case_label :=
  match ch with
  | Char "q"%char | Char "Q"%char => Case_q
  | Char "o"%char | Char "O"%char => Case_o
  | Char "p"%char | Char "P"%char => Case_p
  | KEY_RESIZE => Case_KEY_RESIZE
  | KEY_UP | Char "k"%char => Case_KEY_UP
  | KEY_DOWN | Char "j"%char => Case_KEY_DOWN
  | Char "009"%char => Case_tab
  | KEY_RIGHT | Char "l"%char => Case_KEY_RIGHT
  | KEY_LEFT | Char "h"%char => Case_KEY_LEFT
  | Char "010"%char => Case_enter
  | _ => Case_default
  end.

(** The statements under each label. *)
Definition case_body (label : case_label) (popen : option string) (s : App)
  : result step :=
  match label with
  | Case_q => Ok (Return 0)                           (* goto end_loop *)
  | Case_o => on_toggle popen s
  | Case_p => on_position s
  | Case_KEY_RESIZE => Ok (Continue (set_needs_redraw true s))
  | Case_KEY_UP => on_up s
  | Case_KEY_DOWN => on_down s
  | Case_tab => on_tab s
  | Case_KEY_RIGHT => on_right s
  | Case_KEY_LEFT => on_left s
  | Case_enter => on_enter popen s
  | Case_default => Ok (Continue s)
  end.

(** The [switch (ch)]. *)
Definition handle_key (ch : key) (popen : option string) (s : App)
  : result step :=
  case_body (case_of ch) popen s.

(** The top of a round: when a redraw is due, [getmaxyx] reads the
    terminal height into [rows] and [needs_redraw] is cleared. *)
Definition redraw (terminal_rows : Z) (s : App) : App :=
  if needs_redraw s
  then set_needs_redraw false (set_rows terminal_rows s)
  else s.

(** One round of [while (1)]: the redraw, then a key is read and handled.
    [popen] is what xrandr reports should this round run it again. *)
Definition iteration (terminal_rows : Z) (ch : key) (popen : option string)
  (s : App) : result step :=
  handle_key ch popen (redraw terminal_rows s).

(** [main] up to the loop: [Ok None] is the [return 1] of a failed setup. *)
Definition main_start (popen : option string) (rows_indeterminate : Z)
  : result (option App) :=
  r <- setup_display_data popen ;;
  match r with
  | None => Ok None
  | Some d => Ok (Some (initial_app d rows_indeterminate))
  end.

(** The rounds of the loop for a list of inputs, until [main] returns. *)
Fixpoint run (inputs : list (Z * key * option string)) (s : App)
  : result step :=
  match inputs with
  | [] => Ok (Continue s)
  | (terminal_rows, ch, popen) :: inputs' =>
      r <- iteration terminal_rows ch popen s ;;
      match r with
      | Continue s' => run inputs' s'
      | Return code => Ok (Return code)
      end
  end.

(** The states the loop can be in at the top of a round. *)
Inductive reachable : App -> Prop :=
| reach_start : forall popen rows0 s,
    main_start popen rows0 = Ok (Some s) -> reachable s
| reach_round : forall s terminal_rows ch popen s',
    reachable s ->
    iteration terminal_rows ch popen s = Ok (Continue s') ->
    reachable s'.

End Tui.

(* ================================================================== *)
(** * tui.c: what is drawn                                              *)
(* ================================================================== *)

Module Draw.
Import LibC Parser Tui.

Definition MIN_ROWS : Z := 20.
Definition MIN_COLS : Z := 80.

Inductive attr : Type :=
| A_REVERSE
| A_BOLD
| A_DIM.

(** The curses calls of the drawing code, in the order they are made;
    [mvprintw] with the text its format and arguments give.  Curses clips
    what falls outside the window, so no position is undefined. *)
Inductive call : Type :=
| Clear                                 (* clear() *)
| Refresh                               (* refresh() *)
| Box                                   (* box(stdscr, 0, 0) *)
| Mvprintw (y x : Z) (text : string)
| Mvvline (y x n : Z)                   (* mvvline(y, x, ACS_VLINE, n) *)
| Wattron (a : attr)
| Wattroff (a : attr).

Definition mvprintw (y x : Z) (fmt : string) (args : list parg)
  : result (list call) :=
  text <- format fmt args ;; Ok [Mvprintw y x text].

(** One statement after another. *)
Definition andthen (a b : result (list call)) : result (list call) :=
  x <- a ;; y <- b ;; Ok (x ++ y)%list.

Notation "a >> b" := (andthen a b) (at level 62, right associativity).

(** [if (b) call;] *)
Definition when (b : bool) (c : call) : result (list call) :=
  if b then Ok [c] else Ok [].

(** [for (int i = ...; cond; i++) body], for at most [fuel] rounds; every
    loop below is given the fuel of its bound (lemma [for_loop_fuel]). *)
Fixpoint for_loop (fuel : nat) (cond : Z -> bool)
  (body : Z -> result (list call)) (i : Z) : result (list call) :=
  match fuel with
  | O => Ok []
  | S fuel' =>
      if cond i then body i >> for_loop fuel' cond body (i + 1) else Ok []
  end.

Definition state_eqb (a b : AppState) : bool :=
  match a, b with
  | STATE_MONITOR_SELECT, STATE_MONITOR_SELECT
  | STATE_MODE_SELECT, STATE_MODE_SELECT
  | STATE_RATE_SELECT, STATE_RATE_SELECT
  | STATE_POSITION_SELECT, STATE_POSITION_SELECT => true
  | _, _ => false
  end.

Definition focus_eqb (a b : PositionPanelFocus) : bool :=
  match a, b with
  | POS_PANEL_TARGET, POS_PANEL_TARGET
  | POS_PANEL_DIRECTION, POS_PANEL_DIRECTION => true
  | _, _ => false
  end.

Definition help_text (state : AppState) : string :=
  match state with
  | STATE_MODE_SELECT =>
      "j/k: Select Mode | h/Left: Back | l/Right/Enter: Select Rate | q: Quit"
  | STATE_POSITION_SELECT =>
      "j/k: Select | Tab: Switch | h/Left: Back | Enter: Apply | q: Quit"
  | STATE_RATE_SELECT =>
      "j/k: Select Rate | h/Left: Back | Enter: Apply | q: Quit"
  | STATE_MONITOR_SELECT =>
      "j/k: Select Display | o: On/Off | p: Position | l/Right/Enter: Modes | q: Quit"
  end.

Definition draw_border (rows cols : Z) (state : AppState)
  : result (list call) :=
  Ok [Box] >>
  mvprintw 0 2 " myrandr - Display Manager " [] >>
  mvprintw (rows - 1) 2 " %s " [P_str (help_text state)].

Definition draw_monitor_list (displays : list Display)
  (display_count total_items highlight : Z) (is_active : bool)
  (scroll_offset view_height : Z) : result (list call) :=
  let x := 2 in
  let y := 2 in
  mvprintw y x "DISPLAYS:" [] >>
  let y := y + 1 in
  for_loop (Z.to_nat view_height)
    (fun i => (i <? view_height) && (scroll_offset + i <? total_items))
    (fun i =>
       let item_index := scroll_offset + i in
       when (item_index =? highlight)
         (Wattron (if is_active then A_REVERSE else A_BOLD)) >>
       (if item_index <? display_count then
          d <- array_get displays item_index ;;
          mvprintw (y + i) (x + 2) "%s [%s]"
            [P_str (name d);
             P_str (if Parser.is_active d then "On" else "Off")]
        else mvprintw (y + i) (x + 2) "Exit" []) >>
       when (item_index =? highlight)
         (Wattroff (if is_active then A_REVERSE else A_BOLD)))
    0.

(** [target_displays[i]] *)
Definition target_at (target_displays : target_array) (i : Z)
  : result Display :=
  match target_displays with
  | Live targets => array_get targets i
  | _ => UB
  end.

Definition draw_position_panel (source_display : Display)
  (target_displays : target_array) (target_count : Z)
  (directions : list string) (direction_count : Z)
  (target_highlight direction_highlight : Z)
  (active_panel : PositionPanelFocus) (y start_col : Z)
  : result (list call) :=
  mvprintw y start_col "Positioning '%s' relative to:"
    [P_str (name source_display)] >>
  let y := y + 1 in
  let y := y + 1 in
  let target_col := start_col in
  let dir_col := start_col + 20 in
  mvprintw y target_col "Target Monitor:" [] >>
  let target_active := focus_eqb active_panel POS_PANEL_TARGET in
  when (negb target_active) (Wattron A_DIM) >>
  for_loop (Z.to_nat target_count) (fun i => i <? target_count)
    (fun i =>
       when (i =? target_highlight)
         (Wattron (if target_active then A_REVERSE else A_BOLD)) >>
       (d <- target_at target_displays i ;;
        mvprintw (y + 1 + i) (target_col + 2) "%s" [P_str (name d)]) >>
       when (i =? target_highlight)
         (Wattroff (if target_active then A_REVERSE else A_BOLD)))
    0 >>
  when (negb target_active) (Wattroff A_DIM) >>
  mvprintw y dir_col "Position:" [] >>
  let dir_active := focus_eqb active_panel POS_PANEL_DIRECTION in
  when (negb dir_active) (Wattron A_DIM) >>
  for_loop (Z.to_nat direction_count) (fun i => i <? direction_count)
    (fun i =>
       when (i =? direction_highlight)
         (Wattron (if dir_active then A_REVERSE else A_BOLD)) >>
       (direction <- array_get directions i ;;
        mvprintw (y + 1 + i) (dir_col + 2) "%s" [P_str direction]) >>
       when (i =? direction_highlight)
         (Wattroff (if dir_active then A_REVERSE else A_BOLD)))
    0 >>
  when (negb dir_active) (Wattroff A_DIM).

(** The inner loop of the search for the current rate: the first rate of
    the mode marked [*]. *)
Fixpoint current_rate_of_mode (refresh_rates : list RefreshRate)
  : option double :=
  match refresh_rates with
  | [] => None
  | r :: refresh_rates' =>
      if is_current r then Some (rate r)
      else current_rate_of_mode refresh_rates'
  end.

(** The outer loop, over [display->modes[i]] in order: [Some] is
    [rate_found] with [current_rate]. *)
Fixpoint find_current_rate (modes : list Mode) : option double :=
  match modes with
  | [] => None
  | m :: modes' =>
      match current_rate_of_mode (refresh_rates m) with
      | Some current_rate => Some current_rate
      | None => find_current_rate modes'
      end
  end.

Definition draw_right_panel (display : Display) (state : AppState)
  (mode_highlight rate_highlight mode_scroll rate_scroll : Z)
  (pos_targets : target_array)
  (pos_target_count pos_target_highlight : Z)
  (pos_directions : list string)
  (pos_direction_count pos_direction_highlight : Z)
  (pos_focus : PositionPanelFocus) (rows cols : Z) : result (list call) :=
  let start_col := Z.quot cols 3 in
  let y := 2 in
  Ok [Mvvline 1 (start_col - 2) (rows - 2)] >>
  mvprintw y start_col "Display: %s (%s)"
    [P_str (name display);
     P_str (if is_primary display then "Primary" else "Secondary")] >>
  let y := y + 1 in
  (if width display >? 0 then
     match find_current_rate (modes display) with
     | Some current_rate =>
         mvprintw y start_col "Current: %dx%d+%d+%d @ %.2fHz"
           [P_int (width display); P_int (height display);
            P_int (x_offset display); P_int (y_offset display);
            P_dbl current_rate]
     | None =>
         mvprintw y start_col "Current: %dx%d+%d+%d"
           [P_int (width display); P_int (height display);
            P_int (x_offset display); P_int (y_offset display)]
     end
   else Ok []) >>
  let y := if width display >? 0 then y + 1 else y in
  let y := y + 1 in
  match state with
  | STATE_MONITOR_SELECT =>
      mvprintw y start_col "Press 'l' or Enter to see modes." [] >>
      mvprintw (y + 1) start_col "Press 'p' to change position." []
  | STATE_POSITION_SELECT =>
      draw_position_panel display pos_targets pos_target_count
        pos_directions pos_direction_count pos_target_highlight
        pos_direction_highlight pos_focus y start_col
  | _ =>
      let mode_col := start_col in
      let mode_y := y in
      mvprintw mode_y mode_col "Modes:" [] >>
      let mode_y := mode_y + 1 in
      let modes_active := state_eqb state STATE_MODE_SELECT in
      let dim := negb modes_active && state_eqb state STATE_RATE_SELECT in
      when dim (Wattron A_DIM) >>
      let list_view_height := rows - 1 - mode_y in
      for_loop (Z.to_nat list_view_height)
        (fun i => (i <? list_view_height)
                  && (mode_scroll + i <? mode_count display))
        (fun i =>
           let item_index := mode_scroll + i in
           when (item_index =? mode_highlight)
             (Wattron (if modes_active then A_REVERSE else A_BOLD)) >>
           (m <- array_get (modes display) item_index ;;
            mvprintw (mode_y + i) (mode_col + 2) "%dx%d"
              [P_int (m_width m); P_int (m_height m)]) >>
           when (item_index =? mode_highlight)
             (Wattroff (if modes_active then A_REVERSE else A_BOLD)))
        0 >>
      when dim (Wattroff A_DIM) >>
      if negb (state_eqb state STATE_RATE_SELECT) then Ok []
      else if (mode_count display =? 0)
              || (mode_highlight >=? mode_count display) then Ok []
      else
        selected_mode <- array_get (modes display) mode_highlight ;;
        let rate_col := start_col + 18 in
        let rate_y := y in
        mvprintw rate_y rate_col "Refresh Rates:" [] >>
        let rate_y := rate_y + 1 in
        for_loop (Z.to_nat list_view_height)
          (fun i => (i <? list_view_height)
                    && (rate_scroll + i <? rate_count selected_mode))
          (fun i =>
             let item_index := rate_scroll + i in
             when (item_index =? rate_highlight) (Wattron A_REVERSE) >>
             (r <- array_get (refresh_rates selected_mode) item_index ;;
              mvprintw (rate_y + i) (rate_col + 2) "%.2fHz%s%s"
                [P_dbl (rate r);
                 P_str (if is_current r then "*" else "");
                 P_str (if is_preferred r then "+" else "")]) >>
             when (item_index =? rate_highlight) (Wattroff A_REVERSE))
          0
  end.

(** The [else] branch of the redraw in [main]: the drawing on a terminal
    of [rows] by [cols] that is not too small. *)
Definition draw_screen (rows cols : Z) (s : App) : result (list call) :=
  let monitor_view_height := rows - 4 in
  draw_border rows cols (state s) >>
  draw_monitor_list (connected_displays s) (connected_count s) (num_items s)
    (monitor_highlight s) (state_eqb (state s) STATE_MONITOR_SELECT)
    (monitor_scroll s) monitor_view_height >>
  if monitor_highlight s <? connected_count s then
    d <- array_get (connected_displays s) (monitor_highlight s) ;;
    draw_right_panel d (state s) (mode_highlight s) (rate_highlight s)
      (mode_scroll s) (rate_scroll s) (position_target_displays s)
      (position_target_count s) (pos_target_highlight s)
      position_directions position_direction_count
      (pos_direction_highlight s) (pos_panel_focus s) rows cols
  else mvprintw 4 (Z.quot cols 2) "Select to quit the application." [].

(** [strlen] returns a [size_t], 64 bits wide here, so [cols - strlen(...)]
    is computed modulo 2^64; the quotient is passed for an [int], a
    conversion that gcc and clang define as the value modulo 2^32. *)
Definition to_size_t (z : Z) : Z := z mod 2 ^ 64.

Definition size_t_to_int (z : Z) : Z :=
  let w := z mod 2 ^ 32 in if w <? 2 ^ 31 then w else w - 2 ^ 32.

(** [(cols - strlen(message)) / 2] as the [int] column of [mvprintw]. *)
Definition centre_col (cols : Z) (message : string) : Z :=
  size_t_to_int
    (to_size_t (cols - Z.of_nat (String.length message)) / to_size_t 2).

(** [rows] and [cols] are what its own [getmaxyx] reads. *)
Definition draw_resize_message (rows cols : Z) : result (list call) :=
  let message1 := "Terminal too small!" in
  let message2 := "Please resize to at least" in
  Ok [Clear] >>
  (size_req <-
     snprintf 50 "%d rows x %d cols" [P_int MIN_ROWS; P_int MIN_COLS] ;;
   (mvprintw (Z.quot rows 2 - 2) (centre_col cols message1) "%s"
      [P_str message1] >>
    mvprintw (Z.quot rows 2 - 1) (centre_col cols message2) "%s"
      [P_str message2] >>
    mvprintw (Z.quot rows 2) (centre_col cols size_req) "%s"
      [P_str size_req])) >>
  Ok [Refresh].

(** The body of [if (needs_redraw)] in [main] after [getmaxyx] has read
    [rows] and [cols], up to the [refresh()]. *)
Definition main_redraw (rows cols : Z) (s : App) : result (list call) :=
  Ok [Clear] >>
  (if (rows <? MIN_ROWS) || (cols <? MIN_COLS)
   then draw_resize_message rows cols
   else draw_screen rows cols s) >>
  Ok [Refresh].

End Draw.

(* ================================================================== *)
(** * Notions of the specification the claims are compared with         *)
(* ================================================================== *)

Module Spec.
Import LibC Parser Tui.

(** The lines of a report as the specification means them: the text cut
    after every newline, however long a line is. *)
Fixpoint logical_lines (stream : string) : list string :=
  match stream with
  | EmptyString => []
  | String c rest =>
      if Ascii.eqb c "010"%char then String c EmptyString :: logical_lines rest
      else match logical_lines rest with
           | [] => [String c EmptyString]
           | line :: lines => String c line :: lines
           end
  end.

(** The text a list of buffers holds, end to end. *)
Fixpoint join (bufs : list string) : string :=
  match bufs with
  | [] => EmptyString
  | buf :: bufs' => (buf ++ join bufs')%string
  end.

(** The parse the specification describes: every logical line handled in
    full. *)
Definition parse_logical (stream : string) : result (option (list Display)) :=
  parse_buffers (logical_lines stream).

(** A header line of the report, as the line loop tests for it. *)
Definition is_header (buf : string) : bool :=
  non_null (strstr (c_str buf) " connected").

(** Decimal digits only. *)
Fixpoint all_digits (s : string) : bool :=
  match s with
  | EmptyString => true
  | String c rest => isdigit c && all_digits rest
  end.

(** White space only. *)
Fixpoint all_space (s : string) : bool :=
  match s with
  | EmptyString => true
  | String c rest => isspace c && all_space rest
  end.

(** The double a decimal numeral [m * 10^e10] is read as. *)
Definition decimal (m e10 : Z) : double := round_dec false m e10.

(** A rate as [rate_loop] creates it, before any marker. *)
Definition plain (v : double) : RefreshRate :=
  {| rate := v; is_current := false; is_preferred := false |}.

(** The list the up and down keys move in, by state and focus: its
    length and the index of the selection in it. *)
Definition active_count (s : App) : result Z :=
  match state s with
  | STATE_MONITOR_SELECT => Ok (num_items s)
  | STATE_MODE_SELECT =>
      d <- array_get (connected_displays s) (monitor_highlight s) ;;
      Ok (mode_count d)
  | STATE_RATE_SELECT =>
      d <- array_get (connected_displays s) (monitor_highlight s) ;;
      m <- array_get (modes d) (mode_highlight s) ;;
      Ok (rate_count m)
  | STATE_POSITION_SELECT =>
      match pos_panel_focus s with
      | POS_PANEL_TARGET => Ok (position_target_count s)
      | POS_PANEL_DIRECTION => Ok position_direction_count
      end
  end.

Definition active_highlight (s : App) : Z :=
  match state s with
  | STATE_MONITOR_SELECT => monitor_highlight s
  | STATE_MODE_SELECT => mode_highlight s
  | STATE_RATE_SELECT => rate_highlight s
  | STATE_POSITION_SELECT =>
      match pos_panel_focus s with
      | POS_PANEL_TARGET => pos_target_highlight s
      | POS_PANEL_DIRECTION => pos_direction_highlight s
      end
  end.

(** The rounds that run a state-changing command: the toggle on a display
    row of MonitorSelect, and Enter in RateSelect and PositionSelect. *)
Definition is_command_transition (ch : key) (s : App) : bool :=
  match case_of ch, state s with
  | Case_o, STATE_MONITOR_SELECT => monitor_highlight s <? connected_count s
  | Case_enter, STATE_RATE_SELECT => true
  | Case_enter, STATE_POSITION_SELECT => true
  | _, _ => false
  end.

(** The display and the mode the selection stands on. *)
Definition selected_display (s : App) : result Display :=
  array_get (connected_displays s) (monitor_highlight s).

Definition selected_mode (s : App) : result Mode :=
  d <- selected_display s ;; array_get (modes d) (mode_highlight s).

(** Panel, focus, every selection index and every scroll offset. *)
Definition navigation (s : App)
  : AppState * PositionPanelFocus * (Z * Z * Z * Z * Z) * (Z * Z * Z) :=
  (state s, pos_panel_focus s,
   (monitor_highlight s, mode_highlight s, rate_highlight s,
    pos_target_highlight s, pos_direction_highlight s),
   (monitor_scroll s, mode_scroll s, rate_scroll s)).

(** Everything of a state but [rows] and [needs_redraw]. *)
Definition content (s : App) :=
  (data s, navigation s, position_target_displays s,
   position_target_count s, commands s).


(** The full text of the set-mode command, before it is put in the
    buffer. *)
Definition full_command (display : Display) (mode : Mode) (r : RefreshRate)
  : string :=
  ("xrandr --output " ++ name display ++ " --mode " ++ fmt_d (m_width mode)
   ++ "x" ++ fmt_d (m_height mode) ++ " --rate " ++ fmt_2f (rate r))%string.

(** What holds of the data and the selection at the top of every round
    (lemma [reachable_invariant]): the menu is one longer than the list of
    connected displays, the monitor selection is on one of its rows, and in
    ModeSelect and RateSelect it is on a display; in RateSelect that
    display has the selected mode. *)
Definition invariant (s : App) : Prop :=
  num_items s = connected_count s + 1
  /\ connected_count s = Z.of_nat (List.length (connected_displays s))
  /\ 0 <= monitor_highlight s <= connected_count s
  /\ match state s with
     | STATE_MONITOR_SELECT | STATE_POSITION_SELECT => True
     | STATE_MODE_SELECT =>
         exists d, selected_display s = Ok d
                   /\ (mode_highlight s = 0
                       \/ 0 <= mode_highlight s < mode_count d)
     | STATE_RATE_SELECT =>
         exists d, selected_display s = Ok d
                   /\ 0 <= mode_highlight s < mode_count d
     end.

End Spec.

(* ================================================================== *)
(** * Reports and data used as concrete inputs                          *)
(* ================================================================== *)

Module Examples.
Import LibC Parser Tui Spec.

Definition nl : string := String "010"%char EmptyString.

Fixpoint spaces (n : nat) : string :=
  match n with
  | O => EmptyString
  | S n' => String " "%char (spaces n')
  end.

(** The report of the specification's scenario. *)
Definition scenario_report : string :=
  ("HDMI-1 connected primary 1920x1080+0+0" ++ nl ++
   "   1920x1080     60.00*+  59.94" ++ nl ++
   "HDMI-2 disconnected" ++ nl)%string.

Definition rate_60_00 : double := decimal 6000 (-2).
Definition rate_59_94 : double := decimal 5994 (-2).

Definition scenario_hdmi1 : Display :=
  {| name := "HDMI-1"; connected := true; is_primary := true;
     is_active := false;
     width := 1920; height := 1080; x_offset := 0; y_offset := 0;
     modes :=
       [{| m_width := 1920; m_height := 1080;
           refresh_rates :=
             [{| rate := rate_60_00; is_current := true; is_preferred := true |};
              {| rate := rate_59_94; is_current := false;
                 is_preferred := false |}] |}] |}.

(** A report with no header line: the screen summary only. *)
Definition headerless_report : string :=
  ("Screen 0: minimum 320 x 200, current 1920 x 1080, maximum 16384 x 16384"
   ++ nl)%string.

(** A report whose mode line is 270 characters long. *)
Definition long_line_report : string :=
  ("HDMI-1 connected" ++ nl ++
   "   1920x1080" ++ spaces 250 ++ "60.00*+" ++ nl)%string.

(** A connected display whose second mode line carries no rate, and a
    second connected display. *)
Definition two_display_report : string :=
  ("HDMI-1 connected primary 1920x1080+0+0" ++ nl ++
   "   1920x1080     60.00*+  59.94" ++ nl ++
   "   1280x720" ++ nl ++
   "DP-1 connected 1280x720+1920+0" ++ nl ++
   "   1280x720      60.00*+" ++ nl)%string.

(** The state after [main] has set up on a report, and after a run of
    keys on a terminal of 24 rows with xrandr reporting the same text. *)
Definition after_keys (report : string) (keys : list key) : result step :=
  r <- main_start (Some report) 0 ;;
  match r with
  | Some s => run (map (fun ch => (24, ch, Some report)) keys) s
  | None => Ok (Return 1)
  end.

Definition enter : key := Char "010"%char.
Definition tab : key := Char "009"%char.

(** What [setup_display_data] builds on the scenario, and [main]'s state
    before the first round. *)
Definition scenario_data : display_data :=
  {| d_displays := [scenario_hdmi1];
     d_menu_items := ["HDMI-1"; "Exit"];
     d_num_items := 2;
     d_connected_displays := [scenario_hdmi1];
     d_connected_count := 1 |}.

Definition scenario_start : App := initial_app scenario_data 0.

Definition mode_1920x1080 (rates : list RefreshRate) : Mode :=
  {| m_width := 1920; m_height := 1080; refresh_rates := rates |}.

(** Rates the parser accepts on a mode line that are not plain two-decimal
    numbers. *)
Definition rate_1e300 : RefreshRate := plain (decimal 1 300).
Definition rate_inf : RefreshRate := plain (D_inf false).

End Examples.

(* ================================================================== *)
(** * Notions used to state further properties of the code              *)
(* ================================================================== *)

Module Props.
Import LibC Parser Tui Draw Spec.

(** A buffer that holds white space only, such as an empty line. *)
Definition blank (buf : string) : bool :=
  match c_str buf with
  | EmptyString => false
  | line => all_space line
  end.

(** The word [%s] takes at the start of a line. *)
Definition first_word (line : string) : string :=
  fst (scan_word (skip_spaces line)).

(** No white space anywhere. *)
Fixpoint no_space (s : string) : bool :=
  match s with
  | EmptyString => true
  | String c rest => negb (isspace c) && no_space rest
  end.








(** [current_display_ptr], when set, points to the last element of
    [displays], a connected display. *)
Definition open_display_ok (st : loop_state) : Prop :=
  match current_display_ptr st with
  | None => True
  | Some i =>
      S i = List.length (Parser.displays st)
      /\ exists d, nth_error (Parser.displays st) i = Some d
                   /\ connected d = true
  end.

(** The state of the line loop with [pre] in front of its array. *)
Definition shift (pre : list Display) (st : loop_state) : loop_state :=
  {| Parser.displays := pre ++ Parser.displays st;
     current_display_ptr :=
       option_map (fun i => (List.length pre + i)%nat) (current_display_ptr st) |}.

(** ** The main loop *)

(** [l] without its element of index [n]. *)
Fixpoint drop_nth {A : Type} (n : nat) (l : list A) {struct l} : list A :=
  match l, n with
  | [], _ => []
  | _ :: l', O => l'
  | x :: l', S n' => x :: drop_nth n' l'
  end.

(** [position_target_displays] is a live array exactly in PositionSelect,
    where the two selections of the panel are inside their lists and the
    monitor selection is on a display; elsewhere it is NULL. *)
Definition position_panel_ok (s : App) : Prop :=
  match state s with
  | STATE_POSITION_SELECT =>
      exists targets,
        position_target_displays s = Live targets
        /\ position_target_count s = Z.of_nat (List.length targets)
        /\ 0 < position_target_count s
        /\ 0 <= pos_target_highlight s < position_target_count s
        /\ 0 <= pos_direction_highlight s < position_direction_count
        /\ monitor_highlight s < connected_count s
  | _ => position_target_displays s = Null
  end.

(** The selections and scroll offsets of the panels that are not open are
    0; in RateSelect the rate selection is 0 or inside the rate list. *)
Definition panels_ok (s : App) : Prop :=
  match state s with
  | STATE_MONITOR_SELECT | STATE_POSITION_SELECT =>
      mode_highlight s = 0 /\ mode_scroll s = 0
      /\ rate_highlight s = 0 /\ rate_scroll s = 0
  | STATE_MODE_SELECT => rate_highlight s = 0 /\ rate_scroll s = 0
  | STATE_RATE_SELECT =>
      forall m, selected_mode s = Ok m ->
                rate_highlight s = 0 \/ 0 <= rate_highlight s < rate_count m
  end.

Definition scrolls_ok (s : App) : Prop :=
  0 <= monitor_scroll s /\ 0 <= mode_scroll s /\ 0 <= rate_scroll s.

Definition discipline (s : App) : Prop :=
  position_panel_ok s /\ panels_ok s /\ scrolls_ok s.

(** A command as the three builders make it: it starts with the xrandr
    call for one output and fits the buffer. *)
Definition xrandr_command (c : string) : Prop :=
  starts_with "xrandr --output " c = true /\ (String.length c <= 255)%nat.

(** The round is [ch] on the Exit row of MonitorSelect with more than one
    connected display, [ch] being the position key. *)
Definition position_on_exit_row (ch : key) (s : App) : Prop :=
  case_of ch = Case_p /\ state s = STATE_MONITOR_SELECT
  /\ monitor_highlight s = connected_count s /\ 1 < connected_count s.

(** The round is Enter in RateSelect on a mode without rates. *)
Definition apply_without_rate (ch : key) (s : App) : Prop :=
  case_of ch = Case_enter /\ state s = STATE_RATE_SELECT
  /\ exists m, selected_mode s = Ok m /\ rate_count m = 0.

(** ** The scroll windows *)

(** The selection [highlight] is one of the [view_height] entries from
    [scroll] on. *)
Definition in_view (scroll highlight view_height : Z) : Prop :=
  scroll <= highlight < scroll + view_height.

(** The view height the key handling uses for the mode and rate lists on
    a terminal of [r] rows. *)
Definition right_view (r : Z) : Z := if r - 8 <? 1 then 1 else r - 8.

(** On a terminal of [r] rows each of the three lists has its selection
    inside its scroll window. *)
Definition windows (r : Z) (s : App) : Prop :=
  in_view (monitor_scroll s) (monitor_highlight s) (r - 4)
  /\ in_view (mode_scroll s) (mode_highlight s) (right_view r)
  /\ in_view (rate_scroll s) (rate_highlight s) (right_view r).

(** [rows] holds [r] unless a redraw is due, which assigns it. *)
Definition sized (r : Z) (s : App) : Prop :=
  needs_redraw s = false -> rows s = r.

(** Every round of [inputs] finds the terminal [r] rows high. *)
Definition at_height (r : Z) (inputs : list (Z * key * option string))
  : Prop :=
  Forall (fun i => fst (fst i) = r) inputs.

(** An entry drawn with the attribute [a] switched on. *)
Definition highlighted (a : attr) (y x : Z) (text : string) : list call :=
  [Wattron a; Mvprintw y x text; Wattroff a].

(** [calls] has [part] as a run of consecutive calls. *)
Definition has_run (part calls : list call) : Prop :=
  exists before after, calls = (before ++ part ++ after)%list.

(** [a] has no undefined behaviour. *)
Definition defined (a : result (list call)) : Prop :=
  exists calls, a = Ok calls.

(** [a] is defined and makes the calls of [part] one after the other. *)
Definition draws (part : list call) (a : result (list call)) : Prop :=
  exists calls, a = Ok calls /\ has_run part calls.

(** The row of the first entry of the mode and rate lists: below the
    name, the current geometry when there is one, a blank row and the
    title. *)
Definition first_list_row (d : Display) : Z :=
  if width d >? 0 then 6 else 5.

Definition mode_row_text (m : Mode) : string :=
  fmt_d (m_width m) ++ "x" ++ fmt_d (m_height m).

Definition rate_row_text (r : RefreshRate) : string :=
  fmt_2f (rate r) ++ "Hz" ++ (if is_current r then "*" else "")
  ++ (if is_preferred r then "+" else "").

(** The text of a row of the monitor list. *)
Definition monitor_row_text (s : App) (i : Z) : string :=
  match nth_error (connected_displays s) (Z.to_nat i) with
  | Some d => name d ++ " [" ++ (if is_active d then "On" else "Off") ++ "]"
  | None => "Exit"
  end.

(** ** Rate tokens *)






(** [a] is defined and none of its calls switches reverse video on. *)
Definition no_reverse (a : result (list call)) : Prop :=
  exists calls, a = Ok calls /\ ~ In (Wattron A_REVERSE) calls.

End Props.

(* ================================================================== *)
(** * Further concrete inputs                                           *)
(* ================================================================== *)

Module Cases.
Import LibC Parser Tui Spec Examples Props.




(** The second display of [two_display_report], as the parser records it. *)
Definition dp1 : Display :=
  {| name := "DP-1"; connected := true; is_primary := false;
     is_active := false;
     width := 1280; height := 720; x_offset := 1920; y_offset := 0;
     modes :=
       [{| m_width := 1280; m_height := 720;
           refresh_rates :=
             [{| rate := rate_60_00; is_current := true;
                 is_preferred := true |}] |}] |}.

(** The rounds of [keys] on a terminal of [r] rows, xrandr reporting
    [report] each time. *)
Definition rounds (r : Z) (report : string) (keys : list key)
  : list (Z * key * option string) :=
  map (fun ch => (r, ch, Some report)) keys.

End Cases.

(* ================================================================== *)
(** * Proofs: the C library and the parser                              *)
(* ================================================================== *)

Import LibC Parser Spec Examples.
Close Scope Z_scope.

(** ** Reading the report buffer by buffer *)

Lemma length_append (a b : string) :
  String.length (a ++ b) = (String.length a + String.length b)%nat.
Proof. induction a as [|c a IH]; simpl; [reflexivity | now rewrite IH]. Qed.

Lemma fgets_read_spec (room : nat) (stream : string) :
  forall got rest, fgets_read room stream = (got, rest) ->
    got ++ rest = stream /\ (String.length got <= room)%nat.
Proof.
  revert stream.
  induction room as [|room IH]; intros stream got rest H; simpl in H.
  - inversion H; subst. split; [reflexivity | simpl; lia].
  - destruct stream as [|c stream].
    + inversion H; subst. split; [reflexivity | simpl; lia].
    + destruct (Ascii.eqb c "010").
      * inversion H; subst. split; [reflexivity | simpl; lia].
      * destruct (fgets_read room stream) as [g r] eqn:E.
        inversion H; subst. destruct (IH _ _ _ E) as [Happ Hlen].
        split; [simpl; now rewrite Happ | simpl; lia].
Qed.

Lemma fgets_read_progress (room : nat) (c : ascii) (stream got rest : string) :
  fgets_read (S room) (String c stream) = (got, rest) ->
  (String.length rest < String.length (String c stream))%nat.
Proof.
  intros H. simpl in H. destruct (Ascii.eqb c "010").
  - inversion H; subst. simpl. lia.
  - destruct (fgets_read room stream) as [g r] eqn:E. inversion H; subst.
    apply fgets_read_spec in E. destruct E as [E _].
    rewrite <- E. simpl. rewrite length_append. lia.
Qed.


Lemma fgets_loop_complete (size : nat) :
  forall fuel stream, (String.length stream <= fuel)%nat ->
    join (fgets_loop fuel (S (S size)) stream) = stream.
Proof.
  induction fuel as [|fuel IH]; intros stream Hlen.
  - destruct stream; [reflexivity | simpl in Hlen; lia].
  - destruct stream as [|c stream]; [reflexivity|].
    cbn [fgets_loop fgets]. replace (S (S size) - 1)%nat with (S size) by lia.
    destruct (fgets_read (S size) (String c stream)) as [got rest] eqn:E.
    cbn [join]. rewrite IH.
    + now apply fgets_read_spec in E.
    + apply fgets_read_progress in E. simpl in *. lia.
Qed.

Lemma fgets_loop_bounded (room : nat) :
  forall fuel stream,
    Forall (fun buf => (String.length buf <= room)%nat)
      (fgets_loop fuel (S room) stream).
Proof.
  induction fuel as [|fuel IH]; intros stream; [constructor|].
  destruct stream as [|c stream]; [constructor|].
  cbn [fgets_loop fgets]. replace (S room - 1)%nat with room by lia.
  destruct (fgets_read room (String c stream)) as [got rest] eqn:E.
  constructor; [|apply IH].
  now apply fgets_read_spec in E.
Qed.

Lemma logical_lines_nil (stream : string) :
  logical_lines stream = [] -> stream = "".
Proof.
  destruct stream as [|c stream]; [reflexivity|]. simpl.
  destruct (Ascii.eqb c "010"); [discriminate|].
  destruct (logical_lines stream); discriminate.
Qed.

Lemma fgets_read_line :
  forall stream room line lines,
    logical_lines stream = line :: lines ->
    (String.length line <= room)%nat ->
    exists rest, fgets_read room stream = (line, rest)
                 /\ logical_lines rest = lines.
Proof.
  induction stream as [|c stream IH]; intros room line lines Hl Hroom.
  - discriminate.
  - simpl in Hl. destruct (Ascii.eqb c "010") eqn:Ec.
    + inversion Hl; subst. destruct room as [|room]; [simpl in Hroom; lia|].
      exists stream. simpl. now rewrite Ec.
    + destruct (logical_lines stream) as [|l ls] eqn:El.
      * inversion Hl; subst. apply logical_lines_nil in El. subst.
        destruct room as [|room]; [simpl in Hroom; lia|].
        exists "". simpl. rewrite Ec. destruct room; auto.
      * inversion Hl; subst. destruct room as [|room]; [simpl in Hroom; lia|].
        destruct (IH room l lines eq_refl) as [rest [Hr Hrest]];
          [simpl in Hroom; lia|].
        exists rest. simpl. rewrite Ec, Hr. auto.
Qed.

Lemma fgets_loop_lines (size : nat) :
  forall fuel stream,
    (String.length stream <= fuel)%nat ->
    Forall (fun line => (String.length line < size)%nat) (logical_lines stream) ->
    fgets_loop fuel size stream = logical_lines stream.
Proof.
  induction fuel as [|fuel IH]; intros stream Hlen Hall.
  - destruct stream; [reflexivity | simpl in Hlen; lia].
  - destruct stream as [|c stream]; [reflexivity|].
    destruct (logical_lines (String c stream)) as [|line lines] eqn:El.
    + apply logical_lines_nil in El. discriminate.
    + inversion Hall as [|? ? Hline Hlines]; subst.
      destruct (fgets_read_line _ (size - 1) _ _ El) as [rest [Hr Hrest]];
        [lia|].
      cbn [fgets_loop fgets]. rewrite Hr. f_equal.
      rewrite IH; [assumption | | now rewrite Hrest].
      destruct size as [|[|size]]; [lia | | ].
      * simpl in Hline. destruct line; [|simpl in Hline; lia].
        simpl in Hr. inversion Hr; subst.
        simpl in El. destruct (Ascii.eqb c "010"); [discriminate|].
        destruct (logical_lines stream); discriminate.
      * replace (S (S size) - 1)%nat with (S size) in Hr by lia.
        apply fgets_read_progress in Hr. simpl in *. lia.
Qed.

(** ** The scans reach their end *)

Lemma skip_spaces_length (s : string) :
  (String.length (skip_spaces s) <= String.length s)%nat.
Proof.
  induction s as [|c s IH]; simpl; [lia|].
  destruct (isspace c); simpl; lia.
Qed.

Lemma scan_sign_length (s : string) :
  (String.length (snd (scan_sign s)) <= String.length s)%nat.
Proof.
  destruct s as [|c s]; simpl; [lia|].
  destruct (Ascii.eqb c "-"); [simpl; lia|].
  destruct (Ascii.eqb c "+"); simpl; lia.
Qed.

Lemma scan_digits_length (s : string) :
  forall acc n v n' rest,
    scan_digits acc n s = (v, n', rest) ->
    (String.length rest + n' = String.length s + n)%nat.
Proof.
  induction s as [|c s IH]; intros acc n v n' rest H; simpl in H.
  - inversion H; subst. reflexivity.
  - destruct (isdigit c).
    + apply IH in H. simpl. lia.
    + inversion H; subst. reflexivity.
Qed.

Lemma scan_xdigits_length (s : string) :
  forall acc n v n' rest,
    scan_xdigits acc n s = (v, n', rest) ->
    (String.length rest + n' = String.length s + n)%nat.
Proof.
  induction s as [|c s IH]; intros acc n v n' rest H; simpl in H.
  - inversion H; subst. reflexivity.
  - destruct (isxdigit c).
    + apply IH in H. simpl. lia.
    + inversion H; subst. reflexivity.
Qed.

Lemma scan_exponent_length (letter : ascii) (s : string) :
  (String.length (snd (scan_exponent letter s)) <= String.length s)%nat.
Proof.
  unfold scan_exponent. destruct s as [|c s]; simpl; [lia|].
  destruct (Ascii.eqb (tolower c) letter); simpl; [|lia].
  pose proof (scan_sign_length s) as Hs.
  destruct (scan_sign s) as [neg s2]. simpl in Hs.
  destruct (scan_digits 0 0 s2) as [[v n] rest] eqn:E.
  apply scan_digits_length in E.
  destruct n; simpl; lia.
Qed.

Lemma scan_dec_float_progress (neg : bool) (s : string) v rest :
  scan_dec_float neg s = Some (v, rest) ->
  (String.length rest < String.length s)%nat.
Proof.
  unfold scan_dec_float.
  destruct (scan_digits 0 0 s) as [[m1 n1] r1] eqn:E1.
  apply scan_digits_length in E1.
  assert (Hfrac : forall m2 n2 r2,
    match r1 with
    | String c r => if Ascii.eqb c "." then scan_digits m1 0 r else (m1, O, r1)
    | EmptyString => (m1, O, r1)
    end = (m2, n2, r2) ->
    (n2 = 0%nat /\ r2 = r1) \/ (String.length r2 + n2 < String.length r1)%nat).
  { intros m2 n2 r2 H. destruct r1 as [|c r].
    - inversion H; auto.
    - destruct (Ascii.eqb c ".").
      + apply scan_digits_length in H. right. simpl. lia.
      + inversion H; auto. }
  destruct (match r1 with
            | String c r => if Ascii.eqb c "." then scan_digits m1 0 r else (m1, O, r1)
            | EmptyString => (m1, O, r1)
            end) as [[m2 n2] r2] eqn:E2.
  specialize (Hfrac _ _ _ eq_refl).
  destruct (n1 + n2)%nat eqn:En; [discriminate|].
  pose proof (scan_exponent_length "e" r2) as He.
  destruct (scan_exponent "e" r2) as [ex r3]. simpl in He.
  intros H. inversion H; subst.
  destruct Hfrac as [[? ?]|?]; subst; lia.
Qed.

Lemma scan_hex_float_progress (neg : bool) (s : string) v rest :
  scan_hex_float neg s = Some (v, rest) ->
  (String.length rest < String.length s)%nat.
Proof.
  unfold scan_hex_float.
  destruct (scan_xdigits 0 0 s) as [[m1 n1] r1] eqn:E1.
  apply scan_xdigits_length in E1.
  assert (Hfrac : forall m2 n2 r2,
    match r1 with
    | String c r => if Ascii.eqb c "." then scan_xdigits m1 0 r else (m1, O, r1)
    | EmptyString => (m1, O, r1)
    end = (m2, n2, r2) ->
    (n2 = 0%nat /\ r2 = r1) \/ (String.length r2 + n2 < String.length r1)%nat).
  { intros m2 n2 r2 H. destruct r1 as [|c r].
    - inversion H; auto.
    - destruct (Ascii.eqb c ".").
      + apply scan_xdigits_length in H. right. simpl. lia.
      + inversion H; auto. }
  destruct (match r1 with
            | String c r => if Ascii.eqb c "." then scan_xdigits m1 0 r else (m1, O, r1)
            | EmptyString => (m1, O, r1)
            end) as [[m2 n2] r2] eqn:E2.
  specialize (Hfrac _ _ _ eq_refl).
  destruct (n1 + n2)%nat eqn:En; [discriminate|].
  pose proof (scan_exponent_length "p" r2) as He.
  destruct (scan_exponent "p" r2) as [ex r3]. simpl in He.
  intros H. inversion H; subst.
  destruct Hfrac as [[? ?]|?]; subst; lia.
Qed.

Lemma str_drop_length (n : nat) (s : string) :
  String.length (str_drop n s) = (String.length s - n)%nat.
Proof.
  revert s. induction n as [|n IH]; intros s; simpl; [lia|].
  destruct s; simpl; [reflexivity | apply IH].
Qed.

Lemma starts_with_nocase_length (needle s : string) :
  starts_with_nocase needle s = true ->
  (String.length needle <= String.length s)%nat.
Proof.
  revert s. induction needle as [|a needle IH]; intros s H; simpl; [lia|].
  destruct s as [|b s]; simpl in H; [discriminate|].
  apply andb_true_iff in H. destruct H as [_ H]. apply IH in H. simpl. lia.
Qed.

Lemma skip_alnum_length (s : string) :
  (String.length (skip_alnum_ s) <= String.length s)%nat.
Proof.
  induction s as [|c s IH]; simpl; [lia|].
  destruct (isalnum_ c); simpl; lia.
Qed.

Lemma skip_nan_payload_length (s : string) :
  (String.length (skip_nan_payload s) <= String.length s)%nat.
Proof.
  unfold skip_nan_payload. destruct s as [|c r]; [simpl; lia|].
  destruct (Ascii.eqb c "("); [|lia].
  pose proof (skip_alnum_length r) as H.
  destruct (skip_alnum_ r) as [|c' r']; [lia|].
  destruct (Ascii.eqb c' ")"); simpl in *; lia.
Qed.

(** A conversion by [strtod] moves [endptr] forward. *)
Lemma strtod_progress (nptr : string) v endptr :
  strtod nptr = Some (v, endptr) ->
  (String.length endptr < String.length nptr)%nat.
Proof.
  unfold strtod.
  pose proof (skip_spaces_length nptr) as H1.
  pose proof (scan_sign_length (skip_spaces nptr)) as H2.
  destruct (scan_sign (skip_spaces nptr)) as [neg s]. simpl in H2.
  pose proof (str_drop_length 8 s) as L8.
  pose proof (str_drop_length 3 s) as L3.
  pose proof (str_drop_length 2 s) as L2.
  pose proof (skip_nan_payload_length (str_drop 3 s)) as Lp.
  set (d8 := str_drop 8 s) in *. set (d3 := str_drop 3 s) in *.
  set (d2 := str_drop 2 s) in *. clearbody d8 d3 d2.
  destruct (starts_with_nocase "infinity" s) eqn:E1.
  { intros [= <- <-]. apply starts_with_nocase_length in E1.
    simpl in E1. lia. }
  destruct (starts_with_nocase "inf" s) eqn:E2.
  { intros [= <- <-]. apply starts_with_nocase_length in E2.
    simpl in E2. lia. }
  destruct (starts_with_nocase "nan" s) eqn:E3.
  { intros [= <- <-]. apply starts_with_nocase_length in E3.
    simpl in E3. lia. }
  destruct (starts_with_nocase "0x" s) eqn:E4.
  - destruct (scan_hex_float neg d2) as [[v' r']|] eqn:Eh.
    + intros [= <- <-]. apply scan_hex_float_progress in Eh. lia.
    + intros H. apply scan_dec_float_progress in H. lia.
  - intros H. apply scan_dec_float_progress in H. lia.
Qed.

(** [marker_loop] gives the same result for any fuel above the length of
    the text: it reaches its [break]. *)
Lemma marker_loop_fuel :
  forall f1 f2 r ptr,
    (String.length ptr < f1)%nat -> (String.length ptr < f2)%nat ->
    marker_loop f1 r ptr = marker_loop f2 r ptr.
Proof.
  induction f1 as [|f1 IH]; intros f2 r ptr H1 H2; [lia|].
  destruct f2 as [|f2]; [lia|]. simpl.
  pose proof (skip_spaces_length ptr) as Hs.
  destruct (skip_spaces ptr) as [|c p]; [reflexivity|]. simpl in Hs.
  destruct (Ascii.eqb c "*"); [apply IH; lia|].
  destruct (Ascii.eqb c "+"); [apply IH; lia|]. reflexivity.
Qed.

Lemma marker_loop_length :
  forall f r ptr,
    (String.length (snd (marker_loop f r ptr)) <= String.length ptr)%nat.
Proof.
  induction f as [|f IH]; intros r ptr; simpl; [lia|].
  pose proof (skip_spaces_length ptr) as Hs.
  destruct (skip_spaces ptr) as [|c p]; [simpl; lia|]. simpl in Hs.
  destruct (Ascii.eqb c "*").
  { specialize (IH (set_current r) p). lia. }
  destruct (Ascii.eqb c "+").
  { specialize (IH (set_preferred r) p). lia. }
  simpl. lia.
Qed.

(** At its [break], [marker_loop] has left no white space and no marker
    in front of [ptr]. *)
Lemma marker_loop_stops :
  forall f r ptr,
    (String.length ptr < f)%nat ->
    match snd (marker_loop f r ptr) with
    | String c _ =>
        isspace c = false /\ Ascii.eqb c "*" = false /\ Ascii.eqb c "+" = false
    | EmptyString => True
    end.
Proof.
  assert (Hskip : forall s c p, skip_spaces s = String c p -> isspace c = false).
  { induction s as [|a s IH]; intros c p H; simpl in H; [discriminate|].
    destruct (isspace a) eqn:Ea; [eauto|]. inversion H; subst. exact Ea. }
  induction f as [|f IH]; intros r ptr Hlen; [lia|]. simpl.
  pose proof (skip_spaces_length ptr) as Hs.
  destruct (skip_spaces ptr) as [|c p] eqn:E; [exact I|]. simpl in Hs.
  destruct (Ascii.eqb c "*") eqn:E1; [apply IH; lia|].
  destruct (Ascii.eqb c "+") eqn:E2; [apply IH; lia|].
  simpl. eauto.
Qed.

(** [rate_loop] gives the same result for any fuel above the length of the
    text: it reaches its [break]. *)
Lemma rate_loop_fuel :
  forall f1 f2 ptr,
    (String.length ptr < f1)%nat -> (String.length ptr < f2)%nat ->
    rate_loop f1 ptr = rate_loop f2 ptr.
Proof.
  induction f1 as [|f1 IH]; intros f2 ptr H1 H2; [lia|].
  destruct f2 as [|f2]; [lia|]. simpl.
  destruct (strtod ptr) as [[v endptr]|] eqn:E; [|reflexivity].
  apply strtod_progress in E.
  pose proof (marker_loop_length (S (String.length endptr))
                {| rate := v; is_current := false; is_preferred := false |}
                endptr) as Hm.
  unfold scan_markers.
  destruct (marker_loop _ _ endptr) as [r' ptr']. simpl in Hm.
  f_equal. apply IH; lia.
Qed.

(** One round of the rate scan, with the fuel folded back. *)
Lemma scan_rates_step (ptr : string) :
  scan_rates ptr =
  match strtod ptr with
  | None => []
  | Some (v, endptr) =>
      let (r, ptr') :=
        scan_markers {| rate := v; is_current := false; is_preferred := false |}
          endptr in
      r :: scan_rates ptr'
  end.
Proof.
  unfold scan_rates at 1. simpl.
  destruct (strtod ptr) as [[v endptr]|] eqn:E; [|reflexivity].
  apply strtod_progress in E.
  pose proof (marker_loop_length (S (String.length endptr))
                {| rate := v; is_current := false; is_preferred := false |}
                endptr) as Hm.
  unfold scan_markers in *.
  destruct (marker_loop _ _ endptr) as [r' ptr']. simpl in Hm.
  f_equal. apply rate_loop_fuel; lia.
Qed.

(** One round of the marker scan, with the fuel folded back. *)
Lemma scan_markers_step (r : RefreshRate) (ptr : string) :
  scan_markers r ptr =
  match skip_spaces ptr with
  | String c ptr' =>
      if Ascii.eqb c "*" then scan_markers (set_current r) ptr'
      else if Ascii.eqb c "+" then scan_markers (set_preferred r) ptr'
      else (r, String c ptr')
  | EmptyString => (r, "")
  end.
Proof.
  unfold scan_markers at 1. simpl.
  pose proof (skip_spaces_length ptr) as Hs.
  destruct (skip_spaces ptr) as [|c p]; [reflexivity|]. simpl in Hs.
  unfold scan_markers.
  destruct (Ascii.eqb c "*"); [apply marker_loop_fuel; lia|].
  destruct (Ascii.eqb c "+"); [apply marker_loop_fuel; lia|]. reflexivity.
Qed.

(** ** The scan of a mode line *)

(** [sscanf(line, " %dx%d %n", &w, &h, &n) == 2] holds exactly when the two
    numbers and the count are stored. *)
Lemma mode_scan_returns_2 (line : string) :
  assigned (sscanf line " %dx%d %n") = 2%Z <->
  exists w h n, sscanf line " %dx%d %n" = [St_int w; St_int h; St_count n].
Proof.
  unfold sscanf. cbn [parse_format isspace].
  cbn [run_scanf].
  destruct (scan_int (skip_spaces (skip_spaces line))) as [[w r1]|];
    [|split; [discriminate | intros (w & h & n & H); discriminate]].
  destruct r1 as [|c r1];
    [split; [discriminate | intros (w' & h & n & H); discriminate]|].
  destruct (Ascii.eqb "x" c);
    [|split; [discriminate | intros (w' & h & n & H); discriminate]].
  destruct (scan_int (skip_spaces r1)) as [[h r2]|];
    [|split; [discriminate | intros (w' & h & n & H); discriminate]].
  split; [intros _; eauto | reflexivity].
Qed.

(** ** Markers *)

(** The double read from [60.00] is 60 exactly. *)
Lemma rate_60_00_exact : rate_60_00 = D_finite false (60 * 2 ^ 47) (-47).
Proof. vm_compute. reflexivity. Qed.

Lemma marker_loop_keeps :
  forall f r ptr,
    rate (fst (marker_loop f r ptr)) = rate r
    /\ (is_current r = true -> is_current (fst (marker_loop f r ptr)) = true)
    /\ (is_preferred r = true -> is_preferred (fst (marker_loop f r ptr)) = true).
Proof.
  induction f as [|f IH]; intros r ptr; simpl; [auto|].
  destruct (skip_spaces ptr) as [|c p]; [simpl; auto|].
  destruct (Ascii.eqb c "*").
  { destruct (IH (set_current r) p) as [H1 [H2 H3]]. simpl in *. auto. }
  destruct (Ascii.eqb c "+").
  { destruct (IH (set_preferred r) p) as [H1 [H2 H3]]. simpl in *. auto. }
  simpl. auto.
Qed.

Lemma scan_markers_both (v : double) (ptr : string) :
  fst (scan_markers {| rate := v; is_current := true; is_preferred := true |} ptr)
  = {| rate := v; is_current := true; is_preferred := true |}.
Proof.
  unfold scan_markers.
  destruct (marker_loop_keeps (S (String.length ptr))
              {| rate := v; is_current := true; is_preferred := true |} ptr)
    as [H1 [H2 H3]].
  destruct (fst (marker_loop _ _ ptr)) as [v' c p]. simpl in *.
  rewrite H1, H2, H3; reflexivity.
Qed.

Lemma strtod_60_00 (c : ascii) (rest : string) :
  c = "*"%char \/ c = "+"%char ->
  strtod ("60.00" ++ String c rest) = Some (rate_60_00, String c rest).
Proof. intros [-> | ->]; vm_compute; reflexivity. Qed.


(** The markers act on each flag by itself: the flags after the scan are
    those before it, or-ed with what the same text does to a plain rate. *)
Lemma marker_loop_or :
  forall f r ptr,
    marker_loop f r ptr =
    ({| rate := rate r;
        is_current :=
          is_current r || is_current (fst (marker_loop f (plain (rate r)) ptr));
        is_preferred :=
          is_preferred r
          || is_preferred (fst (marker_loop f (plain (rate r)) ptr)) |},
     snd (marker_loop f (plain (rate r)) ptr)).
Proof.
  induction f as [|f IH]; intros [v c p] ptr; simpl.
  - now rewrite !orb_false_r.
  - destruct (skip_spaces ptr) as [|a q]; simpl.
    + now rewrite !orb_false_r.
    + destruct (Ascii.eqb a "*").
      { rewrite (IH (set_current (plain v))), (IH (set_current _)). simpl.
        now rewrite !orb_true_r. }
      destruct (Ascii.eqb a "+").
      { rewrite (IH (set_preferred (plain v))), (IH (set_preferred _)). simpl.
        now rewrite !orb_true_r. }
      simpl. now rewrite !orb_false_r.
Qed.

(** In the rate scan [60.00*+] and [60.00+*] both give a rate with
    [is_current] and [is_preferred] set, whatever follows; the two markers
    can come in either order and a repeated marker changes nothing. *)
Lemma rate_scan_marker_orders :
  forall rest : string,
    let both := {| rate := rate_60_00; is_current := true; is_preferred := true |} in
    (exists tl, scan_rates ("60.00*+" ++ rest) = both :: tl)
    /\ (exists tl, scan_rates ("60.00+*" ++ rest) = both :: tl)
    /\ (forall r, scan_markers r ("*+" ++ rest) = scan_markers r ("+*" ++ rest))
    /\ (forall r, scan_markers r ("**" ++ rest) = scan_markers r ("*" ++ rest))
    /\ (forall r, scan_markers r ("++" ++ rest) = scan_markers r ("+" ++ rest))
    /\ (forall r,
          let seen := fst (scan_markers (plain (rate r)) rest) in
          fst (scan_markers r rest) =
          {| rate := rate r;
             is_current := is_current r || is_current seen;
             is_preferred := is_preferred r || is_preferred seen |}).
Proof.
  intros rest both. split; [|split; [|split; [|split; [|split]]]].
  - rewrite scan_rates_step.
    change ("60.00*+" ++ rest) with ("60.00" ++ String "*" (String "+" rest)).
    rewrite strtod_60_00 by auto.
    rewrite scan_markers_step. cbn [skip_spaces isspace Ascii.eqb Bool.eqb].
    rewrite scan_markers_step. cbn [skip_spaces isspace Ascii.eqb Bool.eqb].
    pose proof (scan_markers_both rate_60_00 rest) as H.
    unfold set_preferred, set_current; cbn [rate is_current is_preferred].
    destruct (scan_markers _ rest) as [r' ptr']. simpl in H. subst r'.
    eexists. reflexivity.
  - rewrite scan_rates_step.
    change ("60.00+*" ++ rest) with ("60.00" ++ String "+" (String "*" rest)).
    rewrite strtod_60_00 by auto.
    rewrite scan_markers_step. cbn [skip_spaces isspace Ascii.eqb Bool.eqb].
    rewrite scan_markers_step. cbn [skip_spaces isspace Ascii.eqb Bool.eqb].
    pose proof (scan_markers_both rate_60_00 rest) as H.
    unfold set_preferred, set_current; cbn [rate is_current is_preferred].
    destruct (scan_markers _ rest) as [r' ptr']. simpl in H. subst r'.
    eexists. reflexivity.
  - intros r. reflexivity.
  - intros r. reflexivity.
  - intros r. reflexivity.
  - intros r seen. unfold seen, scan_markers.
    now rewrite marker_loop_or.
Qed.

Lemma skip_spaces_all_space (ws : string) (c : ascii) (rest : string) :
  all_space ws = true -> isspace c = false ->
  skip_spaces (ws ++ String c rest) = String c rest.
Proof.
  intros Hws Hc. induction ws as [|a ws IH]; simpl.
  - now rewrite Hc.
  - simpl in Hws. apply andb_true_iff in Hws. destruct Hws as [Ha Hws].
    rewrite Ha. auto.
Qed.

(** C10: when [strtod] has read a rate and white space stands between the
    number and a [*] or [+], the marker still goes to that rate: the first
    rate of the scan has the number as its value and the flag of the
    marker set. *)
Theorem C10_detached_marker :
  forall (ptr : string) (v : double) (ws : string) (marker : ascii)
         (rest : string),
    strtod ptr = Some (v, ws ++ String marker rest) ->
    all_space ws = true ->
    marker = "*"%char \/ marker = "+"%char ->
    exists r tl,
      scan_rates ptr = r :: tl
      /\ rate r = v
      /\ (marker = "*"%char -> is_current r = true)
      /\ (marker = "+"%char -> is_preferred r = true).
Proof.
  intros ptr v ws marker rest Hconv Hws Hmarker.
  rewrite scan_rates_step, Hconv, scan_markers_step.
  rewrite skip_spaces_all_space
    by (auto; destruct Hmarker as [-> | ->]; reflexivity).
  destruct Hmarker as [-> | ->]; cbn [Ascii.eqb Bool.eqb].
  - unfold scan_markers.
    destruct (marker_loop_keeps (S (String.length rest))
                (set_current (plain v)) rest) as [H1 [H2 _]].
    fold (plain v).
    destruct (marker_loop _ _ rest) as [r ptr']. simpl in *.
    exists r, (scan_rates ptr'). repeat split; auto. discriminate.
  - unfold scan_markers.
    destruct (marker_loop_keeps (S (String.length rest))
                (set_preferred (plain v)) rest) as [H1 [_ H3]].
    fold (plain v).
    destruct (marker_loop _ _ rest) as [r ptr']. simpl in *.
    exists r, (scan_rates ptr'). repeat split; auto. discriminate.
Qed.

(** The theorem at the text [60.00 *  59.94]. *)
Lemma C10_detached_marker_witness :
  exists r tl,
    scan_rates "60.00 *  59.94" = r :: tl
    /\ rate r = rate_60_00
    /\ ("*"%char = "*"%char -> is_current r = true)
    /\ ("*"%char = "+"%char -> is_preferred r = true).
Proof.
  apply (C10_detached_marker "60.00 *  59.94" rate_60_00 " " "*" "  59.94").
  - vm_compute. reflexivity.
  - reflexivity.
  - left. reflexivity.
Defined.

(** A marker standing alone, and a [+] in front of the next number, both
    go to the rate before them. *)
Example detached_markers_line :
  scan_rates ("60.00 *  59.94 +" ++ nl)
  = [ {| rate := rate_60_00; is_current := true; is_preferred := false |};
      {| rate := rate_59_94; is_current := false; is_preferred := true |} ]
  /\ scan_rates ("60.00 +59.94" ++ nl)
     = [ {| rate := rate_60_00; is_current := false; is_preferred := true |};
         {| rate := rate_59_94; is_current := false; is_preferred := false |} ].
Proof. split; vm_compute; reflexivity. Qed.

(** The same through the whole parser: two mode lines that differ in the
    order of the markers give the same rates. *)
Example marker_order_report :
  option_map (map (fun d => map refresh_rates (modes d)))
    match parse_xrandr_output
            (Some ("DP-1 connected" ++ nl ++ "   1920x1080  60.00*+" ++ nl
                   ++ "   1920x1080  60.00+*" ++ nl)) with
    | Ok r => r | UB => None end
  = Some [[ [ {| rate := rate_60_00; is_current := true;
                 is_preferred := true |} ];
            [ {| rate := rate_60_00; is_current := true;
                 is_preferred := true |} ] ]].
Proof. vm_compute. reflexivity. Qed.

(** ** What the line loop records *)

Lemma store_ints_connected (fields : list (Z -> Display -> Display)) :
  Forall (fun set => forall z d, connected (set z d) = connected d) fields ->
  forall vals d d',
    store_ints fields vals d = Ok d' -> connected d' = connected d.
Proof.
  induction 1 as [|set fields Hset _ IH]; intros vals d d' H.
  - simpl in H. now inversion H.
  - destruct vals as [|[s|z|n] vals]; simpl in H; try (now inversion H).
    destruct (in_int z); [|discriminate].
    rewrite (IH _ _ _ H). apply Hset.
Qed.

Lemma store_header_connected (vals : list stored) (d d' : Display) :
  store_header vals d = Ok d' -> connected d' = connected d.
Proof.
  unfold store_header, store_name.
  destruct vals as [|[s|z|n] vals]; try (intros [= <-]; reflexivity).
  destruct (String.length s <=? 31)%nat; [|discriminate]. cbn [bind].
  intros H. apply store_ints_connected in H; [exact H|].
  repeat constructor.
Qed.

Lemma array_store_length {A : Type} (a : list A) :
  forall i x a', array_store a i x = Ok a' -> List.length a' = List.length a.
Proof.
  induction a as [|y a IH]; intros i x a' H; simpl in H; [discriminate|].
  destruct i as [|i].
  - inversion H; reflexivity.
  - destruct (array_store a i x) as [a''|] eqn:E; [|discriminate].
    simpl in H. inversion H; subst. simpl. f_equal. eauto.
Qed.





(** C1 (the code departs from the claim): on the report of the scenario
    the parser returns one display, the connected HDMI-1; the line of
    HDMI-2 is no header line for it, and no display is recorded for
    HDMI-2. *)
Theorem C1_scenario_drops_disconnected :
  parse_xrandr_output (Some scenario_report) = Ok (Some [scenario_hdmi1])
  /\ display_count_of (Some [scenario_hdmi1]) = 1%Z
  /\ is_header ("HDMI-2 disconnected" ++ nl) = false.
Proof. repeat split; vm_compute; reflexivity. Qed.

(** ** Reports without a header line *)

Lemma line_loop_no_header (bufs : list string) :
  Forall (fun buf => is_header buf = false) bufs ->
  line_loop bufs initial_state = Ok initial_state.
Proof.
  induction 1 as [|buf bufs Hbuf _ IH]; [reflexivity|].
  simpl. unfold process_line. unfold is_header in Hbuf. rewrite Hbuf.
  simpl. exact IH.
Qed.

Lemma process_line_grows (st st' : loop_state) (buf : string) :
  process_line st buf = Ok st' ->
  (List.length (displays st) <= List.length (displays st'))%nat
  /\ (is_header buf = true -> (0 < List.length (displays st'))%nat).
Proof.
  unfold process_line, is_header. intros H.
  destruct (non_null (strstr (c_str buf) " connected")) eqn:Eh.
  - unfold header_line in H. rewrite Eh in H.
    destruct (non_null (strstr (c_str buf) " primary"));
      match type of H with
      | bind (store_header ?v ?d) _ = _ =>
          destruct (store_header v d) as [d'|]; [|discriminate]
      end;
      simpl in H; inversion H; subst; simpl;
      rewrite length_app; simpl; lia.
  - assert (Hsame : List.length (displays st') = List.length (displays st)).
    { destruct (current_display_ptr st) as [i|].
      + destruct (nth_error (displays st) i) as [d|]; [|discriminate].
        destruct (connected d && first_char_isspace (c_str buf)).
        * unfold mode_line in H.
          destruct (negb (ints_fit (sscanf (c_str buf) " %dx%d %n")));
            [discriminate|].
          destruct (sscanf (c_str buf) " %dx%d %n") as [|[s|w|n] vals];
            try (inversion H; subst; reflexivity).
          destruct vals as [|[s|h|n] vals];
            try (inversion H; subst; reflexivity).
          destruct vals as [|[s|z|n] vals];
            try (inversion H; subst; reflexivity).
          destruct vals; try (inversion H; subst; reflexivity).
          match type of H with
          | bind (array_store ?a ?i ?x) _ = _ =>
              destruct (array_store a i x) as [ds|] eqn:Ea; [|discriminate]
          end.
          simpl in H. inversion H; subst. simpl.
          eapply array_store_length; eauto.
        * inversion H; subst. reflexivity.
      + inversion H; subst. reflexivity. }
    split; [lia | discriminate].
Qed.

Lemma line_loop_grows (bufs : list string) :
  forall st st',
    line_loop bufs st = Ok st' ->
    (List.length (displays st) <= List.length (displays st'))%nat
    /\ (Exists (fun buf => is_header buf = true) bufs ->
        (0 < List.length (displays st'))%nat).
Proof.
  induction bufs as [|buf bufs IH]; intros st st' H; simpl in H.
  - inversion H; subst. split; [lia|]. intros Hex. inversion Hex.
  - destruct (process_line st buf) as [st1|] eqn:E; [|discriminate].
    simpl in H. apply process_line_grows in E. destruct E as [E1 E2].
    apply IH in H. destruct H as [H1 H2].
    split; [lia|]. intros Hex. inversion Hex; subst; [|auto].
    specialize (E2 H0). lia.
Qed.

(** C2, as the code has it: a report without a header line gives the null
    result of a failed [popen], and [setup_display_data] and [main] fail on
    it in the same way. *)
Theorem C2_no_header_is_failure :
  forall stream : string,
    Forall (fun buf => is_header buf = false) (fgets_all LINE_SIZE stream) ->
    parse_xrandr_output (Some stream) = Ok None
    /\ parse_xrandr_output (Some stream) = parse_xrandr_output None
    /\ display_count_of None = 0%Z
    /\ Tui.setup_display_data (Some stream) = Tui.setup_display_data None
    /\ Tui.setup_display_data (Some stream) = Ok None
    /\ forall rows0, Tui.main_start (Some stream) rows0 = Ok None.
Proof.
  intros stream Hno.
  assert (Hparse : parse_xrandr_output (Some stream) = Ok None).
  { unfold parse_xrandr_output, parse_buffers.
    now rewrite line_loop_no_header. }
  unfold Tui.main_start, Tui.setup_display_data. rewrite Hparse.
  repeat split.
Qed.

(** The theorem at a report that holds the screen summary only. *)
Lemma C2_no_header_is_failure_witness :
  parse_xrandr_output (Some headerless_report) = Ok None
  /\ parse_xrandr_output (Some headerless_report) = parse_xrandr_output None
  /\ display_count_of None = 0%Z
  /\ Tui.setup_display_data (Some headerless_report)
     = Tui.setup_display_data None
  /\ Tui.setup_display_data (Some headerless_report) = Ok None
  /\ forall rows0, Tui.main_start (Some headerless_report) rows0 = Ok None.
Proof.
  apply (C2_no_header_is_failure headerless_report).
  vm_compute. repeat constructor.
Defined.

(** The parse gives a null result only in those two cases. *)
Lemma parse_null_only_without_header (stream : string) :
  parse_xrandr_output (Some stream) = Ok None ->
  Forall (fun buf => is_header buf = false) (fgets_all LINE_SIZE stream).
Proof.
  unfold parse_xrandr_output, parse_buffers. intros H.
  destruct (line_loop _ initial_state) as [st|] eqn:E; [|discriminate].
  apply line_loop_grows in E. destruct E as [_ E].
  simpl in H. destruct (displays st) eqn:Ed; [|discriminate].
  apply Forall_forall. intros buf Hin.
  destruct (is_header buf) eqn:Eb; [|reflexivity].
  exfalso. simpl in E. assert (0 < 0)%nat; [|lia].
  apply E. apply Exists_exists. eauto.
Qed.

(** C2 as stated fails: with no header line in the report the result cannot
    be told from that of a failed [popen], and setup reports failure. *)
Lemma C2_counterexample :
  parse_xrandr_output (Some headerless_report) = parse_xrandr_output None
  /\ parse_xrandr_output (Some "") = parse_xrandr_output None
  /\ Tui.setup_display_data (Some headerless_report) = Ok None
  /\ Tui.main_start (Some "") 0 = Ok None.
Proof. repeat split; vm_compute; reflexivity. Qed.

(** ** Long lines *)

(** Whatever the lengths, the buffers hold the whole report, in order. *)
Lemma fgets_all_complete (stream : string) :
  join (fgets_all LINE_SIZE stream) = stream.
Proof. apply (fgets_loop_complete 254). lia. Qed.

(** C4, as the code has it: the parser works on the report in pieces of at
    most 255 characters; when every line of the report, newline included,
    has at most 255 characters, the pieces are the lines, and the parse is
    the parse of the lines. *)
Theorem C4_lines_within_buffer :
  forall stream : string,
    parse_xrandr_output (Some stream)
    = parse_buffers (fgets_all LINE_SIZE stream)
    /\ join (fgets_all LINE_SIZE stream) = stream
    /\ Forall (fun buf => (String.length buf <= 255)%nat)
         (fgets_all LINE_SIZE stream)
    /\ (Forall (fun line => (String.length line <= 255)%nat)
          (logical_lines stream) ->
        fgets_all LINE_SIZE stream = logical_lines stream
        /\ parse_xrandr_output (Some stream) = parse_logical stream).
Proof.
  intros stream.
  split; [reflexivity|]. split; [apply fgets_all_complete|].
  split; [apply (fgets_loop_bounded 255)|].
  intros Hall.
  assert (H : fgets_all LINE_SIZE stream = logical_lines stream).
  { apply fgets_loop_lines; [lia|].
    eapply Forall_impl; [|exact Hall]. simpl. unfold LINE_SIZE. lia. }
  split; [exact H|].
  unfold parse_xrandr_output, parse_logical. now rewrite H.
Qed.

(** The theorem at the report of the scenario. *)
Lemma C4_lines_within_buffer_witness :
  fgets_all LINE_SIZE scenario_report = logical_lines scenario_report
  /\ parse_xrandr_output (Some scenario_report) = parse_logical scenario_report.
Proof.
  apply (C4_lines_within_buffer scenario_report).
  vm_compute. repeat constructor.
Defined.

(** C4 as stated fails on a mode line of 270 characters: the parser sees it
    in two pieces and loses its rate. *)
Lemma C4_counterexample :
  List.length (fgets_all LINE_SIZE long_line_report) = 3%nat
  /\ List.length (logical_lines long_line_report) = 2%nat
  /\ option_map (map (fun d => map refresh_rates (modes d)))
       match parse_xrandr_output (Some long_line_report) with
       | Ok r => r | UB => None end
     = Some [[ [] ]]
  /\ option_map (map (fun d => map refresh_rates (modes d)))
       match parse_logical long_line_report with
       | Ok r => r | UB => None end
     = Some [[ [ {| rate := rate_60_00; is_current := true;
                    is_preferred := true |} ] ]]
  /\ parse_xrandr_output (Some long_line_report)
     <> parse_logical long_line_report.
Proof.
  repeat split; try (vm_compute; reflexivity).
  vm_compute. discriminate.
Qed.

(* ================================================================== *)
(** * Proofs: the TUI                                                   *)
(* ================================================================== *)

Import Tui.
Open Scope list_scope.
Open Scope Z_scope.

(** ** setup_display_data *)

Lemma count_connected_filter (ds : list Display) :
  count_connected ds = Z.of_nat (List.length (filter connected ds)).
Proof.
  unfold count_connected.
  assert (H : forall n,
    fold_left (fun n d => if connected d then n + 1 else n) ds n
    = n + Z.of_nat (List.length (filter connected ds))).
  { induction ds as [|d ds IH]; intros n; simpl; [lia|].
    rewrite IH. destruct (connected d); simpl; lia. }
  rewrite H. lia.
Qed.

Lemma array_store_at {A : Type} (pre : list A) (y x : A) (post : list A) :
  array_store (pre ++ y :: post) (List.length pre) x = Ok (pre ++ x :: post).
Proof.
  induction pre as [|a pre IH]; simpl; [reflexivity|]. now rewrite IH.
Qed.

Lemma written_map_Some {A : Type} (l : list A) :
  written (map Some l) = Some l.
Proof. induction l as [|x l IH]; simpl; [reflexivity | now rewrite IH]. Qed.

Lemma fill_menu_filter (ds : list Display) :
  forall (names : list string) (conn : list Display) (extra : list (option string)),
    List.length names = List.length conn ->
    fill_menu ds
      (map Some names ++ repeat None (List.length (filter connected ds)) ++ extra)
      (map Some conn ++ repeat None (List.length (filter connected ds)))
      (List.length conn)
    = Ok (map Some (names ++ map name (filter connected ds)) ++ extra,
          map Some (conn ++ filter connected ds)).
Proof.
  induction ds as [|d ds IH]; intros names conn extra Hlen; simpl.
  - now rewrite !app_nil_r.
  - destruct (connected d); [|apply IH; assumption]. simpl.
    rewrite <- Hlen at 1.
    rewrite <- (length_map Some names), array_store_at.
    rewrite <- (length_map Some conn), array_store_at. cbn [bind].
    rewrite length_map.
    specialize (IH (names ++ [name d]) (conn ++ [d]) extra).
    rewrite !map_app, <- !app_assoc in IH. simpl in IH.
    rewrite !length_app in IH. simpl in IH.
    replace (S (List.length conn)) with (List.length conn + 1)%nat by lia.
    rewrite IH by lia.
    rewrite !map_app, <- !app_assoc. reflexivity.
Qed.

Lemma build_display_data_filter (ds : list Display) :
  build_display_data ds
  = Ok {| d_displays := ds;
          d_menu_items := map name (filter connected ds) ++ ["Exit"];
          d_num_items := Z.of_nat (List.length (filter connected ds)) + 1;
          d_connected_displays := filter connected ds;
          d_connected_count := Z.of_nat (List.length (filter connected ds)) |}.
Proof.
  unfold build_display_data. rewrite count_connected_filter.
  set (n := List.length (filter connected ds)).
  unfold malloc. rewrite Nat2Z.id.
  replace (Z.to_nat (Z.of_nat n + 1)) with (n + 1)%nat by lia.
  rewrite repeat_app.
  pose proof (fill_menu_filter ds [] [] (repeat None 1) eq_refl) as H.
  simpl in H. fold n in H. change (repeat (@None string) 1) with [@None string].
  rewrite H. cbn [bind].
  replace n with (List.length (map Some (map name (filter connected ds))))
    at 1 by (now rewrite !length_map).
  rewrite array_store_at. cbn [bind].
  change (map Some (map name (filter connected ds)) ++ [Some "Exit"])
    with (map Some (map name (filter connected ds)) ++ map Some ["Exit"]).
  rewrite <- map_app, !written_map_Some. reflexivity.
Qed.

(** C8: the connected-only projection is the displays with [connected]
    set, in the order of the parse; its length is their number; the menu
    is their names followed by "Exit", one entry longer. *)
Theorem C8_projection :
  forall displays : list Display,
    exists data,
      build_display_data displays = Ok data
      /\ d_connected_displays data = filter connected displays
      /\ d_connected_count data
         = Z.of_nat (List.length (filter connected displays))
      /\ Z.of_nat (List.length (d_connected_displays data))
         = d_connected_count data
      /\ d_menu_items data = map name (d_connected_displays data) ++ ["Exit"]
      /\ Z.of_nat (List.length (d_menu_items data)) = d_connected_count data + 1
      /\ d_num_items data = d_connected_count data + 1
      /\ last (d_menu_items data) "" = "Exit".
Proof.
  intros ds. eexists. split; [apply build_display_data_filter|]. simpl.
  repeat split.
  - rewrite length_app, length_map. simpl. lia.
  - apply last_last.
Qed.

(** On the scenario: one connected display, and the menu HDMI-1, Exit. *)
Example scenario_menu :
  option_map d_menu_items
    match setup_display_data (Some scenario_report) with
    | Ok r => r | UB => None end
  = Some ["HDMI-1"; "Exit"].
Proof. vm_compute. reflexivity. Qed.

(** ** Moving in a list *)

Lemma wrap_down_last (n : Z) : 0 < n -> wrap_down n (n - 1) = Ok 0.
Proof.
  intros Hn. unfold wrap_down.
  destruct (Z.eqb_spec n 0) as [->|Hne]; [lia|].
  replace (n - 1 + 1) with n by lia. now rewrite Z.rem_same.
Qed.

Lemma wrap_down_next (n h : Z) :
  0 <= h -> h + 1 < n -> wrap_down n h = Ok (h + 1).
Proof.
  intros Hh Hn. unfold wrap_down.
  destruct (Z.eqb_spec n 0) as [->|Hne]; [lia|].
  now rewrite Z.rem_small by lia.
Qed.

Lemma wrap_down_range (n h : Z) :
  0 < n -> 0 <= h -> exists h', wrap_down n h = Ok h' /\ 0 <= h' < n.
Proof.
  intros Hn Hh. unfold wrap_down.
  destruct (Z.eqb_spec n 0) as [->|Hne]; [lia|].
  eexists; split; [reflexivity|]. apply Z.rem_bound_pos; lia.
Qed.

Lemma wrap_up_first (n : Z) : wrap_up n 0 = n - 1.
Proof. reflexivity. Qed.

Lemma wrap_up_prev (n h : Z) : h <> 0 -> wrap_up n h = h - 1.
Proof. intros Hh. unfold wrap_up. now destruct (Z.eqb_spec h 0). Qed.

Lemma array_get_bound {A : Type} (a : list A) (i : Z) (x : A) :
  array_get a i = Ok x -> 0 <= i < Z.of_nat (List.length a).
Proof.
  unfold array_get. destruct (Z.ltb_spec i 0); [discriminate|].
  destruct (nth_error a (Z.to_nat i)) eqn:E; [|discriminate].
  intros _. assert (Z.to_nat i < List.length a)%nat; [|lia].
  apply nth_error_Some. congruence.
Qed.

Lemma array_get_in_range {A : Type} (a : list A) (i : Z) :
  0 <= i < Z.of_nat (List.length a) -> exists x, array_get a i = Ok x.
Proof.
  intros Hi. unfold array_get. destruct (Z.ltb_spec i 0); [lia|].
  destruct (nth_error a (Z.to_nat i)) eqn:E; [eauto|].
  apply nth_error_None in E. lia.
Qed.

(** ** What a round leaves alone *)

Lemma redraw_content (terminal_rows : Z) (s : App) :
  content (redraw terminal_rows s) = content s.
Proof. unfold redraw. destruct (needs_redraw s); reflexivity. Qed.

Lemma content_fields (a b : App) :
  content a = content b ->
  data a = data b /\ state a = state b
  /\ pos_panel_focus a = pos_panel_focus b
  /\ monitor_highlight a = monitor_highlight b
  /\ mode_highlight a = mode_highlight b
  /\ rate_highlight a = rate_highlight b
  /\ pos_target_highlight a = pos_target_highlight b
  /\ pos_direction_highlight a = pos_direction_highlight b
  /\ monitor_scroll a = monitor_scroll b
  /\ mode_scroll a = mode_scroll b
  /\ rate_scroll a = rate_scroll b
  /\ position_target_displays a = position_target_displays b
  /\ position_target_count a = position_target_count b
  /\ commands a = commands b.
Proof.
  unfold content, navigation. intros H. injection H. intros.
  repeat split; assumption.
Qed.

Ltac redraw_fields r s :=
  let H := fresh "Hredraw" in
  pose proof (content_fields _ _ (redraw_content r s)) as H;
  destruct H as (? & ? & ? & ? & ? & ? & ? & ? & ? & ? & ? & ? & ? & ?).

Lemma content_active (a b : App) :
  content a = content b ->
  active_count a = active_count b
  /\ active_highlight a = active_highlight b
  /\ navigation a = navigation b.
Proof.
  intros H. destruct a, b. unfold content, navigation in H. cbn in H.
  injection H. intros. subst. repeat split.
Qed.

Ltac bind_ok H :=
  cbn [bind] in H;
  repeat match type of H with
         | context [bind ?e _] =>
             let E := fresh "E" in
             destruct e eqn:E; cbn [bind] in H |- *; [|discriminate H]
         end.

Lemma gtb_true (n : Z) : 0 < n -> (n >? 0) = true.
Proof. intros H. destruct (Z.gtb_spec n 0); [reflexivity | lia]. Qed.

(** [on_down] in a list of [n > 0] entries. *)
Lemma on_down_moves (s : App) (n : Z) :
  active_count s = Ok n -> 0 < n ->
  exists s',
    on_down s = Ok (Continue s')
    /\ wrap_down n (active_highlight s) = Ok (active_highlight s')
    /\ state s' = state s /\ pos_panel_focus s' = pos_panel_focus s.
Proof.
  intros Hcount Hn. unfold on_down, active_count, active_highlight in *.
  assert (Hwrap : forall h, wrap_down n h = Ok (Z.rem (h + 1) n)).
  { intros h. unfold wrap_down. destruct (Z.eqb_spec n 0); [lia | reflexivity]. }
  destruct (state s) eqn:Est.
  - injection Hcount as ->. rewrite Hwrap. cbn [bind].
    eexists. split; [reflexivity|]. cbn. rewrite Est. auto.
  - bind_ok Hcount. injection Hcount as <-.
    rewrite gtb_true, Hwrap by assumption. cbn [bind].
    eexists. split; [reflexivity|]. cbn. rewrite Est. auto.
  - bind_ok Hcount. injection Hcount as <-.
    apply array_get_bound in E0.
    rewrite gtb_true by (unfold mode_count; lia). cbn [bind].
    rewrite gtb_true, Hwrap by assumption. cbn [bind].
    eexists. split; [reflexivity|]. cbn. rewrite Est. auto.
  - destruct (pos_panel_focus s) eqn:Ef; injection Hcount as <-.
    + rewrite gtb_true, Hwrap by assumption. cbn [bind].
      eexists. split; [reflexivity|]. cbn. rewrite Est, Ef. auto.
    + rewrite Hwrap. cbn [bind].
      eexists. split; [reflexivity|]. cbn. rewrite Est, Ef. auto.
Qed.

(** [on_up] in a list of [n > 0] entries. *)
Lemma on_up_moves (s : App) (n : Z) :
  active_count s = Ok n -> 0 < n ->
  exists s',
    on_up s = Ok (Continue s')
    /\ active_highlight s' = wrap_up n (active_highlight s)
    /\ state s' = state s /\ pos_panel_focus s' = pos_panel_focus s.
Proof.
  intros Hcount Hn. unfold on_up, active_count, active_highlight in *.
  destruct (state s) eqn:Est.
  - injection Hcount as ->. cbn [bind].
    eexists. split; [reflexivity|]. cbn. rewrite Est. auto.
  - bind_ok Hcount. injection Hcount as <-.
    rewrite gtb_true by assumption. cbn [bind].
    eexists. split; [reflexivity|]. cbn. rewrite Est. auto.
  - bind_ok Hcount. injection Hcount as <-.
    apply array_get_bound in E0.
    rewrite gtb_true by (unfold mode_count; lia). cbn [bind].
    rewrite gtb_true by assumption. cbn [bind].
    eexists. split; [reflexivity|]. cbn. rewrite Est. auto.
  - destruct (pos_panel_focus s) eqn:Ef; injection Hcount as <-.
    + rewrite gtb_true by assumption. cbn [bind].
      eexists. split; [reflexivity|]. cbn. rewrite Est, Ef. auto.
    + cbn [bind].
      eexists. split; [reflexivity|]. cbn. rewrite Est, Ef. auto.
Qed.

(** Both keys in an empty list. *)
Lemma on_up_down_empty (s : App) :
  active_count s = Ok 0 -> state s <> STATE_MONITOR_SELECT ->
  on_down s = Ok (Continue (set_needs_redraw true s))
  /\ on_up s = Ok (Continue (set_needs_redraw true s)).
Proof.
  intros Hcount Hst. unfold on_down, on_up, active_count in *.
  destruct (state s) eqn:Est; [congruence | | |].
  - bind_ok Hcount. injection Hcount as Hc. rewrite Hc. auto.
  - bind_ok Hcount. injection Hcount as Hc.
    destruct (mode_count _ >? 0); cbn [bind]; rewrite ?Hc; auto.
  - destruct (pos_panel_focus s); injection Hcount as Hc.
    + rewrite Hc. auto.
    + discriminate Hc.
Qed.

(** C7: in each of the five lists, down from the last entry goes to the
    first and up from the first goes to the last; elsewhere the keys move
    by one; in an empty list they leave the navigation as it is. *)
Theorem C7_wraparound :
  forall (s : App) (n terminal_rows : Z) (popen : option string)
         (down up : key),
    case_of down = Case_KEY_DOWN ->
    case_of up = Case_KEY_UP ->
    active_count s = Ok n ->
    (0 < n ->
       (active_highlight s = n - 1 ->
          exists s', iteration terminal_rows down popen s = Ok (Continue s')
                     /\ active_highlight s' = 0
                     /\ state s' = state s
                     /\ pos_panel_focus s' = pos_panel_focus s)
       /\ (active_highlight s = 0 ->
          exists s', iteration terminal_rows up popen s = Ok (Continue s')
                     /\ active_highlight s' = n - 1
                     /\ state s' = state s
                     /\ pos_panel_focus s' = pos_panel_focus s)
       /\ (0 <= active_highlight s < n - 1 ->
          exists s', iteration terminal_rows down popen s = Ok (Continue s')
                     /\ active_highlight s' = active_highlight s + 1)
       /\ (0 < active_highlight s ->
          exists s', iteration terminal_rows up popen s = Ok (Continue s')
                     /\ active_highlight s' = active_highlight s - 1))
    /\ (n = 0 -> state s <> STATE_MONITOR_SELECT ->
          (exists s', iteration terminal_rows down popen s = Ok (Continue s')
                      /\ navigation s' = navigation s)
          /\ (exists s', iteration terminal_rows up popen s = Ok (Continue s')
                         /\ navigation s' = navigation s)).
Proof.
  intros s n terminal_rows popen down up Hdown Hup Hcount.
  unfold iteration, handle_key. rewrite Hdown, Hup. cbn [case_body].
  destruct (content_active _ _ (redraw_content terminal_rows s))
    as (Hc & Hh & Hnav).
  redraw_fields terminal_rows s.
  set (s0 := redraw terminal_rows s) in *. clearbody s0.
  rewrite <- Hc in Hcount. rewrite <- Hh.
  split.
  - intros Hn.
    destruct (on_down_moves s0 n Hcount Hn) as (sd & Hd & Hwd & Hsd & Hfd).
    destruct (on_up_moves s0 n Hcount Hn) as (su & Hu & Hwu & Hsu & Hfu).
    rewrite Hd, Hu. repeat split; intros Hpos.
    + exists sd. rewrite Hpos, wrap_down_last in Hwd by assumption.
      injection Hwd as Hwd. repeat split; congruence.
    + exists su. rewrite Hpos in Hwu. rewrite wrap_up_first in Hwu.
      repeat split; congruence.
    + exists sd. rewrite wrap_down_next in Hwd by lia.
      injection Hwd as Hwd. split; congruence.
    + exists su. rewrite wrap_up_prev in Hwu by lia. split; congruence.
  - intros -> Hst.
    destruct (on_up_down_empty s0 Hcount) as [Hd Hu]; [congruence|].
    rewrite Hd, Hu. split; eexists; (split; [reflexivity|]);
      rewrite <- Hnav; reflexivity.
Qed.

Lemma free_targets_fields (s s1 : App) :
  free_targets s = Ok s1 ->
  data s1 = data s /\ navigation s1 = navigation s
  /\ commands s1 = commands s
  /\ position_target_count s1 = position_target_count s.
Proof.
  unfold free_targets.
  destruct (position_target_displays s); intros [= <-]; repeat split.
Qed.

Lemma free_targets_null_fields (s s1 : App) :
  free_targets_null s = Ok s1 ->
  data s1 = data s /\ navigation s1 = navigation s
  /\ commands s1 = commands s
  /\ position_target_count s1 = position_target_count s
  /\ position_target_displays s1 = Null.
Proof.
  unfold free_targets_null.
  destruct (free_targets s) as [s0|] eqn:E; [|discriminate]. cbn [bind].
  apply free_targets_fields in E. destruct E as (E1 & E2 & E3 & E4).
  intros [= <-]. cbn. rewrite <- E1, <- E2, <- E3, <- E4. repeat split.
Qed.

Lemma reparse_and_reset_fields (popen : option string) (s s' : App) :
  reparse_and_reset popen s = Ok (Continue s') ->
  setup_display_data popen = Ok (Some (data s'))
  /\ state s' = STATE_MONITOR_SELECT
  /\ monitor_highlight s' = 0 /\ monitor_scroll s' = 0
  /\ mode_highlight s' = 0 /\ mode_scroll s' = 0
  /\ rate_highlight s' = 0 /\ rate_scroll s' = 0
  /\ pos_target_highlight s' = pos_target_highlight s
  /\ pos_direction_highlight s' = pos_direction_highlight s
  /\ commands s' = commands s.
Proof.
  unfold reparse_and_reset.
  destruct (setup_display_data popen) as [[d|]|]; cbn [bind];
    try discriminate.
  intros [= <-]. cbn. repeat split.
Qed.

Lemma navigation_targets (a b : App) :
  navigation a = navigation b ->
  pos_target_highlight a = pos_target_highlight b
  /\ pos_direction_highlight a = pos_direction_highlight b.
Proof. unfold navigation. intros H. injection H. intros. split; assumption. Qed.

(** C6, as the code has it: a round that runs a command and goes on ends
    in MonitorSelect with the monitor, mode and rate selections and scroll
    offsets at 0; the two indices of the position panel keep their values. *)
Theorem C6_reset_after_command :
  forall (terminal_rows : Z) (ch : key) (popen : option string) (s s' : App),
    is_command_transition ch s = true ->
    iteration terminal_rows ch popen s = Ok (Continue s') ->
    state s' = STATE_MONITOR_SELECT
    /\ monitor_highlight s' = 0 /\ monitor_scroll s' = 0
    /\ mode_highlight s' = 0 /\ mode_scroll s' = 0
    /\ rate_highlight s' = 0 /\ rate_scroll s' = 0
    /\ pos_target_highlight s' = pos_target_highlight s
    /\ pos_direction_highlight s' = pos_direction_highlight s
    /\ exists command, commands s' = commands s ++ [command].
Proof.
  intros terminal_rows ch popen s s' Hcmd Hstep.
  unfold is_command_transition in Hcmd.
  unfold iteration, handle_key in Hstep.
  redraw_fields terminal_rows s.
  set (s0 := redraw terminal_rows s) in *. clearbody s0.
  assert (Hend : forall command s1,
    data s1 = data (run_command command s0)
    /\ navigation s1 = navigation (run_command command s0)
    /\ commands s1 = commands (run_command command s0)
    /\ position_target_count s1 = position_target_count (run_command command s0) ->
    reparse_and_reset popen s1 = Ok (Continue s') ->
    state s' = STATE_MONITOR_SELECT
    /\ monitor_highlight s' = 0 /\ monitor_scroll s' = 0
    /\ mode_highlight s' = 0 /\ mode_scroll s' = 0
    /\ rate_highlight s' = 0 /\ rate_scroll s' = 0
    /\ pos_target_highlight s' = pos_target_highlight s
    /\ pos_direction_highlight s' = pos_direction_highlight s
    /\ exists command, commands s' = commands s ++ [command]).
  { intros command s1 (_ & Hn & Hc & _) Hr.
    apply reparse_and_reset_fields in Hr.
    destruct Hr as (_ & ? & ? & ? & ? & ? & ? & ? & Ht & Hd & Hcs).
    apply navigation_targets in Hn. destruct Hn as [Hn1 Hn2].
    cbn in Hn1, Hn2, Hc.
    repeat split; try assumption; try congruence.
    exists command. congruence. }
  destruct (case_of ch); destruct (state s) eqn:Est; try discriminate Hcmd;
    cbn [case_body] in Hstep.
  - unfold on_toggle in Hstep.
    replace (state s0) with STATE_MONITOR_SELECT in Hstep by congruence.
    replace (monitor_highlight s0 <? connected_count s0) with true in Hstep
      by (unfold connected_count in *; congruence).
    destruct (array_get _ _) as [d|]; [|discriminate]. cbn [bind] in Hstep.
    destruct (toggle_display_power_command d) as [command|]; [|discriminate].
    cbn [bind] in Hstep.
    destruct (free_targets (run_command command s0)) as [s1|] eqn:Ef;
      [|discriminate].
    cbn [bind] in Hstep. apply free_targets_fields in Ef. eauto.
  - unfold on_enter in Hstep.
    replace (state s0) with STATE_RATE_SELECT in Hstep by congruence.
    repeat (match type of Hstep with
            | context [bind ?e _] =>
                destruct e eqn:?; [|discriminate]; cbn [bind] in Hstep
            end).
    match goal with
    | E : free_targets_null _ = Ok _ |- _ =>
        apply free_targets_null_fields in E;
        destruct E as (E1 & E2 & E3 & E4 & _)
    end.
    eauto.
  - unfold on_enter in Hstep.
    replace (state s0) with STATE_POSITION_SELECT in Hstep by congruence.
    repeat (match type of Hstep with
            | context [bind ?e _] =>
                destruct e eqn:?; [|discriminate]; cbn [bind] in Hstep
            end).
    match goal with
    | E : free_targets_null _ = Ok _ |- _ =>
        apply free_targets_null_fields in E;
        destruct E as (E1 & E2 & E3 & E4 & _)
    end.
    eauto.
Qed.

(** ** The invariant of the main loop *)

Lemma invariant_content (a b : App) :
  content a = content b -> invariant a -> invariant b.
Proof.
  intros H. destruct a, b. unfold content, navigation in H. cbn in H.
  injection H. intros. subst. assumption.
Qed.

Lemma setup_display_data_counts (popen : option string) (d : display_data) :
  setup_display_data popen = Ok (Some d) ->
  d_num_items d = d_connected_count d + 1
  /\ d_connected_count d = Z.of_nat (List.length (d_connected_displays d)).
Proof.
  unfold setup_display_data.
  destruct (parse_xrandr_output popen) as [[ds|]|]; cbn [bind];
    try discriminate.
  rewrite build_display_data_filter. cbn [bind].
  intros [= <-]. cbn. split; reflexivity.
Qed.

Lemma invariant_top (d : display_data) (s : App) :
  d_num_items d = d_connected_count d + 1 ->
  d_connected_count d = Z.of_nat (List.length (d_connected_displays d)) ->
  data s = d -> state s = STATE_MONITOR_SELECT -> monitor_highlight s = 0 ->
  invariant s.
Proof.
  intros H1 H2 Hd Hs Hm. unfold invariant, num_items, connected_count,
    connected_displays. rewrite Hd, Hs, Hm. repeat split; auto; lia.
Qed.

Lemma invariant_start (popen : option string) (rows0 : Z) (s : App) :
  main_start popen rows0 = Ok (Some s) -> invariant s.
Proof.
  unfold main_start.
  destruct (setup_display_data popen) as [[d|]|] eqn:E; cbn [bind];
    try discriminate.
  intros [= <-]. apply setup_display_data_counts in E. destruct E.
  eapply invariant_top; eauto.
Qed.

Lemma invariant_reparse (popen : option string) (s s' : App) :
  reparse_and_reset popen s = Ok (Continue s') -> invariant s'.
Proof.
  intros H. apply reparse_and_reset_fields in H.
  destruct H as (Hd & Hs & Hm & _).
  apply setup_display_data_counts in Hd. destruct Hd.
  eapply invariant_top; eauto.
Qed.

Ltac inv_unfold :=
  unfold invariant, selected_display, num_items, connected_count,
    connected_displays in *.

Lemma selected_display_exists (s : App) :
  invariant s -> monitor_highlight s < connected_count s ->
  exists d, selected_display s = Ok d.
Proof.
  inv_unfold. intros (_ & Hc & Hm & _) Hlt.
  apply array_get_in_range. lia.
Qed.

Lemma invariant_enter_mode (s : App) :
  invariant s -> monitor_highlight s < connected_count s ->
  invariant (enter_mode_select s).
Proof.
  intros Hinv Hlt. destruct (selected_display_exists s Hinv Hlt) as [d Hd].
  inv_unfold. destruct Hinv as (I1 & I2 & I3 & _). cbn.
  repeat split; auto; try lia. exists d. auto.
Qed.

Lemma invariant_enter_rate (s : App) (d : Display) :
  invariant s -> state s = STATE_MODE_SELECT ->
  selected_display s = Ok d -> (mode_count d >? 0) = true ->
  invariant (enter_rate_select s).
Proof.
  intros Hinv Hst Hd Hpos. apply Z.gtb_lt in Hpos.
  inv_unfold. destruct Hinv as (I1 & I2 & I3 & H4). rewrite Hst in H4.
  destruct H4 as (d' & Hd' & Hm). rewrite Hd in Hd'. injection Hd' as <-.
  cbn. repeat split; auto; try lia. exists d. split; [assumption|]. lia.
Qed.

Lemma invariant_on_up (s s' : App) :
  invariant s -> on_up s = Ok (Continue s') -> invariant s'.
Proof.
  intros Hinv H. unfold on_up in H.
  inv_unfold. destruct Hinv as (I1 & I2 & I3 & H4).
  destruct (state s) eqn:Est; cbn [bind] in H.
  - injection H as <-. cbn. rewrite Est.
    unfold wrap_up. destruct (Z.eqb_spec (monitor_highlight s) 0);
      repeat split; auto; lia.
  - destruct H4 as (d & Hd & Hm). rewrite Hd in H. cbn [bind] in H.
    destruct (Z.gtb_spec (mode_count d) 0); cbn [bind] in H;
      injection H as <-; cbn; rewrite Est; repeat split; auto; try lia;
      exists d; (split; [assumption|]).
    + right. unfold wrap_up. destruct (Z.eqb_spec (mode_highlight s) 0); lia.
    + assumption.
  - destruct H4 as (d & Hd & Hm). rewrite Hd in H. cbn [bind] in H.
    destruct (mode_count d >? 0); cbn [bind] in H;
      [ destruct (array_get (modes d) (mode_highlight s)) as [m|];
        cbn [bind] in H; [|discriminate];
        destruct (rate_count m >? 0); cbn [bind] in H | ];
      injection H as <-; cbn; rewrite Est; repeat split; auto; try lia;
      exists d; auto.
  - destruct (pos_panel_focus s);
      [destruct (position_target_count s >? 0)|]; cbn [bind] in H;
      injection H as <-; cbn; rewrite Est; repeat split; auto; lia.
Qed.

Lemma invariant_on_down (s s' : App) :
  invariant s -> on_down s = Ok (Continue s') -> invariant s'.
Proof.
  intros Hinv H. unfold on_down in H.
  inv_unfold. destruct Hinv as (I1 & I2 & I3 & H4).
  destruct (state s) eqn:Est; cbn [bind] in H.
  - destruct (wrap_down_range (d_num_items (data s)) (monitor_highlight s))
      as (h & Hw & Hh); [lia | lia |].
    rewrite Hw in H. cbn [bind] in H. injection H as <-. cbn. rewrite Est.
    repeat split; auto; lia.
  - destruct H4 as (d & Hd & Hm). rewrite Hd in H. cbn [bind] in H.
    destruct (Z.gtb_spec (mode_count d) 0); cbn [bind] in H.
    + destruct (wrap_down_range (mode_count d) (mode_highlight s))
        as (h & Hw & Hh); [lia | lia |].
      rewrite Hw in H. cbn [bind] in H. injection H as <-. cbn. rewrite Est.
      repeat split; auto; try lia. exists d. split; [assumption|]. lia.
    + injection H as <-. cbn. rewrite Est.
      repeat split; auto; try lia. exists d. auto.
  - destruct H4 as (d & Hd & Hm). rewrite Hd in H. cbn [bind] in H.
    destruct (mode_count d >? 0); cbn [bind] in H;
      [ destruct (array_get (modes d) (mode_highlight s)) as [m|];
        cbn [bind] in H; [|discriminate];
        destruct (rate_count m >? 0); cbn [bind] in H;
        [ destruct (wrap_down (rate_count m) (rate_highlight s));
          cbn [bind] in H; [|discriminate] | ] | ];
      injection H as <-; cbn; rewrite Est; repeat split; auto; try lia;
      exists d; auto.
  - destruct (pos_panel_focus s);
      [ destruct (position_target_count s >? 0);
        [ destruct (wrap_down (position_target_count s)
                      (pos_target_highlight s));
          cbn [bind] in H; [|discriminate] | ]
      | destruct (wrap_down position_direction_count
                    (pos_direction_highlight s));
        cbn [bind] in H; [|discriminate] ];
      cbn [bind] in H;
      injection H as <-; cbn; rewrite Est; repeat split; auto; lia.
Qed.

Lemma invariant_case_body (label : case_label) (popen : option string)
  (s s' : App) :
  invariant s -> case_body label popen s = Ok (Continue s') -> invariant s'.
Proof.
  intros Hinv H. destruct label; cbn [case_body] in H.
  - discriminate.
  - (* 'o' *)
    unfold on_toggle in H.
    destruct (state s); try (injection H as <-; assumption).
    destruct (monitor_highlight s <? connected_count s);
      [|injection H as <-; assumption].
    bind_ok H. eapply invariant_reparse; eauto.
  - (* 'p' *)
    unfold on_position in H.
    destruct (state s) eqn:Est; try (injection H as <-; assumption).
    destruct (connected_count s >? 1); [|injection H as <-; assumption].
    bind_ok H.
    match type of H with
    | context [written ?t] => destruct (written t); [|discriminate]
    end.
    injection H as <-.
    match goal with
    | E : free_targets _ = Ok _ |- _ =>
        apply free_targets_fields in E; destruct E as (E1 & E2 & _)
    end.
    unfold navigation in E2. cbn in E2. injection E2. intros.
    destruct Hinv as (I1 & I2 & I3 & _).
    inv_unfold. cbn in *. rewrite E1.
    replace (state a) with STATE_POSITION_SELECT by congruence.
    replace (monitor_highlight a) with (monitor_highlight s) by congruence.
    repeat split; auto; lia.
  - (* KEY_RESIZE *)
    injection H as <-. eapply invariant_content; [|exact Hinv]. reflexivity.
  - eapply invariant_on_up; eauto.
  - eapply invariant_on_down; eauto.
  - (* Tab *)
    unfold on_tab in H.
    destruct (state s) eqn:Est; injection H as <-; assumption.
  - (* KEY_RIGHT *)
    unfold on_right in H. destruct (state s) eqn:Est.
    + destruct (Z.ltb_spec (monitor_highlight s) (connected_count s));
        injection H as <-; [apply invariant_enter_mode|]; assumption.
    + bind_ok H.
      match type of H with
      | context [mode_count ?d >? 0] => destruct (mode_count d >? 0) eqn:Em
      end; injection H as <-;
        [eapply invariant_enter_rate; eauto | assumption].
    + injection H as <-; assumption.
    + injection H as <-; assumption.
  - (* KEY_LEFT *)
    unfold on_left in H. destruct (state s) eqn:Est.
    + injection H as <-; assumption.
    + injection H as <-. destruct Hinv as (I1 & I2 & I3 & _).
      inv_unfold. cbn. repeat split; auto; lia.
    + injection H as <-. destruct Hinv as (I1 & I2 & I3 & H4).
      rewrite Est in H4. destruct H4 as (d & Hd & Hm).
      inv_unfold. cbn. repeat split; auto; try lia. exists d. auto.
    + bind_ok H. injection H as <-.
      match goal with
      | E : free_targets_null _ = Ok _ |- _ =>
          apply free_targets_null_fields in E; destruct E as (E1 & E2 & _)
      end.
      unfold navigation in E2. cbn in E2. injection E2. intros.
      destruct Hinv as (I1 & I2 & I3 & _).
      inv_unfold. cbn in *. rewrite E1.
      replace (state a) with STATE_MONITOR_SELECT by congruence.
      replace (monitor_highlight a) with (monitor_highlight s) by congruence.
      repeat split; auto; lia.
  - (* Enter *)
    unfold on_enter in H. destruct (state s) eqn:Est.
    + destruct (Z.eqb_spec (monitor_highlight s) (connected_count s));
        [discriminate|].
      injection H as <-. apply invariant_enter_mode; [assumption|].
      destruct Hinv as (_ & _ & H3 & _). lia.
    + bind_ok H.
      match type of H with
      | context [mode_count ?d >? 0] => destruct (mode_count d >? 0) eqn:Em
      end; injection H as <-;
        [eapply invariant_enter_rate; eauto | assumption].
    + bind_ok H. eapply invariant_reparse; eauto.
    + bind_ok H. eapply invariant_reparse; eauto.
  - injection H as <-; assumption.
Qed.

Lemma invariant_iteration (terminal_rows : Z) (ch : key)
  (popen : option string) (s s' : App) :
  invariant s -> iteration terminal_rows ch popen s = Ok (Continue s') ->
  invariant s'.
Proof.
  intros Hinv H. unfold iteration, handle_key in H.
  eapply invariant_case_body; [|exact H].
  eapply invariant_content; [|exact Hinv].
  symmetry. apply redraw_content.
Qed.

Lemma reachable_invariant (s : App) : reachable s -> invariant s.
Proof.
  induction 1 as [popen rows0 s Hstart | s r ch popen s' _ IH Hstep].
  - eapply invariant_start; eauto.
  - eapply invariant_iteration; eauto.
Qed.

(** ** Entering RateSelect *)

Ltac crunch H :=
  cbn [bind] in H;
  repeat first
    [ match type of H with
      | context [bind ?e _] =>
          lazymatch e with
          | bind _ _ => fail
          | (if _ then _ else _) => fail
          | _ =>
              let E := fresh "E" in
              destruct e eqn:E; cbn [bind] in H; [|discriminate H]
          end
      end
    | match type of H with
      | context [if ?c then _ else _] =>
          let E := fresh "E" in destruct c eqn:E; cbn [bind] in H
      end ].

Lemma on_up_state (s s' : App) :
  on_up s = Ok (Continue s') -> state s' = state s.
Proof.
  unfold on_up. intros H.
  destruct (state s) eqn:Est; [ | | | destruct (pos_panel_focus s) ];
    crunch H; injection H as <-; cbn; congruence.
Qed.

Lemma on_down_state (s s' : App) :
  on_down s = Ok (Continue s') -> state s' = state s.
Proof.
  unfold on_down. intros H.
  destruct (state s) eqn:Est; [ | | | destruct (pos_panel_focus s) ];
    crunch H; injection H as <-; cbn; congruence.
Qed.

(** From ModeSelect only the right key and Enter lead to RateSelect, and
    only when the selected display has a mode. *)
Lemma mode_to_rate (label : case_label) (popen : option string) (s s' : App) :
  state s = STATE_MODE_SELECT ->
  case_body label popen s = Ok (Continue s') ->
  state s' = STATE_RATE_SELECT ->
  (label = Case_KEY_RIGHT \/ label = Case_enter)
  /\ exists d, selected_display s = Ok d /\ 0 < mode_count d.
Proof.
  intros Hst H Hrate. unfold selected_display.
  destruct label; cbn [case_body] in H.
  - discriminate.
  - unfold on_toggle in H. rewrite Hst in H. injection H as <-. congruence.
  - unfold on_position in H. rewrite Hst in H. injection H as <-. congruence.
  - injection H as <-. cbn in Hrate. congruence.
  - apply on_up_state in H. congruence.
  - apply on_down_state in H. congruence.
  - unfold on_tab in H. rewrite Hst in H. injection H as <-. congruence.
  - unfold on_right in H. rewrite Hst in H. bind_ok H.
    split; [auto|]. eexists. split; [reflexivity|].
    match type of H with
    | context [?c >? 0] => destruct (Z.gtb_spec c 0); [lia|]
    end.
    injection H as <-. congruence.
  - unfold on_left in H. rewrite Hst in H. injection H as <-.
    cbn in Hrate. discriminate.
  - unfold on_enter in H. rewrite Hst in H. bind_ok H.
    split; [auto|]. eexists. split; [reflexivity|].
    match type of H with
    | context [?c >? 0] => destruct (Z.gtb_spec c 0); [lia|]
    end.
    injection H as <-. congruence.
  - injection H as <-. congruence.
Qed.

(** C3, as the code has it: RateSelect is entered from ModeSelect by the
    right key or Enter, and only when the selected display has at least
    one mode; with no mode the keys change nothing; so in every reachable
    RateSelect state the selected display has a mode and the selected mode
    is one of them. *)
Theorem C3_rate_select_needs_a_mode :
  forall s : App,
    reachable s ->
    (state s = STATE_RATE_SELECT ->
       exists d m, selected_display s = Ok d /\ 0 < mode_count d
                   /\ selected_mode s = Ok m)
    /\ (state s = STATE_MODE_SELECT ->
        forall terminal_rows ch popen s',
          iteration terminal_rows ch popen s = Ok (Continue s') ->
          state s' = STATE_RATE_SELECT ->
          (case_of ch = Case_KEY_RIGHT \/ case_of ch = Case_enter)
          /\ exists d, selected_display s = Ok d /\ 0 < mode_count d)
    /\ (state s = STATE_MODE_SELECT ->
        forall d, selected_display s = Ok d -> mode_count d = 0 ->
        forall terminal_rows ch popen,
          case_of ch = Case_KEY_RIGHT \/ case_of ch = Case_enter ->
          exists s', iteration terminal_rows ch popen s = Ok (Continue s')
                     /\ state s' = STATE_MODE_SELECT
                     /\ navigation s' = navigation s).
Proof.
  intros s Hreach. apply reachable_invariant in Hreach.
  split; [|split].
  - intros Hst. destruct Hreach as (_ & _ & _ & H). rewrite Hst in H.
    destruct H as (d & Hd & Hm).
    destruct (array_get_in_range (modes d) (mode_highlight s)) as [m Hget];
      [exact Hm|].
    exists d, m. split; [assumption|]. split; [lia|].
    unfold selected_mode. rewrite Hd. exact Hget.
  - intros Hst terminal_rows ch popen s' Hstep Hrate.
    unfold iteration, handle_key in Hstep.
    destruct (content_active _ _ (redraw_content terminal_rows s))
      as (_ & _ & Hnav).
    redraw_fields terminal_rows s.
    set (s0 := redraw terminal_rows s) in *. clearbody s0.
    destruct (mode_to_rate _ _ s0 s' ltac:(congruence) Hstep Hrate)
      as [Hlabel (d & Hd & Hpos)].
    split; [assumption|]. exists d. split; [|assumption].
    unfold selected_display, connected_displays in *. congruence.
  - intros Hst d Hd Hzero terminal_rows ch popen Hlabel.
    unfold iteration, handle_key.
    destruct (content_active _ _ (redraw_content terminal_rows s))
      as (_ & _ & Hnav).
    redraw_fields terminal_rows s.
    set (s0 := redraw terminal_rows s) in *. clearbody s0.
    assert (Hd0 : array_get (connected_displays s0) (monitor_highlight s0)
                  = Ok d)
      by (unfold selected_display, connected_displays in *; congruence).
    exists s0. rewrite <- Hnav.
    destruct Hlabel as [-> | ->]; cbn [case_body];
      unfold on_right, on_enter;
      replace (state s0) with STATE_MODE_SELECT by congruence;
      rewrite Hd0; cbn [bind]; rewrite Hzero; cbn;
      repeat split; congruence.
Qed.

Lemma run_reachable (inputs : list (Z * key * option string)) :
  forall s s', reachable s -> run inputs s = Ok (Continue s') -> reachable s'.
Proof.
  induction inputs as [|[[r ch] popen] inputs IH]; intros s s' Hs H; simpl in H.
  - injection H as <-. assumption.
  - destruct (iteration r ch popen s) as [[s1|code]|] eqn:E; cbn [bind] in H;
      try discriminate.
    eapply IH; [|exact H]. eapply reach_round; eauto.
Qed.

Lemma after_keys_reachable (report : string) (keys : list key) (s : App) :
  after_keys report keys = Ok (Continue s) -> reachable s.
Proof.
  unfold after_keys.
  destruct (main_start (Some report) 0) as [[s0|]|] eqn:E; cbn [bind];
    try discriminate.
  apply run_reachable. eapply reach_start; eauto.
Qed.

(** The theorem at the state Enter, Enter leads to on the scenario. *)
Lemma C3_rate_select_needs_a_mode_witness :
  match after_keys scenario_report [enter; enter] with
  | Ok (Continue s) =>
      state s = STATE_RATE_SELECT
      /\ exists d m, selected_display s = Ok d /\ 0 < mode_count d
                     /\ selected_mode s = Ok m
  | _ => False
  end.
Proof.
  destruct (after_keys scenario_report [enter; enter]) as [[s|code]|] eqn:E.
  - assert (Hst : state s = STATE_RATE_SELECT)
      by (vm_compute in E; injection E as <-; reflexivity).
    split; [exact Hst|].
    exact (proj1 (C3_rate_select_needs_a_mode s (after_keys_reachable _ _ _ E))
             Hst).
  - vm_compute in E. discriminate E.
  - vm_compute in E. discriminate E.
Defined.

(** C3 as stated fails: with Enter, down, Enter the loop is in RateSelect on
    the mode 1280x720 of HDMI-1, whose rate list is empty (a further Enter
    there reads a rate that does not exist). *)
Lemma C3_counterexample :
  match after_keys two_display_report [enter; KEY_DOWN; enter] with
  | Ok (Continue s) =>
      reachable s
      /\ state s = STATE_RATE_SELECT
      /\ option_map name
           match selected_display s with Ok d => Some d | UB => None end
         = Some "HDMI-1"
      /\ selected_mode s
         = Ok {| m_width := 1280; m_height := 720; refresh_rates := [] |}
      /\ active_count s = Ok 0
      /\ iteration 24 enter (Some two_display_report) s = UB
  | _ => False
  end.
Proof.
  destruct (after_keys two_display_report [enter; KEY_DOWN; enter])
    as [[s|code]|] eqn:E.
  - split; [exact (after_keys_reachable _ _ _ E)|].
    vm_compute in E. injection E as <-. repeat split.
  - vm_compute in E. discriminate E.
  - vm_compute in E. discriminate E.
Qed.

(** The theorem at the toggle of HDMI-1 on the scenario. *)
Lemma C6_reset_after_command_witness :
  match iteration 24 (Char "o") (Some scenario_report) scenario_start with
  | Ok (Continue s') =>
      state s' = STATE_MONITOR_SELECT
      /\ monitor_highlight s' = 0 /\ monitor_scroll s' = 0
      /\ mode_highlight s' = 0 /\ mode_scroll s' = 0
      /\ rate_highlight s' = 0 /\ rate_scroll s' = 0
      /\ pos_target_highlight s' = pos_target_highlight scenario_start
      /\ pos_direction_highlight s' = pos_direction_highlight scenario_start
      /\ exists command, commands s' = commands scenario_start ++ [command]
  | _ => False
  end.
Proof.
  destruct (iteration 24 (Char "o") (Some scenario_report) scenario_start)
    as [[s'|code]|] eqn:E.
  - apply (C6_reset_after_command 24 (Char "o") (Some scenario_report)
             scenario_start s').
    + vm_compute. reflexivity.
    + exact E.
  - vm_compute in E. discriminate E.
  - vm_compute in E. discriminate E.
Defined.

(** C6 as stated fails: after a position is applied with the direction
    selection on its last entry, the loop is in MonitorSelect with that
    index still 4. *)
Lemma C6_counterexample :
  match after_keys two_display_report [Char "p"; tab; KEY_UP] with
  | Ok (Continue s) =>
      state s = STATE_POSITION_SELECT
      /\ is_command_transition enter s = true
      /\ match iteration 24 enter (Some two_display_report) s with
         | Ok (Continue s') =>
             state s' = STATE_MONITOR_SELECT
             /\ pos_direction_highlight s' = 4
             /\ commands s' = ["xrandr --output HDMI-1 --same-as DP-1 --auto"]
         | _ => False
         end
  | _ => False
  end.
Proof. vm_compute. repeat split. Qed.

(** The theorem at the monitor list of the scenario: up from HDMI-1 goes
    to Exit. *)
Lemma C7_wraparound_witness :
  (exists s', iteration 24 KEY_UP None scenario_start = Ok (Continue s')
              /\ active_highlight s' = 2 - 1
              /\ state s' = state scenario_start
              /\ pos_panel_focus s' = pos_panel_focus scenario_start).
Proof.
  destruct (C7_wraparound scenario_start 2 24 None KEY_DOWN KEY_UP
              eq_refl eq_refl eq_refl) as [H _].
  destruct (H ltac:(lia)) as (_ & Hup & _).
  exact (Hup eq_refl).
Defined.

(** ** Which rounds run a command *)

Lemma on_up_commands (s s' : App) :
  on_up s = Ok (Continue s') -> commands s' = commands s.
Proof.
  unfold on_up. intros H.
  destruct (state s); [ | | | destruct (pos_panel_focus s) ];
    crunch H; injection H as <-; reflexivity.
Qed.

Lemma on_down_commands (s s' : App) :
  on_down s = Ok (Continue s') -> commands s' = commands s.
Proof.
  unfold on_down. intros H.
  destruct (state s); [ | | | destruct (pos_panel_focus s) ];
    crunch H; injection H as <-; reflexivity.
Qed.

(** The rounds singled out by [is_command_transition] are the only ones
    that pass a command to [system]. *)
Lemma other_rounds_run_nothing (terminal_rows : Z) (ch : key)
  (popen : option string) (s s' : App) :
  is_command_transition ch s = false ->
  iteration terminal_rows ch popen s = Ok (Continue s') ->
  commands s' = commands s.
Proof.
  intros Hcmd H. unfold is_command_transition in Hcmd.
  unfold iteration, handle_key in H.
  redraw_fields terminal_rows s.
  set (s0 := redraw terminal_rows s) in *. clearbody s0.
  replace (commands s) with (commands s0) by assumption.
  destruct (case_of ch); cbn [case_body] in H.
  - discriminate.
  - unfold on_toggle in H.
    destruct (state s0) eqn:Est; try (injection H as <-; reflexivity).
    replace (monitor_highlight s0 <? connected_count s0) with false in H.
    + injection H as <-; reflexivity.
    + replace (state s) with STATE_MONITOR_SELECT in Hcmd by congruence.
      unfold connected_count in *. congruence.
  - unfold on_position in H.
    destruct (state s0); try (injection H as <-; reflexivity).
    destruct (connected_count s0 >? 1); [|injection H as <-; reflexivity].
    crunch H.
    match goal with
    | E : free_targets _ = Ok _ |- _ =>
        apply free_targets_fields in E; destruct E as (_ & _ & Ec & _)
    end.
    match type of H with
    | context [written ?t] => destruct (written t); [|discriminate]
    end.
    injection H as <-. exact Ec.
  - injection H as <-. reflexivity.
  - eapply on_up_commands; eauto.
  - eapply on_down_commands; eauto.
  - unfold on_tab in H. destruct (state s0); injection H as <-; reflexivity.
  - unfold on_right in H.
    destruct (state s0); crunch H; injection H as <-; reflexivity.
  - unfold on_left in H.
    destruct (state s0); crunch H; try (injection H as <-; reflexivity).
    match goal with
    | E : free_targets_null _ = Ok _ |- _ =>
        apply free_targets_null_fields in E; destruct E as (_ & _ & Ec & _)
    end.
    injection H as <-. exact Ec.
  - unfold on_enter in H.
    destruct (state s0) eqn:Est.
    + crunch H; try discriminate. injection H as <-; reflexivity.
    + crunch H; injection H as <-; reflexivity.
    + replace (state s) with STATE_RATE_SELECT in Hcmd by congruence.
      discriminate.
    + replace (state s) with STATE_POSITION_SELECT in Hcmd by congruence.
      discriminate.
  - injection H as <-. reflexivity.
Qed.

(** ** The set-mode command *)

Lemma str_take_all (n : nat) (s : string) :
  (String.length s <= n)%nat -> str_take n s = s.
Proof.
  revert s. induction n as [|n IH]; intros [|c s] H; simpl in *;
    try reflexivity; try lia.
  rewrite IH by lia. reflexivity.
Qed.

Lemma append_empty_r (s : string) : (s ++ "")%string = s.
Proof. induction s as [|c s IH]; simpl; [reflexivity | now rewrite IH]. Qed.

Lemma string_of_uint_digits (d : Decimal.uint) :
  all_digits (NilEmpty.string_of_uint d) = true.
Proof. induction d; simpl; auto. Qed.

Lemma fmt_uint_digits (n : Z) :
  fmt_uint n <> "" /\ all_digits (fmt_uint n) = true.
Proof.
  unfold fmt_uint, NilZero.string_of_uint.
  destruct (N.to_uint (Z.to_N n)) eqn:E;
    (split; [discriminate | try reflexivity; apply string_of_uint_digits]).
Qed.

Lemma digit_char_isdigit (d : Z) :
  0 <= d < 10 -> isdigit (digit_char d) = true.
Proof.
  intros H.
  assert (Hd : d = 0 \/ d = 1 \/ d = 2 \/ d = 3 \/ d = 4 \/ d = 5 \/ d = 6
               \/ d = 7 \/ d = 8 \/ d = 9) by lia.
  repeat (destruct Hd as [-> | Hd]; [reflexivity|]). subst. reflexivity.
Qed.

(** [%.2f] of a finite value: an integer part, the point, two digits. *)
Lemma fmt_2f_finite (s : bool) (m : positive) (e : Z) :
  exists whole d1 d2,
    fmt_2f (D_finite s m e)
    = (sign_str s ++ whole ++ "." ++ String d1 (String d2 ""))%string
    /\ whole <> "" /\ all_digits whole = true
    /\ isdigit d1 = true /\ isdigit d2 = true.
Proof.
  unfold fmt_2f. set (h := hundredths m e).
  destruct (fmt_uint_digits (h / 100)) as [H1 H2].
  eexists _, _, _. split; [reflexivity|].
  repeat split; auto; apply digit_char_isdigit; apply Z.mod_pos_bound; lia.
Qed.

(** C9, as the code has it: the command buffer holds the text
    [xrandr --output NAME --mode WxH --rate RATE], cut to 255 characters;
    a finite rate is printed with an integer part and exactly two
    decimals, an infinite one as [inf] and a NaN as [nan]. *)
Theorem C9_command_text :
  forall (display : Display) (mode : Mode) (r : RefreshRate),
    apply_xrandr_settings_command display mode r
    = Ok (str_take 255 (full_command display mode r))
    /\ ((String.length (full_command display mode r) <= 255)%nat ->
        apply_xrandr_settings_command display mode r
        = Ok (full_command display mode r))
    /\ (forall s m e, rate r = D_finite s m e ->
        exists whole d1 d2,
          fmt_2f (rate r)
          = (sign_str s ++ whole ++ "." ++ String d1 (String d2 ""))%string
          /\ whole <> "" /\ all_digits whole = true
          /\ isdigit d1 = true /\ isdigit d2 = true)
    /\ (forall s, rate r = D_zero s ->
        fmt_2f (rate r) = (sign_str s ++ "0.00")%string)
    /\ (forall s, rate r = D_inf s ->
        fmt_2f (rate r) = (sign_str s ++ "inf")%string)
    /\ (forall s, rate r = D_nan s ->
        fmt_2f (rate r) = (sign_str s ++ "nan")%string).
Proof.
  intros display mode r.
  assert (H : apply_xrandr_settings_command display mode r
              = Ok (str_take 255 (full_command display mode r))).
  { unfold apply_xrandr_settings_command, snprintf, COMMAND_SIZE, full_command.
    cbn [format bind]. rewrite append_empty_r. reflexivity. }
  split; [exact H|]. split; [|split; [|split; [|split]]].
  - intros Hlen. rewrite H, str_take_all by assumption. reflexivity.
  - intros s m e ->. apply fmt_2f_finite.
  - intros s ->. reflexivity.
  - intros s ->. reflexivity.
  - intros s ->. reflexivity.
Qed.

(** The theorem at HDMI-1, 1920x1080 and the rate 59.94. *)
Lemma C9_command_text_witness :
  apply_xrandr_settings_command scenario_hdmi1 (mode_1920x1080 [])
    (plain rate_59_94)
  = Ok "xrandr --output HDMI-1 --mode 1920x1080 --rate 59.94".
Proof.
  rewrite (proj1 (proj2 (C9_command_text scenario_hdmi1 (mode_1920x1080 [])
                           (plain rate_59_94)))).
  - vm_compute. reflexivity.
  - apply Nat.leb_le. vm_compute. reflexivity.
Defined.

(** C9 as stated fails on rates the parser accepts: an infinite rate is
    printed without decimals, and the text for the rate 1e300 does not fit
    the buffer and is cut. *)
Lemma C9_counterexample :
  scan_rates "inf 1e300" = [rate_inf; rate_1e300]
  /\ apply_xrandr_settings_command scenario_hdmi1 (mode_1920x1080 []) rate_inf
     = Ok "xrandr --output HDMI-1 --mode 1920x1080 --rate inf"
  /\ String.length
       (full_command scenario_hdmi1 (mode_1920x1080 []) rate_1e300) = 351%nat
  /\ (exists command,
        apply_xrandr_settings_command scenario_hdmi1 (mode_1920x1080 [])
          rate_1e300 = Ok command
        /\ String.length command = 255%nat
        /\ command
           <> full_command scenario_hdmi1 (mode_1920x1080 []) rate_1e300).
Proof.
  split; [vm_compute; reflexivity|].
  split; [vm_compute; reflexivity|].
  split; [vm_compute; reflexivity|].
  eexists. split; [vm_compute; reflexivity|].
  split; [vm_compute; reflexivity|].
  intros H. apply (f_equal String.length) in H. vm_compute in H. discriminate H.
Qed.

(* ================================================================== *)
(** * Proofs: further properties of the parser                          *)
(* ================================================================== *)

Import Props Cases.

Section ParserProperties.
Close Scope Z_scope.
Open Scope string_scope.

(** ** The number of displays *)

Lemma process_line_length (st st' : loop_state) (buf : string) :
  process_line st buf = Ok st' ->
  List.length (Parser.displays st')
  = (List.length (Parser.displays st) + (if is_header buf then 1 else 0))%nat.
Proof.
  unfold process_line, is_header. intros H.
  destruct (non_null (strstr (c_str buf) " connected")) eqn:Eh.
  - unfold header_line in H. rewrite Eh in H.
    destruct (non_null (strstr (c_str buf) " primary"));
      match type of H with
      | bind (store_header ?v ?d) _ = _ =>
          destruct (store_header v d) as [d'|]; [|discriminate]
      end;
      simpl in H; inversion H; subst; simpl;
      rewrite length_app; simpl; lia.
  - rewrite Nat.add_0_r.
    destruct (current_display_ptr st) as [i|].
    + destruct (nth_error (Parser.displays st) i) as [d|]; [|discriminate].
      destruct (connected d && first_char_isspace (c_str buf)).
      * unfold mode_line in H.
        destruct (negb (ints_fit (sscanf (c_str buf) " %dx%d %n")));
          [discriminate|].
        destruct (sscanf (c_str buf) " %dx%d %n") as [|[s|w|n] vals];
          try (inversion H; subst; reflexivity).
        destruct vals as [|[s|h|n] vals];
          try (inversion H; subst; reflexivity).
        destruct vals as [|[s|z|n] vals];
          try (inversion H; subst; reflexivity).
        destruct vals; try (inversion H; subst; reflexivity).
        match type of H with
        | bind (array_store ?a ?i ?x) _ = _ =>
            destruct (array_store a i x) as [ds|] eqn:Ea; [|discriminate]
        end.
        simpl in H. inversion H; subst. simpl.
        eapply array_store_length; eauto.
      * inversion H; subst. reflexivity.
    + inversion H; subst. reflexivity.
Qed.

Lemma line_loop_length (bufs : list string) :
  forall st st',
    line_loop bufs st = Ok st' ->
    List.length (Parser.displays st')
    = (List.length (Parser.displays st) + List.length (filter is_header bufs))%nat.
Proof.
  induction bufs as [|buf bufs IH]; intros st st' H; simpl in H.
  - inversion H; subst. simpl. lia.
  - destruct (process_line st buf) as [st1|] eqn:E; [|discriminate].
    simpl in H. apply process_line_length in E. apply IH in H.
    simpl. destruct (is_header buf); simpl; lia.
Qed.

(** X1: when the parse returns, [*display_count] is the number of buffers
    read that contain [" connected"]: each of them adds one element to the
    array and no other line adds any. *)
Theorem display_count_is_header_count :
  forall (stream : string) (ret : option (list Display)),
    parse_xrandr_output (Some stream) = Ok ret ->
    display_count_of ret
    = Z.of_nat (List.length (filter is_header (fgets_all LINE_SIZE stream))).
Proof.
  intros stream ret. unfold parse_xrandr_output, parse_buffers.
  destruct (line_loop _ initial_state) as [st|] eqn:E; [|discriminate].
  apply line_loop_length in E. simpl in E. simpl.
  intros [= <-]. rewrite <- E.
  destruct (Parser.displays st); reflexivity.
Qed.

Lemma display_count_is_header_count_witness :
  display_count_of (Some [scenario_hdmi1])
  = Z.of_nat (List.length (filter is_header (fgets_all LINE_SIZE scenario_report))).
Proof.
  apply (display_count_is_header_count scenario_report).
  vm_compute. reflexivity.
Defined.

(** ** The open display *)

Lemma array_store_nth {A : Type} (a : list A) :
  forall i x a', array_store a i x = Ok a' -> nth_error a' i = Some x.
Proof.
  induction a as [|y a IH]; intros i x a' H; simpl in H; [discriminate|].
  destruct i as [|i].
  - inversion H; reflexivity.
  - destruct (array_store a i x) as [a''|] eqn:E; [|discriminate].
    simpl in H. inversion H; subst. simpl. eauto.
Qed.

(** What [mode_line] returns: the state itself, or the state with the
    open display replaced by one that differs in [modes] only. *)
Lemma mode_line_cases (st st' : loop_state) (i : nat) (d : Display)
  (line : string) :
  mode_line st i d line = Ok st' ->
  st' = st
  \/ exists ms ds,
       array_store (Parser.displays st) i (set_modes ms d) = Ok ds
       /\ st' = {| Parser.displays := ds;
                   current_display_ptr := current_display_ptr st |}.
Proof.
  unfold mode_line. intros H.
  destruct (negb (ints_fit (sscanf line " %dx%d %n"))); [discriminate|].
  destruct (sscanf line " %dx%d %n") as [|[s|w|n] vals];
    try (inversion H; subst; auto; fail).
  destruct vals as [|[s|h|n] vals]; try (inversion H; subst; auto; fail).
  destruct vals as [|[s|z|n] vals]; try (inversion H; subst; auto; fail).
  destruct vals; try (inversion H; subst; auto; fail).
  match type of H with
  | bind (array_store ?a ?i ?x) _ = _ =>
      destruct (array_store a i x) as [ds|] eqn:Ea; [|discriminate]
  end.
  simpl in H. inversion H; subst. right. eauto.
Qed.

(** What [header_line] returns: the array with one more element, which
    depends on the line only and is connected, and the pointer to it. *)
Lemma header_line_cases (st st' : loop_state) (line : string) :
  header_line st line = Ok st' ->
  exists d,
    header_line initial_state line
    = Ok {| Parser.displays := [d]; current_display_ptr := Some 0 |}
    /\ st' = {| Parser.displays := (Parser.displays st ++ [d])%list;
                current_display_ptr := Some (List.length (Parser.displays st)) |}.
Proof.
  unfold header_line.
  destruct (non_null (strstr line " connected"));
    [destruct (non_null (strstr line " primary"))|];
    match goal with
    | |- bind (store_header ?v ?d) _ = _ -> _ =>
        destruct (store_header v d) as [d'|]; [|discriminate]
    end;
    cbn [bind]; intros [= <-]; exists d'; cbn [Parser.displays List.length];
    (split; [reflexivity|]); f_equal; f_equal; lia.
Qed.

Lemma header_line_connected (st st' : loop_state) (line : string) :
  non_null (strstr line " connected") = true ->
  header_line st line = Ok st' ->
  exists d, Parser.displays st' = (Parser.displays st ++ [d])%list
            /\ current_display_ptr st' = Some (List.length (Parser.displays st))
            /\ connected d = true.
Proof.
  unfold header_line. intros ->.
  destruct (non_null (strstr line " primary"));
    match goal with
    | |- bind (store_header ?v ?d) _ = _ -> _ =>
        destruct (store_header v d) as [d'|] eqn:Es; [|discriminate];
        apply store_header_connected in Es
    end;
    cbn [bind]; intros [= <-]; exists d'; cbn [Parser.displays current_display_ptr];
    (split; [reflexivity|]); (split; [f_equal; lia | exact Es]).
Qed.

Lemma process_line_open (st st' : loop_state) (buf : string) :
  process_line st buf = Ok st' -> open_display_ok st -> open_display_ok st'.
Proof.
  unfold process_line. intros H Hst.
  destruct (non_null (strstr (c_str buf) " connected")) eqn:Eh.
  - destruct (header_line_connected _ _ _ Eh H) as (d & Hd & Hp & Hc).
    unfold open_display_ok. rewrite Hp, Hd. split.
    + rewrite length_app. simpl. lia.
    + exists d. split; [|exact Hc].
      rewrite nth_error_app2 by lia. now rewrite Nat.sub_diag.
  - unfold open_display_ok in *.
    destruct (current_display_ptr st) as [i|] eqn:Ep.
    + destruct Hst as (Hi & d0 & Hn & Hc0). rewrite Hn in H.
      destruct (connected d0 && first_char_isspace (c_str buf)).
      * apply mode_line_cases in H. destruct H as [-> | (ms & ds & Ha & ->)].
        { rewrite Ep. eauto. }
        cbn [current_display_ptr Parser.displays]. rewrite Ep. split.
        { apply array_store_length in Ha. lia. }
        { exists (set_modes ms d0). split; [|exact Hc0].
          eapply array_store_nth; eauto. }
      * inversion H; subst. exact I.
    + inversion H; subst. exact I.
Qed.

(** ** Lines of white space *)

Lemma all_space_no_word (s : string) :
  all_space s = true -> starts_with "connected" s = false.
Proof.
  destruct s as [|c s]; [reflexivity|]. cbn [all_space starts_with]. intros H.
  apply andb_true_iff in H. destruct H as [Hc _].
  destruct (Ascii.eqb "c" c) eqn:E; [|reflexivity].
  apply Ascii.eqb_eq in E. subst c. discriminate.
Qed.

Lemma all_space_no_header (s : string) :
  all_space s = true -> strstr s " connected" = None.
Proof.
  induction s as [|c s IH]; intros H; [reflexivity|].
  simpl in H. apply andb_true_iff in H. destruct H as [Hc Hs].
  change (strstr (String c s) " connected")
    with (if Ascii.eqb " " c && starts_with "connected" s
          then Some (String c s) else strstr s " connected").
  rewrite (all_space_no_word s Hs), andb_false_r. auto.
Qed.

Lemma all_space_skip (s : string) :
  all_space s = true -> skip_spaces s = "".
Proof.
  induction s as [|c s IH]; intros H; [reflexivity|].
  simpl in H. apply andb_true_iff in H. destruct H as [Hc Hs].
  simpl. rewrite Hc. auto.
Qed.

Lemma skip_spaces_empty (s : string) :
  skip_spaces s = "" -> all_space s = true.
Proof.
  induction s as [|c s IH]; intros H; [reflexivity|].
  simpl in *. destruct (isspace c); [auto | discriminate].
Qed.

Lemma blank_line (buf : string) :
  blank buf = true ->
  all_space (c_str buf) = true /\ first_char_isspace (c_str buf) = true.
Proof.
  unfold blank. destruct (c_str buf) as [|c s]; [discriminate|].
  intros H. split; [exact H|]. simpl in *.
  apply andb_true_iff in H. tauto.
Qed.

Lemma process_line_blank (st : loop_state) (buf : string) :
  blank buf = true -> open_display_ok st -> process_line st buf = Ok st.
Proof.
  intros Hb Hst. apply blank_line in Hb. destruct Hb as [Hs Hf].
  unfold process_line. rewrite (all_space_no_header _ Hs). simpl.
  unfold open_display_ok in Hst.
  destruct st as [ds [i|]]; simpl in *; [|reflexivity].
  destruct Hst as (_ & d & -> & ->). rewrite Hf. simpl.
  unfold mode_line, sscanf. cbn [parse_format isspace run_scanf].
  rewrite (all_space_skip _ Hs). reflexivity.
Qed.

Lemma line_loop_skips_blank (bufs : list string) :
  forall st, open_display_ok st ->
    line_loop (filter (fun buf => negb (blank buf)) bufs) st = line_loop bufs st.
Proof.
  induction bufs as [|buf bufs IH]; intros st Hst; [reflexivity|].
  simpl. destruct (blank buf) eqn:Eb; simpl.
  - rewrite process_line_blank by assumption. simpl. auto.
  - destruct (process_line st buf) as [st1|] eqn:E; [|reflexivity].
    simpl. apply IH. eapply process_line_open; eauto.
Qed.

(** X2: buffers that hold white space only, an empty line for one, do
    nothing, also while a display is open: the parse of a list of buffers
    is the parse of the list without them. *)
Theorem blank_lines_change_nothing :
  forall bufs : list string,
    parse_buffers (filter (fun buf => negb (blank buf)) bufs)
    = parse_buffers bufs.
Proof.
  intros bufs.
  unfold parse_buffers. rewrite line_loop_skips_blank; [reflexivity|].
  exact I.
Qed.

(** ** One display after the other *)

Lemma line_loop_app (b1 b2 : list string) :
  forall st, line_loop (b1 ++ b2)%list st
             = bind (line_loop b1 st) (line_loop b2).
Proof.
  induction b1 as [|buf b1 IH]; intros st; [reflexivity|].
  simpl. destruct (process_line st buf) as [st1|]; [|reflexivity].
  simpl. apply IH.
Qed.

Lemma array_store_app {A : Type} (pre a : list A) (i : nat) (x : A) :
  array_store (pre ++ a)%list (List.length pre + i) x
  = bind (array_store a i x) (fun a' => Ok (pre ++ a')%list).
Proof.
  induction pre as [|y pre IH]; simpl.
  - destruct (array_store a i x); reflexivity.
  - rewrite IH. destruct (array_store a i x); reflexivity.
Qed.

(** The line loop works on the open display and the line only: with more
    displays in front of the array it does the same. *)
Lemma process_line_shift (pre : list Display) (st : loop_state) (buf : string) :
  process_line (shift pre st) buf
  = bind (process_line st buf) (fun st' => Ok (shift pre st')).
Proof.
  unfold process_line.
  destruct (non_null (strstr (c_str buf) " connected")) eqn:Eh.
  - unfold header_line. rewrite Eh.
    destruct (non_null (strstr (c_str buf) " primary"));
      match goal with
      | |- bind (store_header ?v ?d) _ = _ =>
          destruct (store_header v d) as [d'|]; [|reflexivity]
      end;
      cbn [bind]; unfold shift;
      cbn [Parser.displays current_display_ptr option_map];
      rewrite length_app, <- app_assoc; do 3 f_equal; lia.
  - destruct st as [ds [i|]]; unfold shift;
      cbn [current_display_ptr Parser.displays option_map]; [|reflexivity].
    rewrite nth_error_app2 by lia.
    replace (List.length pre + i - List.length pre)%nat with i by lia.
    destruct (nth_error ds i) as [d|]; [|reflexivity].
    destruct (connected d && first_char_isspace (c_str buf)); [|reflexivity].
    unfold mode_line.
    destruct (negb (ints_fit (sscanf (c_str buf) " %dx%d %n"))); [reflexivity|].
    destruct (sscanf (c_str buf) " %dx%d %n") as [|[s|w|n] vals];
      try reflexivity.
    destruct vals as [|[s|h|n] vals]; try reflexivity.
    destruct vals as [|[s|z|n] vals]; try reflexivity.
    destruct vals; try reflexivity.
    cbn [Parser.displays current_display_ptr].
    rewrite array_store_app.
    match goal with
    | |- context [array_store ds i ?x] => destruct (array_store ds i x)
    end; reflexivity.
Qed.

Lemma line_loop_shift (pre : list Display) (bufs : list string) :
  forall st,
    line_loop bufs (shift pre st)
    = bind (line_loop bufs st) (fun st' => Ok (shift pre st')).
Proof.
  induction bufs as [|buf bufs IH]; intros st; [reflexivity|].
  simpl. rewrite process_line_shift.
  destruct (process_line st buf) as [st1|]; [|reflexivity].
  simpl. apply IH.
Qed.

(** A header line starts afresh: the element it adds and what follows do
    not depend on the displays read before. *)
Lemma process_line_header_shift (st : loop_state) (buf : string) :
  is_header buf = true ->
  process_line st buf
  = bind (process_line initial_state buf)
      (fun st' => Ok (shift (Parser.displays st) st')).
Proof.
  unfold is_header, process_line. intros ->.
  destruct (header_line st (c_str buf)) as [st'|] eqn:E.
  - destruct (header_line_cases _ _ _ E) as (d & -> & ->).
    cbn [bind]. unfold shift.
    cbn [Parser.displays current_display_ptr option_map].
    do 3 f_equal. lia.
  - revert E. unfold header_line.
    destruct (non_null (strstr (c_str buf) " connected"));
      [destruct (non_null (strstr (c_str buf) " primary"))|];
      match goal with
      | |- bind (store_header ?v ?d) _ = _ -> _ =>
          destruct (store_header v d) as [d'|]; [discriminate | reflexivity]
      end.
Qed.

(** X3: a header line starts afresh.  The displays read from the lines
    before a header line, followed by the displays read from that line on,
    are the displays read from the whole. *)
Theorem parse_splits_at_header :
  forall (before after : list string) (header : string)
         (st1 st2 : loop_state),
    is_header header = true ->
    line_loop before initial_state = Ok st1 ->
    line_loop (header :: after) initial_state = Ok st2 ->
    exists st,
      line_loop (before ++ header :: after)%list initial_state = Ok st
      /\ Parser.displays st = (Parser.displays st1 ++ Parser.displays st2)%list.
Proof.
  intros before after header st1 st2 Hh H1 H2.
  rewrite line_loop_app, H1. cbn [bind line_loop].
  rewrite process_line_header_shift by assumption.
  cbn [line_loop] in H2.
  destruct (process_line initial_state header) as [sth|]; [|discriminate].
  cbn [bind] in *. rewrite line_loop_shift, H2. cbn [bind].
  eexists. split; reflexivity.
Qed.

(** The theorem at the scenario report followed by the two lines of DP-1. *)
Lemma parse_splits_at_header_witness :
  exists st,
    line_loop (fgets_all LINE_SIZE scenario_report
               ++ ("DP-1 connected 1280x720+1920+0" ++ nl)%string
                  :: [("   1280x720      60.00*+" ++ nl)%string])%list
      initial_state = Ok st
    /\ Parser.displays st
       = (Parser.displays
            {| Parser.displays := [scenario_hdmi1];
               current_display_ptr := None |}
          ++ Parser.displays
               {| Parser.displays := [dp1];
                  current_display_ptr := Some 0 |})%list.
Proof.
  apply (parse_splits_at_header (fgets_all LINE_SIZE scenario_report)
           ["   1280x720      60.00*+" ++ nl]
           ("DP-1 connected 1280x720+1920+0" ++ nl));
    vm_compute; reflexivity.
Defined.

(** ** The name of a display *)

Lemma skip_spaces_head (s : string) (c : ascii) (rest : string) :
  skip_spaces s = String c rest -> isspace c = false.
Proof.
  induction s as [|a s IH]; intros H; simpl in H; [discriminate|].
  destruct (isspace a) eqn:Ea; [auto|]. inversion H; subst. exact Ea.
Qed.

Lemma scan_word_no_space (s : string) :
  no_space (fst (scan_word s)) = true.
Proof.
  induction s as [|c s IH]; [reflexivity|]. simpl.
  destruct (isspace c) eqn:Ec; [reflexivity|].
  destruct (scan_word s) as [w rest]. simpl in *. now rewrite Ec.
Qed.

Lemma first_word_of_header (line : string) :
  non_null (strstr line " connected") = true -> first_word line <> "".
Proof.
  intros Hh Hw. unfold first_word in Hw.
  destruct (skip_spaces line) as [|c rest] eqn:Es.
  - apply skip_spaces_empty in Es. apply all_space_no_header in Es.
    rewrite Es in Hh. discriminate.
  - apply skip_spaces_head in Es. simpl in Hw. rewrite Es in Hw.
    destruct (scan_word rest). discriminate.
Qed.

Lemma store_ints_name (fields : list (Z -> Display -> Display)) :
  Forall (fun set => forall z d, name (set z d) = name d) fields ->
  forall vals d d',
    store_ints fields vals d = Ok d' -> name d' = name d.
Proof.
  induction 1 as [|set fields Hset _ IH]; intros vals d d' H.
  - simpl in H. now inversion H.
  - destruct vals as [|[s|z|n] vals]; simpl in H; try (now inversion H).
    destruct (in_int z); [|discriminate].
    rewrite (IH _ _ _ H). apply Hset.
Qed.

(** What the header [sscanf] calls, which all start with [%s], leave in
    [name]: the first word of the line, if it fits. *)
Lemma store_header_name (ds : list directive) (line : string) (d d' : Display) :
  first_word line <> "" ->
  store_header (run_scanf (D_s :: ds) line 0) d = Ok d' ->
  name d' = first_word line /\ (String.length (first_word line) <= 31)%nat.
Proof.
  unfold first_word. cbn [run_scanf].
  destruct (scan_word (skip_spaces line)) as [w rest]. simpl.
  intros Hw. destruct w as [|c w]; [congruence|].
  unfold store_header, store_name.
  destruct (String.length (String c w) <=? 31)%nat eqn:El; [|discriminate].
  cbn [bind]. intros H. apply store_ints_name in H.
  - split; [exact H|]. now apply Nat.leb_le.
  - repeat constructor.
Qed.


Lemma header_line_name (st st' : loop_state) (line : string) :
  non_null (strstr line " connected") = true ->
  header_line st line = Ok st' ->
  exists d, Parser.displays st' = (Parser.displays st ++ [d])%list
            /\ name d = first_word line
            /\ (String.length (first_word line) <= 31)%nat.
Proof.
  intros Hh. pose proof (first_word_of_header line Hh) as Hw.
  unfold header_line. rewrite Hh.
  destruct (non_null (strstr line " primary"));
    match goal with
    | |- bind (store_header (sscanf ?l ?f) ?d) _ = _ -> _ =>
        change (sscanf l f) with (run_scanf (parse_format f) l 0);
        cbn [parse_format isspace];
        match goal with
        | |- bind (store_header ?v d) _ = _ -> _ =>
            destruct (store_header v d) as [d'|] eqn:Es; [|discriminate];
            apply (store_header_name _ _ _ _ Hw) in Es
        end
    end;
    cbn [bind]; intros [= <-]; exists d'; cbn [Parser.displays]; tauto.
Qed.





(** ** Numbers written with %d and read with %d *)











(** ** The conversions of sscanf on such text *)













(** ** A mode line *)









(** ** Reports the parser reads without overrun *)

















End ParserProperties.

(* ================================================================== *)
(** * Proofs: further properties of the TUI                             *)
(* ================================================================== *)

(** ** The targets of the position panel *)

Lemma array_store_past {A : Type} (a : list A) :
  forall i x, (List.length a <= i)%nat -> array_store a i x = UB.
Proof.
  induction a as [|y a IH]; intros i x H; [reflexivity|].
  destruct i as [|i]; simpl in *; [lia|]. rewrite IH by lia. reflexivity.
Qed.

Lemma drop_nth_length {A : Type} (l : list A) :
  forall n, (n < List.length l)%nat ->
            S (List.length (drop_nth n l)) = List.length l.
Proof.
  induction l as [|x l IH]; intros n H; simpl in *; [lia|].
  destruct n as [|n]; [reflexivity|]. simpl. rewrite IH by lia. reflexivity.
Qed.

Lemma drop_nth_past {A : Type} (l : list A) :
  forall n, (List.length l <= n)%nat -> drop_nth n l = l.
Proof.
  induction l as [|x l IH]; intros n H; [reflexivity|].
  destruct n as [|n]; simpl in *; [lia|]. rewrite IH by lia. reflexivity.
Qed.

(** The loop of [case 'p'] copies every display but the selected one, in
    order, and overruns the array when they are more than its slots. *)
Lemma fill_targets_spec (connected : list Display) :
  forall (i h : Z) (done : list Display) (k : nat),
    fill_targets connected i h (map Some done ++ repeat None k)
      (List.length done)
    = let rest := if h <? i then connected
                  else drop_nth (Z.to_nat (h - i)) connected in
      if (List.length rest <=? k)%nat
      then Ok (map Some (done ++ rest)
               ++ repeat None (k - List.length rest))
      else UB.
Proof.
  induction connected as [|d connected IH]; intros i h done k.
  - cbn [fill_targets drop_nth]. destruct (h <? i); cbn [List.length Nat.leb];
      now rewrite app_nil_r, Nat.sub_0_r.
  - cbn [fill_targets]. destruct (Z.eqb_spec i h) as [->|Hne].
    + rewrite IH. rewrite Z.ltb_irrefl, Z.sub_diag.
      replace (h <? h + 1) with true by (symmetry; apply Z.ltb_lt; lia).
      reflexivity.
    + assert (Hrest :
        (if h <? i then d :: connected
         else drop_nth (Z.to_nat (h - i)) (d :: connected))
        = d :: (if h <? i + 1 then connected
                else drop_nth (Z.to_nat (h - (i + 1))) connected)).
      { destruct (Z.ltb_spec h i).
        - replace (h <? i + 1) with true by (symmetry; apply Z.ltb_lt; lia).
          reflexivity.
        - replace (h <? i + 1) with false by (symmetry; apply Z.ltb_ge; lia).
          replace (Z.to_nat (h - i)) with (S (Z.to_nat (h - (i + 1)))) by lia.
          reflexivity. }
      cbv zeta. rewrite Hrest. clear Hrest.
      destruct k as [|k].
      * rewrite array_store_past
          by (rewrite length_app, length_map; simpl; lia).
        reflexivity.
      * cbn [repeat]. rewrite <- (length_map Some done) at 1.
        rewrite array_store_at. cbn [bind].
        specialize (IH (i + 1) h (done ++ [d]) k).
        rewrite map_app, <- app_assoc, length_app in IH. cbn [map app List.length] in IH.
        replace (List.length done + 1)%nat with (S (List.length done)) in IH
          by lia.
        rewrite IH. cbv zeta. cbn [List.length Nat.leb Nat.sub].
        now rewrite <- app_assoc.
Qed.

Lemma written_all {A : Type} (l : list A) :
  written (map Some l ++ repeat None 0) = Some l.
Proof. cbn [repeat]. rewrite app_nil_r. apply written_map_Some. Qed.

(** [case 'p'] in MonitorSelect with more than one connected display: on a
    display row the targets are the other displays in order; on the Exit
    row the loop writes past the array. *)
Lemma on_position_spec (s : App) :
  state s = STATE_MONITOR_SELECT ->
  position_target_displays s = Null ->
  connected_count s = Z.of_nat (List.length (connected_displays s)) ->
  0 <= monitor_highlight s ->
  1 < connected_count s ->
  on_position s
  = if monitor_highlight s <? connected_count s
    then
      let targets :=
        drop_nth (Z.to_nat (monitor_highlight s)) (connected_displays s) in
      Ok (Continue
            (set_needs_redraw true
               (set_pos_direction_highlight 0
                  (set_pos_target_highlight 0
                     (set_pos_panel_focus POS_PANEL_TARGET
                        (set_position_target_displays (Live targets)
                           (set_position_target_count (connected_count s - 1)
                              (set_state STATE_POSITION_SELECT s))))))))
    else UB.
Proof.
  intros Hst Hnull Hcount Hh Hmany. unfold on_position. rewrite Hst.
  rewrite (proj2 (Z.gtb_lt _ _) Hmany).
  unfold free_targets. cbn [position_target_displays set_state].
  rewrite Hnull. cbn [bind].
  cbn [position_target_count set_position_target_count monitor_highlight
       set_state].
  change (connected_count (set_state STATE_POSITION_SELECT s))
    with (connected_count s).
  change (connected_count
            (set_position_target_count (connected_count s - 1)
               (set_state STATE_POSITION_SELECT s)))
    with (connected_count s).
  change (connected_displays
            (set_position_target_count (connected_count s - 1)
               (set_state STATE_POSITION_SELECT s)))
    with (connected_displays s).
  rewrite Hcount at 1. rewrite Nat2Z.id, firstn_all.
  unfold malloc.
  pose proof (fill_targets_spec (connected_displays s) 0
                (monitor_highlight s) [] (Z.to_nat (connected_count s - 1)))
    as Hfill.
  cbn [map app List.length] in Hfill. rewrite Hfill. clear Hfill. cbv zeta.
  replace (monitor_highlight s <? 0) with false
    by (symmetry; apply Z.ltb_ge; lia).
  rewrite Z.sub_0_r.
  destruct (Z.ltb_spec (monitor_highlight s) (connected_count s)) as [Hlt|Hge].
  - pose proof (drop_nth_length (connected_displays s)
                  (Z.to_nat (monitor_highlight s)) ltac:(lia)) as Hlen.
    replace (Z.to_nat (connected_count s - 1))
      with (List.length (drop_nth (Z.to_nat (monitor_highlight s))
                           (connected_displays s))) by lia.
    rewrite Nat.leb_refl, Nat.sub_diag. cbn [bind app].
    rewrite written_all. reflexivity.
  - rewrite drop_nth_past by lia.
    replace (List.length (connected_displays s)
             <=? Z.to_nat (connected_count s - 1))%nat with false
      by (symmetry; apply Nat.leb_gt; lia).
    reflexivity.
Qed.

(** ** What holds of the panels at the top of every round *)

Ltac disc_unfold :=
  unfold discipline, position_panel_ok, panels_ok, scrolls_ok, selected_mode,
    selected_display, invariant, num_items, connected_count,
    connected_displays in *.

Lemma discipline_content (a b : App) :
  content a = content b -> discipline a -> discipline b.
Proof.
  intros H. destruct a, b. unfold content, navigation in H. cbn in H.
  injection H. intros. subst. assumption.
Qed.

Lemma scroll_up_nonneg (count view_height h scroll : Z) :
  0 <= h -> 0 <= scroll -> 0 <= scroll_up count view_height h scroll.
Proof.
  intros Hh Hs. unfold scroll_up.
  destruct (Z.ltb_spec h scroll); [lia|].
  destruct (h >=? count - 1); [|lia].
  destruct (Z.gtb_spec count view_height); lia.
Qed.

Lemma scroll_down_nonneg (view_height h scroll : Z) :
  0 <= h -> 0 <= scroll -> 0 <= scroll_down view_height h scroll.
Proof.
  intros Hh Hs. unfold scroll_down.
  destruct (Z.geb_spec h (scroll + view_height)); [lia|].
  destruct (h =? 0); lia.
Qed.

Lemma wrap_up_range (count h : Z) :
  0 < count -> h = 0 \/ 0 <= h < count -> 0 <= wrap_up count h < count.
Proof.
  intros Hc Hh. unfold wrap_up. destruct (Z.eqb_spec h 0); lia.
Qed.

Ltac fin := repeat split; auto; try tauto; try lia.

Lemma discipline_on_up (s s' : App) :
  invariant s -> discipline s -> on_up s = Ok (Continue s') -> discipline s'.
Proof.
  intros Hinv Hd H. unfold on_up in H.
  destruct Hinv as (I1 & I2 & I3 & I4).
  destruct Hd as (P1 & P2 & S1 & S2 & S3).
  disc_unfold.
  destruct (state s) eqn:Est; cbn [bind] in H.
  - injection H as <-. cbn. rewrite Est. fin.
    apply scroll_up_nonneg; [|assumption].
    apply wrap_up_range; lia.
  - destruct I4 as (d & Hd & Hm). rewrite Hd in H. cbn [bind] in H.
    destruct (Z.gtb_spec (mode_count d) 0); cbn [bind] in H;
      injection H as <-; cbn; rewrite Est; fin.
    apply scroll_up_nonneg; [|assumption]. apply wrap_up_range; lia.
  - destruct I4 as (d & Hd & Hm). rewrite Hd in H. cbn [bind] in H.
    rewrite Hd in P2. cbn [bind] in P2.
    destruct (mode_count d >? 0); cbn [bind] in H;
      [ destruct (array_get (modes d) (mode_highlight s)) as [m|] eqn:Em;
        cbn [bind] in H; [|discriminate];
        destruct (Z.gtb_spec (rate_count m) 0); cbn [bind] in H | ];
      injection H as <-; cbn; rewrite Est, ?Hd; cbn [bind]; fin;
      try (rewrite ?Em; exact P2).
    + intros m' Hm'. rewrite Em in Hm'. injection Hm' as <-.
      right. apply wrap_up_range; auto.
    + apply scroll_up_nonneg; [|assumption].
      apply wrap_up_range; auto.
  - destruct P1 as (ts & T1 & T2 & T3 & T4 & T5 & T6).
    change position_direction_count with 5 in *.
    destruct (pos_panel_focus s);
      [destruct (Z.gtb_spec (position_target_count s) 0)|]; cbn [bind] in H;
      injection H as <-; cbn; rewrite Est; fin;
      exists ts; fin; apply wrap_up_range; lia.
Qed.

Lemma discipline_on_down (s s' : App) :
  invariant s -> discipline s -> on_down s = Ok (Continue s') -> discipline s'.
Proof.
  intros Hinv Hd H. unfold on_down in H.
  destruct Hinv as (I1 & I2 & I3 & I4).
  destruct Hd as (P1 & P2 & S1 & S2 & S3).
  disc_unfold.
  destruct (state s) eqn:Est; cbn [bind] in H.
  - destruct (wrap_down_range (d_num_items (data s)) (monitor_highlight s))
      as (h & Hw & Hh); [lia | lia |].
    rewrite Hw in H. cbn [bind] in H. injection H as <-. cbn. rewrite Est.
    fin. apply scroll_down_nonneg; lia.
  - destruct I4 as (d & Hd & Hm). rewrite Hd in H. cbn [bind] in H.
    destruct (Z.gtb_spec (mode_count d) 0); cbn [bind] in H.
    + destruct (wrap_down_range (mode_count d) (mode_highlight s))
        as (h & Hw & Hh); [lia | lia |].
      rewrite Hw in H. cbn [bind] in H. injection H as <-. cbn. rewrite Est.
      fin. apply scroll_down_nonneg; lia.
    + injection H as <-. cbn. rewrite Est. fin.
  - destruct I4 as (d & Hd & Hm). rewrite Hd in H. cbn [bind] in H.
    rewrite Hd in P2. cbn [bind] in P2.
    destruct (mode_count d >? 0); cbn [bind] in H;
      [ destruct (array_get (modes d) (mode_highlight s)) as [m|] eqn:Em;
        cbn [bind] in H; [|discriminate];
        destruct (Z.gtb_spec (rate_count m) 0); cbn [bind] in H;
        [ destruct (wrap_down_range (rate_count m) (rate_highlight s))
            as (h & Hw & Hh);
          [lia | destruct (P2 m eq_refl); lia |];
          rewrite Hw in H; cbn [bind] in H | ] | ];
      injection H as <-; cbn; rewrite Est, ?Hd; cbn [bind]; fin;
      try (rewrite ?Em; exact P2).
    + intros m' Hm'. rewrite Em in Hm'. injection Hm' as <-. right. lia.
    + apply scroll_down_nonneg; lia.
  - destruct P1 as (ts & T1 & T2 & T3 & T4 & T5 & T6).
    change position_direction_count with 5 in *.
    destruct (pos_panel_focus s).
    + destruct (Z.gtb_spec (position_target_count s) 0); cbn [bind] in H.
      * destruct (wrap_down_range (position_target_count s)
                    (pos_target_highlight s)) as (h & Hw & Hh); [lia | lia |].
        rewrite Hw in H. cbn [bind] in H. injection H as <-. cbn.
        rewrite Est. fin; try (exists ts; fin).
      * injection H as <-. cbn. rewrite Est. fin; try (exists ts; fin).
    + destruct (wrap_down_range 5 (pos_direction_highlight s))
        as (h & Hw & Hh); [lia | lia |].
      rewrite Hw in H. cbn [bind] in H. injection H as <-. cbn.
      rewrite Est. fin; try (exists ts; fin).
Qed.

Lemma discipline_top (s : App) :
  state s = STATE_MONITOR_SELECT ->
  position_target_displays s = Null ->
  monitor_scroll s = 0 ->
  mode_highlight s = 0 -> mode_scroll s = 0 ->
  rate_highlight s = 0 -> rate_scroll s = 0 ->
  discipline s.
Proof.
  intros Hst Hn H1 H2 H3 H4 H5. disc_unfold. rewrite Hst. fin.
Qed.

Lemma discipline_start (popen : option string) (rows0 : Z) (s : App) :
  main_start popen rows0 = Ok (Some s) -> discipline s.
Proof.
  unfold main_start.
  destruct (setup_display_data popen) as [[d|]|]; cbn [bind]; try discriminate.
  intros [= <-]. now apply discipline_top.
Qed.

Lemma discipline_reparse (popen : option string) (s s' : App) :
  position_target_displays s = Null ->
  reparse_and_reset popen s = Ok (Continue s') -> discipline s'.
Proof.
  unfold reparse_and_reset. intros Hn.
  destruct (setup_display_data popen) as [[d|]|]; cbn [bind]; try discriminate.
  intros [= <-]. now apply discipline_top.
Qed.

Lemma on_position_blocked (s : App) :
  state s <> STATE_MONITOR_SELECT \/ connected_count s <= 1 ->
  on_position s = Ok (Continue s).
Proof.
  unfold on_position. intros [H | H].
  - destruct (state s); congruence.
  - destruct (state s); try reflexivity.
    destruct (Z.gtb_spec (connected_count s) 1); [lia | reflexivity].
Qed.

Lemma discipline_case_body (label : case_label) (popen : option string)
  (s s' : App) :
  invariant s -> discipline s ->
  case_body label popen s = Ok (Continue s') -> discipline s'.
Proof.
  intros Hinv Hd H. destruct label; cbn [case_body] in H.
  - discriminate.
  - (* 'o' *)
    unfold on_toggle in H.
    destruct (state s) eqn:Est; try (injection H as <-; assumption).
    destruct (monitor_highlight s <? connected_count s);
      [|injection H as <-; assumption].
    destruct Hd as (P1 & _). unfold position_panel_ok in P1.
    rewrite Est in P1.
    bind_ok H.
    match goal with
    | E : free_targets _ = Ok _ |- _ =>
        unfold free_targets in E; cbn [position_target_displays run_command] in E;
        rewrite P1 in E; injection E as <-
    end.
    eapply discipline_reparse; [|exact H]. exact P1.
  - (* 'p' *)
    destruct (Z.gtb_spec (connected_count s) 1) as [Hmany|Hfew];
      [destruct (state s) eqn:Est|];
      try (rewrite on_position_blocked in H by ((right; lia) || (left; congruence));
           injection H as <-; assumption).
    destruct Hinv as (I1 & I2 & I3 & _).
    destruct Hd as (P1 & P2 & S1 & S2 & S3).
    unfold position_panel_ok, panels_ok in P1, P2. rewrite Est in P1, P2.
    rewrite on_position_spec in H by (assumption || lia).
    destruct (Z.ltb_spec (monitor_highlight s) (connected_count s));
      [|discriminate].
    cbv zeta in H. injection H as <-.
    pose proof (drop_nth_length (connected_displays s)
                  (Z.to_nat (monitor_highlight s)) ltac:(lia)) as Hlen.
    unfold discipline, position_panel_ok, panels_ok, scrolls_ok. cbn.
    split; [|tauto].
    eexists. split; [reflexivity|].
    change position_direction_count with 5. fin.
  - (* KEY_RESIZE *)
    injection H as <-. eapply discipline_content; [|exact Hd]. reflexivity.
  - eapply discipline_on_up; eauto.
  - eapply discipline_on_down; eauto.
  - (* Tab *)
    unfold on_tab in H.
    destruct (state s) eqn:Est; injection H as <-; assumption.
  - (* KEY_RIGHT *)
    destruct Hd as (P1 & P2 & S1 & S2 & S3).
    unfold on_right in H. disc_unfold.
    destruct (state s) eqn:Est; crunch H; injection H as <-; cbn;
      rewrite ?Est; fin.
  - (* KEY_LEFT *)
    destruct Hd as (P1 & P2 & S1 & S2 & S3).
    unfold on_left in H. disc_unfold.
    destruct (state s) eqn:Est; crunch H; try (injection H as <-; cbn;
      rewrite ?Est; fin; fail).
    match goal with
    | E : free_targets_null _ = Ok _ |- _ =>
        apply free_targets_null_fields in E;
        destruct E as (E1 & E2 & _ & _ & E5)
    end.
    unfold navigation in E2. cbn in E2. injection E2. intros.
    injection H as <-. cbn.
    replace (state a) with STATE_MONITOR_SELECT by congruence.
    rewrite E5. fin; congruence.
  - (* Enter *)
    unfold on_enter in H.
    destruct (state s) eqn:Est.
    + destruct Hd as (P1 & P2 & S1 & S2 & S3). disc_unfold.
      rewrite Est in *.
      crunch H; try discriminate. injection H as <-. cbn. rewrite ?Est. fin.
    + destruct Hd as (P1 & P2 & S1 & S2 & S3). disc_unfold.
      rewrite Est in *.
      crunch H; injection H as <-; cbn; rewrite ?Est; fin.
    + bind_ok H.
      match goal with
      | E : free_targets_null _ = Ok _ |- _ =>
          apply free_targets_null_fields in E;
          destruct E as (_ & _ & _ & _ & E5)
      end.
      eapply discipline_reparse; eauto.
    + bind_ok H.
      match goal with
      | E : free_targets_null _ = Ok _ |- _ =>
          apply free_targets_null_fields in E;
          destruct E as (_ & _ & _ & _ & E5)
      end.
      eapply discipline_reparse; eauto.
  - injection H as <-; assumption.
Qed.

Lemma discipline_iteration (terminal_rows : Z) (ch : key)
  (popen : option string) (s s' : App) :
  invariant s -> discipline s ->
  iteration terminal_rows ch popen s = Ok (Continue s') ->
  discipline s'.
Proof.
  intros Hinv Hd H. unfold iteration, handle_key in H.
  eapply discipline_case_body; [| |exact H].
  - eapply invariant_content; [|exact Hinv]. symmetry. apply redraw_content.
  - eapply discipline_content; [|exact Hd]. symmetry. apply redraw_content.
Qed.

Lemma reachable_discipline (s : App) : reachable s -> discipline s.
Proof.
  induction 1 as [popen rows0 s Hstart | s r ch popen s' Hs IH Hstep].
  - eapply discipline_start; eauto.
  - eapply discipline_iteration; eauto using reachable_invariant.
Qed.

(** ** The position panel *)

(** X9: at the top of every round [position_target_displays] is a live
    array exactly in PositionSelect, where it has [position_target_count]
    elements and both selections of the panel are inside their lists, and
    NULL in every other state; it is never a pointer that was freed. *)
Theorem targets_live_in_position_select_only :
  forall s : App,
    reachable s ->
    position_target_displays s <> Freed
    /\ (state s = STATE_POSITION_SELECT ->
        exists targets,
          position_target_displays s = Live targets
          /\ position_target_count s = Z.of_nat (List.length targets)
          /\ 0 <= pos_target_highlight s < position_target_count s
          /\ 0 <= pos_direction_highlight s < position_direction_count)
    /\ (state s <> STATE_POSITION_SELECT ->
        position_target_displays s = Null).
Proof.
  intros s Hs. apply reachable_discipline in Hs.
  destruct Hs as (P1 & _). unfold position_panel_ok in P1.
  destruct (state s);
    try (split; [congruence|]; split; [discriminate | intros _; exact P1]).
  destruct P1 as (ts & T1 & T2 & T3 & T4 & T5 & T6).
  split; [congruence|]. split; [|congruence].
  intros _. exists ts. auto.
Qed.

(** The theorem at the state the position key leads to on two displays. *)
Lemma targets_live_in_position_select_only_witness :
  match after_keys two_display_report [Char "p"] with
  | Ok (Continue s) =>
      position_target_displays s <> Freed
      /\ (state s = STATE_POSITION_SELECT ->
          exists targets,
            position_target_displays s = Live targets
            /\ position_target_count s = Z.of_nat (List.length targets)
            /\ 0 <= pos_target_highlight s < position_target_count s
            /\ 0 <= pos_direction_highlight s < position_direction_count)
      /\ (state s <> STATE_POSITION_SELECT ->
          position_target_displays s = Null)
  | _ => False
  end.
Proof.
  destruct (after_keys two_display_report [Char "p"]) as [[s|code]|] eqn:E.
  - apply (targets_live_in_position_select_only s).
    exact (after_keys_reachable _ _ _ E).
  - vm_compute in E. discriminate E.
  - vm_compute in E. discriminate E.
Defined.

Lemma redraw_reachable_facts (terminal_rows : Z) (s : App) :
  reachable s ->
  invariant (redraw terminal_rows s) /\ discipline (redraw terminal_rows s).
Proof.
  intros Hs. split.
  - eapply invariant_content; [|apply reachable_invariant; exact Hs].
    symmetry. apply redraw_content.
  - eapply discipline_content; [|apply reachable_discipline; exact Hs].
    symmetry. apply redraw_content.
Qed.

(** X10: the position key in MonitorSelect on a display row, with more
    than one connected display, opens PositionSelect with the connected
    displays other than the selected one as targets, in their order, one
    fewer than the connected displays, both selections of the panel at 0
    and the focus on the targets; no command is run and the data stay. *)
Theorem position_key_lists_the_other_displays :
  forall (s : App) (terminal_rows : Z) (ch : key) (popen : option string),
    reachable s ->
    case_of ch = Case_p ->
    state s = STATE_MONITOR_SELECT ->
    1 < connected_count s ->
    monitor_highlight s < connected_count s ->
    exists s',
      iteration terminal_rows ch popen s = Ok (Continue s')
      /\ state s' = STATE_POSITION_SELECT
      /\ position_target_displays s'
         = Live (drop_nth (Z.to_nat (monitor_highlight s))
                   (connected_displays s))
      /\ position_target_count s' = connected_count s - 1
      /\ pos_panel_focus s' = POS_PANEL_TARGET
      /\ pos_target_highlight s' = 0 /\ pos_direction_highlight s' = 0
      /\ monitor_highlight s' = monitor_highlight s
      /\ data s' = data s /\ commands s' = commands s.
Proof.
  intros s r ch popen Hs Hch Hst Hmany Hsel.
  destruct (redraw_reachable_facts r s Hs) as [Hinv Hd].
  unfold iteration, handle_key. rewrite Hch. cbn [case_body].
  redraw_fields r s.
  set (s0 := redraw r s) in *. clearbody s0.
  destruct Hinv as (I1 & I2 & I3 & _). destruct Hd as (P1 & _).
  unfold position_panel_ok in P1.
  replace (state s0) with STATE_MONITOR_SELECT in P1 by congruence.
  unfold connected_count, connected_displays in *.
  rewrite on_position_spec;
    unfold connected_count, connected_displays; try congruence; try lia.
  replace (monitor_highlight s0 <? d_connected_count (data s0)) with true
    by (symmetry; apply Z.ltb_lt; congruence).
  cbv zeta. eexists. split; [reflexivity|]. cbn.
  repeat split; congruence.
Qed.

(** The theorem at the first round on two displays. *)
Lemma position_key_lists_the_other_displays_witness :
  match after_keys two_display_report [] with
  | Ok (Continue s) =>
      exists s',
        iteration 24 (Char "p") None s = Ok (Continue s')
        /\ state s' = STATE_POSITION_SELECT
        /\ position_target_displays s'
           = Live (drop_nth (Z.to_nat (monitor_highlight s))
                     (connected_displays s))
        /\ position_target_count s' = connected_count s - 1
        /\ pos_panel_focus s' = POS_PANEL_TARGET
        /\ pos_target_highlight s' = 0 /\ pos_direction_highlight s' = 0
        /\ monitor_highlight s' = monitor_highlight s
        /\ data s' = data s /\ commands s' = commands s
  | _ => False
  end.
Proof.
  destruct (after_keys two_display_report []) as [[s|code]|] eqn:E.
  - apply (position_key_lists_the_other_displays s 24 (Char "p") None
             (after_keys_reachable _ _ _ E));
      vm_compute in E; injection E as <-; reflexivity.
  - vm_compute in E. discriminate E.
  - vm_compute in E. discriminate E.
Defined.

(** X11: the position key on the Exit row of MonitorSelect, with more
    than one connected display, copies every connected display into an
    array that has one slot fewer: the round writes past the array. *)
Theorem position_key_on_exit_row_overruns :
  forall (s : App) (terminal_rows : Z) (ch : key) (popen : option string),
    reachable s ->
    position_on_exit_row ch s ->
    iteration terminal_rows ch popen s = UB.
Proof.
  intros s r ch popen Hs (Hch & Hst & Hsel & Hmany).
  destruct (redraw_reachable_facts r s Hs) as [Hinv Hd].
  unfold iteration, handle_key. rewrite Hch. cbn [case_body].
  redraw_fields r s.
  set (s0 := redraw r s) in *. clearbody s0.
  destruct Hinv as (I1 & I2 & I3 & _). destruct Hd as (P1 & _).
  unfold position_panel_ok in P1.
  replace (state s0) with STATE_MONITOR_SELECT in P1 by congruence.
  unfold connected_count, connected_displays in *.
  rewrite on_position_spec;
    unfold connected_count, connected_displays; try congruence; try lia.
  replace (monitor_highlight s0 <? d_connected_count (data s0)) with false;
    [reflexivity|].
  symmetry. apply Z.ltb_ge. replace (data s0) with (data s) by congruence.
  lia.
Qed.

(** The theorem on two displays, after one key up to the Exit row. *)
Lemma position_key_on_exit_row_overruns_witness :
  match after_keys two_display_report [KEY_UP] with
  | Ok (Continue s) => iteration 24 (Char "p") None s = UB
  | _ => False
  end.
Proof.
  destruct (after_keys two_display_report [KEY_UP]) as [[s|code]|] eqn:E.
  - apply (position_key_on_exit_row_overruns s 24 (Char "p") None
             (after_keys_reachable _ _ _ E)).
    vm_compute in E. injection E as <-.
    repeat split; reflexivity.
  - vm_compute in E. discriminate E.
  - vm_compute in E. discriminate E.
Defined.

(** ** Rounds with a defined outcome *)

Lemma toggle_command_ok (d : Display) :
  exists c, toggle_display_power_command d = Ok c.
Proof.
  unfold toggle_display_power_command, snprintf.
  destruct (is_active d); cbn [format bind]; eauto.
Qed.

Lemma position_command_ok (a b : Display) (direction : string) :
  exists c, apply_position_settings_command a b direction = Ok c.
Proof.
  unfold apply_position_settings_command, snprintf. cbn [format bind]. eauto.
Qed.

Lemma settings_command_ok (d : Display) (m : Mode) (r : RefreshRate) :
  exists c, apply_xrandr_settings_command d m r = Ok c.
Proof.
  unfold apply_xrandr_settings_command, snprintf. cbn [format bind]. eauto.
Qed.

Lemma reparse_and_reset_ok (popen : option string) (s : App) :
  setup_display_data popen <> UB ->
  exists st, reparse_and_reset popen s = Ok st.
Proof.
  unfold reparse_and_reset. intros H.
  destruct (setup_display_data popen) as [[d|]|]; cbn [bind]; eauto.
  congruence.
Qed.

Lemma active_count_ok (s : App) :
  invariant s -> discipline s ->
  exists n, active_count s = Ok n
            /\ 0 <= n /\ (state s = STATE_MONITOR_SELECT -> 0 < n).
Proof.
  intros (I1 & I2 & I3 & I4) (P1 & _).
  unfold active_count, position_panel_ok, selected_display, num_items in *.
  destruct (state s).
  - eexists. split; [reflexivity|]. lia.
  - destruct I4 as (d & -> & _). cbn [bind]. eexists.
    split; [reflexivity|]. unfold mode_count. split; [lia | discriminate].
  - destruct I4 as (d & -> & Hm). cbn [bind].
    destruct (array_get_in_range (modes d) (mode_highlight s)) as [m ->];
      [exact Hm|].
    cbn [bind]. eexists. split; [reflexivity|].
    unfold rate_count. split; [lia | discriminate].
  - destruct P1 as (ts & _ & _ & T3 & _).
    destruct (pos_panel_focus s); eexists; (split; [reflexivity|]);
      (split; [|discriminate]); [lia|].
    change position_direction_count with 5. lia.
Qed.

Lemma up_down_ok (s : App) :
  invariant s -> discipline s ->
  (exists st, on_up s = Ok st) /\ (exists st, on_down s = Ok st).
Proof.
  intros Hinv Hd.
  destruct (active_count_ok s Hinv Hd) as (n & Hn & Hpos & Hmon).
  destruct (Z.eq_dec n 0) as [->|Hne].
  - destruct (on_up_down_empty s Hn) as [H1 H2].
    + intros Hst. specialize (Hmon Hst). lia.
    + rewrite H1, H2. eauto.
  - destruct (on_up_moves s n Hn ltac:(lia)) as (s1 & -> & _).
    destruct (on_down_moves s n Hn ltac:(lia)) as (s2 & -> & _).
    eauto.
Qed.

Lemma case_body_ok (label : case_label) (popen : option string) (s : App) :
  invariant s -> discipline s ->
  ~ (label = Case_p /\ state s = STATE_MONITOR_SELECT
     /\ monitor_highlight s = connected_count s /\ 1 < connected_count s) ->
  ~ (label = Case_enter /\ state s = STATE_RATE_SELECT
     /\ exists m, selected_mode s = Ok m /\ rate_count m = 0) ->
  (match label, state s with
   | Case_o, STATE_MONITOR_SELECT => monitor_highlight s <? connected_count s
   | Case_enter, STATE_RATE_SELECT => true
   | Case_enter, STATE_POSITION_SELECT => true
   | _, _ => false
   end = true -> setup_display_data popen <> UB) ->
  exists st, case_body label popen s = Ok st.
Proof.
  intros Hinv Hd Hexit Hrate Hsetup.
  pose proof Hinv as (I1 & I2 & I3 & I4).
  pose proof Hd as (P1 & P2 & _).
  unfold position_panel_ok, panels_ok in P1, P2.
  destruct label; cbn [case_body].
  - eauto.
  - (* 'o' *)
    unfold on_toggle. destruct (state s) eqn:Est; eauto.
    destruct (Z.ltb_spec (monitor_highlight s) (connected_count s)); eauto.
    specialize (Hsetup eq_refl).
    destruct (selected_display_exists s Hinv) as [d Hsel]; [assumption|].
    unfold selected_display in Hsel. rewrite Hsel. cbn [bind].
    destruct (toggle_command_ok d) as [c ->]. cbn [bind].
    unfold free_targets. cbn [position_target_displays run_command].
    rewrite P1. cbn [bind]. now apply reparse_and_reset_ok.
  - (* 'p' *)
    destruct (Z.gtb_spec (connected_count s) 1) as [Hmany|Hfew];
      [destruct (state s) eqn:Est|];
      try (rewrite on_position_blocked
             by ((right; lia) || (left; congruence)); eauto; fail).
    unfold connected_count, connected_displays in *.
    rewrite on_position_spec;
      unfold connected_count, connected_displays; try assumption; try lia.
    destruct (Z.ltb_spec (monitor_highlight s) (d_connected_count (data s)));
      [eauto|].
    exfalso. apply Hexit. repeat split; auto; lia.
  - eauto.
  - apply up_down_ok; assumption.
  - apply up_down_ok; assumption.
  - unfold on_tab. destruct (state s); eauto.
  - (* KEY_RIGHT *)
    unfold on_right. destruct (state s) eqn:Est; eauto.
    + destruct (monitor_highlight s <? connected_count s); eauto.
    + destruct I4 as (d & Hsel & _). unfold selected_display in Hsel.
      rewrite Hsel. cbn [bind]. destruct (mode_count d >? 0); eauto.
  - (* KEY_LEFT *)
    unfold on_left. destruct (state s) eqn:Est; eauto.
    destruct P1 as (ts & T1 & _).
    unfold free_targets_null, free_targets.
    cbn [position_target_displays set_state]. rewrite T1. cbn [bind]. eauto.
  - (* Enter *)
    unfold on_enter. destruct (state s) eqn:Est;
      try specialize (Hsetup eq_refl).
    + destruct (monitor_highlight s =? connected_count s); eauto.
    + destruct I4 as (d & Hsel & _). unfold selected_display in Hsel.
      rewrite Hsel. cbn [bind]. destruct (mode_count d >? 0); eauto.
    + destruct I4 as (d & Hsel & Hm). unfold selected_display in Hsel.
      rewrite Hsel. cbn [bind].
      destruct (array_get_in_range (modes d) (mode_highlight s)) as [m Hmode];
        [exact Hm|].
      rewrite Hmode. cbn [bind].
      assert (Hsm : selected_mode s = Ok m).
      { unfold selected_mode, selected_display. rewrite Hsel. exact Hmode. }
      destruct (array_get_in_range (refresh_rates m) (rate_highlight s))
        as [rt Hrt].
      { specialize (P2 m Hsm). fold (rate_count m).
        destruct (Z.eq_dec (rate_count m) 0) as [Hz|Hnz].
        - exfalso. apply Hrate. repeat split; auto. eauto.
        - unfold rate_count in *. lia. }
      rewrite Hrt. cbn [bind].
      destruct (settings_command_ok d m rt) as [c ->]. cbn [bind].
      unfold free_targets_null, free_targets.
      cbn [position_target_displays run_command]. rewrite P1. cbn [bind].
      now apply reparse_and_reset_ok.
    + destruct P1 as (ts & T1 & T2 & T3 & T4 & T5 & T6).
      destruct (array_get_in_range (connected_displays s) (monitor_highlight s))
        as [src Hsrc]; [unfold connected_count in *; lia|].
      rewrite Hsrc. cbn [bind]. unfold target_get. rewrite T1.
      destruct (array_get_in_range ts (pos_target_highlight s)) as [tg Htg];
        [lia|].
      rewrite Htg. cbn [bind].
      destruct (array_get_in_range position_directions
                  (pos_direction_highlight s)) as [dir Hdir]; [exact T5|].
      rewrite Hdir. cbn [bind].
      destruct (position_command_ok src tg dir) as [c ->]. cbn [bind].
      unfold free_targets_null, free_targets.
      cbn [position_target_displays run_command]. rewrite T1. cbn [bind].
      now apply reparse_and_reset_ok.
  - eauto.
Qed.

(** X12: at the top of a round reached from [main]'s start, every key
    has a defined outcome (every index is inside its array, nothing freed
    is freed again or read, no division by zero) but for two rounds: the
    position key on the Exit row with more than one connected display, and
    Enter in RateSelect on a mode without rates; a round that runs a
    command needs the parse that follows it to be defined. *)
Theorem round_is_defined :
  forall (s : App) (terminal_rows : Z) (ch : key) (popen : option string),
    reachable s ->
    ~ position_on_exit_row ch s ->
    ~ apply_without_rate ch s ->
    (is_command_transition ch s = true -> setup_display_data popen <> UB) ->
    exists st, iteration terminal_rows ch popen s = Ok st.
Proof.
  intros s r ch popen Hs Hexit Hrate Hsetup.
  destruct (redraw_reachable_facts r s Hs) as [Hinv Hd].
  unfold iteration, handle_key.
  unfold position_on_exit_row, apply_without_rate, is_command_transition,
    selected_mode, selected_display, connected_count, connected_displays in *.
  redraw_fields r s.
  set (s0 := redraw r s) in *. clearbody s0.
  apply case_body_ok; try assumption;
    unfold selected_mode, selected_display, connected_count,
      connected_displays.
  - intros (Q1 & Q2 & Q3 & Q4). apply Hexit. repeat split; congruence.
  - intros (Q1 & Q2 & m & Q3 & Q4). apply Hrate.
    repeat split; try congruence. exists m.
    repeat match goal with
           | E : ?f s0 = ?f s |- _ => rewrite <- E
           end.
    split; assumption.
  - intros Hc. apply Hsetup.
    repeat match goal with
           | E : ?f s0 = ?f s |- _ => rewrite <- E
           end.
    exact Hc.
Qed.

(** The theorem at the first round on two displays, with the key down. *)
Lemma round_is_defined_witness :
  match after_keys two_display_report [] with
  | Ok (Continue s) => exists st, iteration 24 KEY_DOWN None s = Ok st
  | _ => False
  end.
Proof.
  destruct (after_keys two_display_report []) as [[s|code]|] eqn:E.
  - apply (round_is_defined s 24 KEY_DOWN None (after_keys_reachable _ _ _ E)).
    + intros (Hc & _). discriminate Hc.
    + intros (Hc & _). discriminate Hc.
    + intros Hc. vm_compute in Hc. discriminate Hc.
  - vm_compute in E. discriminate E.
  - vm_compute in E. discriminate E.
Defined.

Lemma array_get_empty {A : Type} (a : list A) (i : Z) :
  List.length a = 0%nat -> array_get a i = UB.
Proof.
  destruct a; [|discriminate]. intros _. unfold array_get.
  destruct (i <? 0); [reflexivity|]. now destruct (Z.to_nat i).
Qed.

(** X13: Enter in RateSelect on a mode whose rate list is empty reads
    [refresh_rates[rate_highlight]] of an empty array: the round is
    undefined, whatever the rest of the state. *)
Theorem apply_without_rate_reads_past_the_list :
  forall (s : App) (terminal_rows : Z) (ch : key) (popen : option string),
    apply_without_rate ch s ->
    iteration terminal_rows ch popen s = UB.
Proof.
  intros s r ch popen (Hch & Hst & m & Hm & Hz).
  unfold iteration, handle_key. rewrite Hch. cbn [case_body].
  unfold selected_mode, selected_display, connected_displays in Hm.
  redraw_fields r s.
  set (s0 := redraw r s) in *. clearbody s0.
  unfold on_enter. replace (state s0) with STATE_RATE_SELECT by congruence.
  unfold connected_displays.
  replace (data s0) with (data s) by congruence.
  replace (monitor_highlight s0) with (monitor_highlight s) by congruence.
  replace (mode_highlight s0) with (mode_highlight s) by congruence.
  destruct (array_get (d_connected_displays (data s)) (monitor_highlight s))
    as [d|]; [|discriminate].
  cbn [bind] in *. rewrite Hm. cbn [bind].
  rewrite array_get_empty; [reflexivity|]. unfold rate_count in Hz. lia.
Qed.

(** The theorem at the mode 1280x720 of HDMI-1, which has no rate. *)
Lemma apply_without_rate_reads_past_the_list_witness :
  match after_keys two_display_report [enter; KEY_DOWN; enter] with
  | Ok (Continue s) => iteration 24 enter None s = UB
  | _ => False
  end.
Proof.
  destruct (after_keys two_display_report [enter; KEY_DOWN; enter])
    as [[s|code]|] eqn:E.
  - apply (apply_without_rate_reads_past_the_list s 24 enter None).
    vm_compute in E. injection E as <-.
    split; [reflexivity|]. split; [reflexivity|].
    eexists. split; reflexivity.
  - vm_compute in E. discriminate E.
  - vm_compute in E. discriminate E.
Defined.

(** ** How main returns *)

Lemma on_up_continues (s : App) (code : Z) : on_up s <> Ok (Return code).
Proof.
  unfold on_up. intros H.
  destruct (state s); [ | | | destruct (pos_panel_focus s) ];
    crunch H; discriminate.
Qed.

Lemma on_down_continues (s : App) (code : Z) : on_down s <> Ok (Return code).
Proof.
  unfold on_down. intros H.
  destruct (state s); [ | | | destruct (pos_panel_focus s) ];
    crunch H; discriminate.
Qed.

Lemma reparse_and_reset_return (popen : option string) (s : App) (code : Z) :
  reparse_and_reset popen s = Ok (Return code) ->
  code = 1 /\ setup_display_data popen = Ok None.
Proof.
  unfold reparse_and_reset.
  destruct (setup_display_data popen) as [[d|]|]; cbn [bind];
    try discriminate.
  intros [= <-]. auto.
Qed.

(** X14: [main] returns from the loop in two ways only: with 0 on [q]
    or on Enter on the Exit row of MonitorSelect, and with 1 when, after a
    command was run, [setup_display_data] fails (the parse gave no
    display). *)
Theorem exit_codes :
  forall (s : App) (terminal_rows : Z) (ch : key) (popen : option string)
         (code : Z),
    iteration terminal_rows ch popen s = Ok (Return code) ->
    (code = 0
     /\ (case_of ch = Case_q
         \/ (case_of ch = Case_enter /\ state s = STATE_MONITOR_SELECT
             /\ monitor_highlight s = connected_count s)))
    \/ (code = 1 /\ is_command_transition ch s = true
        /\ setup_display_data popen = Ok None).
Proof.
  intros s r ch popen code H.
  unfold iteration, handle_key in H. unfold is_command_transition.
  redraw_fields r s.
  set (s0 := redraw r s) in *. clearbody s0.
  unfold connected_count in *.
  replace (state s) with (state s0) by assumption.
  replace (monitor_highlight s) with (monitor_highlight s0) by assumption.
  replace (data s) with (data s0) by assumption.
  destruct (case_of ch); cbn [case_body] in H.
  - injection H as <-. left. auto.
  - unfold on_toggle in H.
    destruct (state s0) eqn:Est; try discriminate.
    destruct (monitor_highlight s0 <? connected_count s0) eqn:El;
      [|discriminate].
    unfold connected_count in El. rewrite El.
    bind_ok H. apply reparse_and_reset_return in H. right. tauto.
  - unfold on_position in H.
    destruct (state s0); try discriminate.
    destruct (connected_count s0 >? 1); [|discriminate].
    crunch H.
    match type of H with
    | context [written ?t] => destruct (written t); discriminate
    end.
  - discriminate.
  - now apply on_up_continues in H.
  - now apply on_down_continues in H.
  - unfold on_tab in H. destruct (state s0); discriminate.
  - unfold on_right in H. destruct (state s0); crunch H; discriminate.
  - unfold on_left in H. destruct (state s0); crunch H; discriminate.
  - unfold on_enter in H. destruct (state s0) eqn:Est.
    + destruct (Z.eqb_spec (monitor_highlight s0) (connected_count s0));
        [|discriminate].
      injection H as <-. left. auto.
    + crunch H; discriminate.
    + bind_ok H. apply reparse_and_reset_return in H. right. tauto.
    + bind_ok H. apply reparse_and_reset_return in H. right. tauto.
  - discriminate.
Qed.

(** The theorem at the key [q] on the scenario. *)
Lemma exit_codes_witness :
  (0 = 0
   /\ (case_of (Char "q") = Case_q
       \/ (case_of (Char "q") = Case_enter
           /\ state scenario_start = STATE_MONITOR_SELECT
           /\ monitor_highlight scenario_start
              = connected_count scenario_start)))
  \/ (0 = 1 /\ is_command_transition (Char "q") scenario_start = true
      /\ setup_display_data None = Ok None).
Proof.
  apply (exit_codes scenario_start 24 (Char "q") None 0).
  reflexivity.
Defined.

(** ** Into a panel and back *)

(** X15: when the right key opens a panel (ModeSelect from a display row,
    RateSelect from a mode), the left key in the next round brings back
    the state before the two keys: the same data, panel, selections,
    scroll offsets, targets and commands. *)
Theorem left_undoes_right :
  forall (s s1 : App) (rows1 rows2 : Z) (right left : key)
         (popen1 popen2 : option string),
    reachable s ->
    case_of right = Case_KEY_RIGHT ->
    case_of left = Case_KEY_LEFT ->
    iteration rows1 right popen1 s = Ok (Continue s1) ->
    state s1 <> state s ->
    exists s2,
      iteration rows2 left popen2 s1 = Ok (Continue s2)
      /\ content s2 = content s.
Proof.
  intros s s1 r1 r2 right left p1 p2 Hs Hr Hl H1 Hne.
  destruct (redraw_reachable_facts r1 s Hs) as [Hinv Hd].
  unfold iteration, handle_key in *. rewrite Hr in H1. rewrite Hl.
  cbn [case_body] in *.
  rewrite <- (redraw_content r1 s).
  assert (Hst : state (redraw r1 s) = state s).
  { unfold redraw. destruct (needs_redraw s); reflexivity. }
  rewrite <- Hst in Hne.
  set (s0 := redraw r1 s) in *. clearbody s0. clear Hst Hs s.
  destruct Hd as (P1 & P2 & _).
  unfold position_panel_ok, panels_ok in P1, P2.
  unfold on_right in H1.
  destruct (state s0) eqn:Est; crunch H1; injection H1 as <-;
    try congruence.
  - unfold on_left, redraw. cbn. eexists. split; [reflexivity|].
    destruct P2 as (Q1 & Q2 & Q3 & Q4).
    unfold content, navigation. cbn. rewrite Est, Q1, Q2, Q3, Q4.
    reflexivity.
  - unfold on_left, redraw. cbn. eexists. split; [reflexivity|].
    destruct P2 as (Q3 & Q4).
    unfold content, navigation. cbn. rewrite Est, Q3, Q4. reflexivity.
Qed.

(** The theorem at the first round on two displays. *)
Lemma left_undoes_right_witness :
  match after_keys two_display_report [],
        after_keys two_display_report [KEY_RIGHT] with
  | Ok (Continue s), Ok (Continue s1) =>
      exists s2,
        iteration 24 KEY_LEFT None s1 = Ok (Continue s2)
        /\ content s2 = content s
  | _, _ => False
  end.
Proof.
  destruct (after_keys two_display_report []) as [[s|code]|] eqn:E;
    [|vm_compute in E; discriminate E ..].
  destruct (after_keys two_display_report [KEY_RIGHT]) as [[s1|code]|] eqn:E1;
    [|vm_compute in E1; discriminate E1 ..].
  apply (left_undoes_right s s1 24 24 KEY_RIGHT KEY_LEFT
           (Some two_display_report) None (after_keys_reachable _ _ _ E));
    try reflexivity;
    vm_compute in E; injection E as <-;
    vm_compute in E1; injection E1 as <-;
    [vm_compute; reflexivity | discriminate].
Defined.

(** ** The commands that are run *)

Lemma str_take_length (n : nat) (s : string) :
  (String.length (str_take n s) <= n)%nat.
Proof.
  revert s. induction n as [|n IH]; intros [|c s]; simpl; try lia.
  specialize (IH s). lia.
Qed.

Lemma starts_with_take (p : string) :
  forall (n : nat) (text : string),
    starts_with p text = true -> (String.length p <= n)%nat ->
    starts_with p (str_take n text) = true.
Proof.
  induction p as [|a p IH]; intros n text H Hn; [reflexivity|].
  destruct text as [|b text]; [discriminate|].
  destruct n as [|n]; [simpl in Hn; lia|].
  cbn [starts_with str_take] in *.
  apply andb_true_iff in H. destruct H as [-> H]. cbn [andb].
  apply IH; [assumption | simpl in Hn; lia].
Qed.

Lemma xrandr_command_take (text : string) :
  starts_with "xrandr --output " text = true ->
  xrandr_command (str_take 255 text).
Proof.
  intros H. split; [|apply str_take_length].
  apply starts_with_take; [assumption | simpl; lia].
Qed.

Lemma toggle_command_form (d : Display) (c : string) :
  toggle_display_power_command d = Ok c -> xrandr_command c.
Proof.
  assert (H : exists text,
    toggle_display_power_command d = Ok (str_take 255 text)
    /\ starts_with "xrandr --output " text = true).
  { unfold toggle_display_power_command, snprintf, COMMAND_SIZE.
    destruct (is_active d); cbn [format bind]; eexists;
      (split; [reflexivity|]); reflexivity. }
  destruct H as (text & -> & Hp). intros [= <-].
  now apply xrandr_command_take.
Qed.

Lemma position_command_form (a b : Display) (direction c : string) :
  apply_position_settings_command a b direction = Ok c -> xrandr_command c.
Proof.
  assert (H : exists text,
    apply_position_settings_command a b direction = Ok (str_take 255 text)
    /\ starts_with "xrandr --output " text = true).
  { unfold apply_position_settings_command, snprintf, COMMAND_SIZE.
    cbn [format bind]. eexists. split; reflexivity. }
  destruct H as (text & -> & Hp). intros [= <-].
  now apply xrandr_command_take.
Qed.

Lemma settings_command_form (d : Display) (m : Mode) (r : RefreshRate)
  (c : string) :
  apply_xrandr_settings_command d m r = Ok c -> xrandr_command c.
Proof.
  assert (H : exists text,
    apply_xrandr_settings_command d m r = Ok (str_take 255 text)
    /\ starts_with "xrandr --output " text = true).
  { unfold apply_xrandr_settings_command, snprintf, COMMAND_SIZE.
    cbn [format bind]. eexists. split; reflexivity. }
  destruct H as (text & -> & Hp). intros [= <-].
  now apply xrandr_command_take.
Qed.

Lemma on_up_data (s s' : App) :
  on_up s = Ok (Continue s') -> data s' = data s.
Proof.
  unfold on_up. intros H.
  destruct (state s); [ | | | destruct (pos_panel_focus s) ];
    crunch H; injection H as <-; reflexivity.
Qed.

Lemma on_down_data (s s' : App) :
  on_down s = Ok (Continue s') -> data s' = data s.
Proof.
  unfold on_down. intros H.
  destruct (state s); [ | | | destruct (pos_panel_focus s) ];
    crunch H; injection H as <-; reflexivity.
Qed.

(** The tail of the three command cases: one command more, fresh data. *)
Lemma command_tail (popen : option string) (c : string) (s s1 s' : App) :
  data s1 = data (run_command c s) /\ navigation s1 = navigation (run_command c s)
  /\ commands s1 = commands (run_command c s)
  /\ position_target_count s1 = position_target_count (run_command c s) ->
  reparse_and_reset popen s1 = Ok (Continue s') ->
  setup_display_data popen = Ok (Some (data s'))
  /\ commands s' = commands s ++ [c].
Proof.
  intros (_ & _ & Hc & _) H. apply reparse_and_reset_fields in H.
  destruct H as (Hd & _ & _ & _ & _ & _ & _ & _ & _ & _ & Hcs).
  split; [exact Hd|]. rewrite Hcs, Hc. reflexivity.
Qed.

(** What a round that goes on does to the display data and to the list of
    commands: nothing, or one command by one of the three builders and the
    data of a new parse. *)
Lemma case_body_effect (label : case_label) (popen : option string)
  (s s' : App) :
  case_body label popen s = Ok (Continue s') ->
  (match label, state s with
   | Case_o, STATE_MONITOR_SELECT => monitor_highlight s <? connected_count s
   | Case_enter, STATE_RATE_SELECT => true
   | Case_enter, STATE_POSITION_SELECT => true
   | _, _ => false
   end = false
   /\ data s' = data s /\ commands s' = commands s)
  \/ (match label, state s with
      | Case_o, STATE_MONITOR_SELECT => monitor_highlight s <? connected_count s
      | Case_enter, STATE_RATE_SELECT => true
      | Case_enter, STATE_POSITION_SELECT => true
      | _, _ => false
      end = true
      /\ setup_display_data popen = Ok (Some (data s'))
      /\ exists c, commands s' = commands s ++ [c] /\ xrandr_command c).
Proof.
  intros H. destruct label; cbn [case_body] in H.
  - discriminate.
  - unfold on_toggle in H.
    destruct (state s); try (injection H as <-; auto; fail).
    destruct (monitor_highlight s <? connected_count s);
      [|injection H as <-; auto].
    bind_ok H. right. split; [reflexivity|].
    match goal with
    | E : free_targets _ = Ok _ |- _ => apply free_targets_fields in E
    end.
    match goal with
    | E : toggle_display_power_command _ = Ok ?c |- _ =>
        apply toggle_command_form in E;
        destruct (command_tail popen c s _ s' ltac:(eassumption) H);
        eauto
    end.
  - left. split; [destruct (state s); reflexivity|].
    unfold on_position in H.
    destruct (state s); try (injection H as <-; auto; fail).
    destruct (connected_count s >? 1); [|injection H as <-; auto].
    crunch H.
    match goal with
    | E : free_targets _ = Ok _ |- _ =>
        apply free_targets_fields in E; destruct E as (Ed & _ & Ec & _)
    end.
    match type of H with
    | context [written ?t] => destruct (written t); [|discriminate]
    end.
    injection H as <-. auto.
  - injection H as <-. left. split; [destruct (state s); reflexivity | auto].
  - left. split; [destruct (state s); reflexivity|].
    split; [eapply on_up_data | eapply on_up_commands]; eauto.
  - left. split; [destruct (state s); reflexivity|].
    split; [eapply on_down_data | eapply on_down_commands]; eauto.
  - left. split; [destruct (state s); reflexivity|].
    unfold on_tab in H. destruct (state s); injection H as <-; auto.
  - left. split; [destruct (state s); reflexivity|].
    unfold on_right in H.
    destruct (state s); crunch H; injection H as <-; auto.
  - left. split; [destruct (state s); reflexivity|].
    unfold on_left in H.
    destruct (state s); crunch H; try (injection H as <-; auto; fail).
    match goal with
    | E : free_targets_null _ = Ok _ |- _ =>
        apply free_targets_null_fields in E;
        destruct E as (Ed & _ & Ec & _)
    end.
    injection H as <-. auto.
  - unfold on_enter in H. destruct (state s).
    + left. split; [reflexivity|].
      crunch H; try discriminate. injection H as <-; auto.
    + left. split; [reflexivity|].
      crunch H; injection H as <-; auto.
    + bind_ok H. right. split; [reflexivity|].
      match goal with
      | E : free_targets_null _ = Ok _ |- _ =>
          apply free_targets_null_fields in E;
          destruct E as (F1 & F2 & F3 & F4 & _)
      end.
      match goal with
      | E : apply_xrandr_settings_command _ _ _ = Ok ?c |- _ =>
          apply settings_command_form in E;
          destruct (command_tail popen c s _ s' (conj F1 (conj F2 (conj F3 F4))) H);
          eauto
      end.
    + bind_ok H. right. split; [reflexivity|].
      match goal with
      | E : free_targets_null _ = Ok _ |- _ =>
          apply free_targets_null_fields in E;
          destruct E as (F1 & F2 & F3 & F4 & _)
      end.
      match goal with
      | E : apply_position_settings_command _ _ _ = Ok ?c |- _ =>
          apply position_command_form in E;
          destruct (command_tail popen c s _ s' (conj F1 (conj F2 (conj F3 F4))) H);
          eauto
      end.
  - injection H as <-. left. split; [destruct (state s); reflexivity | auto].
Qed.

Lemma iteration_effect (terminal_rows : Z) (ch : key) (popen : option string)
  (s s' : App) :
  iteration terminal_rows ch popen s = Ok (Continue s') ->
  (is_command_transition ch s = false
   /\ data s' = data s /\ commands s' = commands s)
  \/ (is_command_transition ch s = true
      /\ setup_display_data popen = Ok (Some (data s'))
      /\ exists c, commands s' = commands s ++ [c] /\ xrandr_command c).
Proof.
  intros H. unfold iteration, handle_key in H.
  apply case_body_effect in H. unfold is_command_transition.
  unfold connected_count in *.
  redraw_fields terminal_rows s.
  set (s0 := redraw terminal_rows s) in *. clearbody s0.
  repeat match goal with
         | E : ?f s0 = ?f s |- _ => rewrite E in *; clear E
         end.
  exact H.
Qed.

(** X16: a round that goes on either leaves the display data and the
    list of commands as they are, or (exactly in the three rounds that run
    a command) adds one command and replaces the data by what
    [setup_display_data] builds from the new report. *)
Theorem data_changes_only_with_a_command :
  forall (s s' : App) (terminal_rows : Z) (ch : key) (popen : option string),
    iteration terminal_rows ch popen s = Ok (Continue s') ->
    (is_command_transition ch s = false
     /\ data s' = data s /\ commands s' = commands s)
    \/ (is_command_transition ch s = true
        /\ setup_display_data popen = Ok (Some (data s'))
        /\ exists c, commands s' = commands s ++ [c]).
Proof.
  intros s s' r ch popen H. apply iteration_effect in H.
  destruct H as [H | (H1 & H2 & c & H3 & _)]; [auto|]. right. eauto.
Qed.

(** The theorem at the key down on the scenario. *)
Lemma data_changes_only_with_a_command_witness :
  match iteration 24 KEY_DOWN None scenario_start with
  | Ok (Continue s') =>
      (is_command_transition KEY_DOWN scenario_start = false
       /\ data s' = data scenario_start
       /\ commands s' = commands scenario_start)
      \/ (is_command_transition KEY_DOWN scenario_start = true
          /\ setup_display_data None = Ok (Some (data s'))
          /\ exists c, commands s' = commands scenario_start ++ [c])
  | _ => False
  end.
Proof.
  destruct (iteration 24 KEY_DOWN None scenario_start) as [[s'|code]|] eqn:E.
  - apply (data_changes_only_with_a_command scenario_start s' 24 KEY_DOWN None).
    exact E.
  - vm_compute in E. discriminate E.
  - vm_compute in E. discriminate E.
Defined.

(** X17: every command the program has passed to [system] starts with
    [xrandr --output ] and has at most 255 characters. *)
Theorem only_xrandr_commands_are_run :
  forall s : App,
    reachable s ->
    Forall (fun c => starts_with "xrandr --output " c = true
                     /\ (String.length c <= 255)%nat) (commands s).
Proof.
  induction 1 as [popen rows0 s Hstart | s r ch popen s' Hs IH Hstep].
  - unfold main_start in Hstart.
    destruct (setup_display_data popen) as [[d|]|]; cbn [bind] in Hstart;
      try discriminate.
    injection Hstart as <-. constructor.
  - apply iteration_effect in Hstep.
    destruct Hstep as [(_ & _ & ->) | (_ & _ & c & -> & Hx)]; [assumption|].
    apply Forall_app. split; [assumption|]. constructor; [exact Hx|constructor].
Qed.

(** The theorem after the toggle of HDMI-1 on the scenario. *)
Lemma only_xrandr_commands_are_run_witness :
  match after_keys scenario_report [Char "o"] with
  | Ok (Continue s) =>
      commands s = ["xrandr --output HDMI-1 --auto"]
      /\ Forall (fun c => starts_with "xrandr --output " c = true
                          /\ (String.length c <= 255)%nat) (commands s)
  | _ => False
  end.
Proof.
  destruct (after_keys scenario_report [Char "o"]) as [[s|code]|] eqn:E.
  - split.
    + vm_compute in E. injection E as <-. reflexivity.
    + apply (only_xrandr_commands_are_run s).
      exact (after_keys_reachable _ _ _ E).
  - vm_compute in E. discriminate E.
  - vm_compute in E. discriminate E.
Defined.

(* ================================================================== *)
(** * Proofs: the scroll windows and what is drawn                      *)
(* ================================================================== *)

Import Draw.

(** ** The scroll windows *)

Lemma scroll_up_in_view (count view_height h scroll : Z) :
  0 < count -> 1 <= view_height -> 0 <= h < count ->
  in_view scroll h view_height ->
  in_view (scroll_up count view_height (wrap_up count h) scroll)
    (wrap_up count h) view_height.
Proof.
  unfold in_view, scroll_up, wrap_up. intros Hc Hv Hh Hw.
  destruct (Z.eqb_spec h 0).
  - destruct (Z.ltb_spec (count - 1) scroll); [lia|].
    destruct (Z.geb_spec (count - 1) (count - 1)); [|lia].
    destruct (Z.gtb_spec count view_height); lia.
  - destruct (Z.ltb_spec (h - 1) scroll); [lia|].
    destruct (Z.geb_spec (h - 1) (count - 1)); [lia|]. lia.
Qed.

Lemma scroll_down_in_view (count view_height h h' scroll : Z) :
  0 < count -> 1 <= view_height -> 0 <= h < count ->
  in_view scroll h view_height ->
  wrap_down count h = Ok h' ->
  in_view (scroll_down view_height h' scroll) h' view_height.
Proof.
  unfold in_view, scroll_down, wrap_down. intros Hc Hv Hh Hw.
  destruct (Z.eqb_spec count 0); [lia|]. intros [= <-].
  assert (Hr : Z.rem (h + 1) count = h + 1 \/ Z.rem (h + 1) count = 0).
  { destruct (Z.eq_dec (h + 1) count) as [->|].
    - right. apply Z.rem_same. lia.
    - left. apply Z.rem_small. lia. }
  destruct (Z.geb_spec (Z.rem (h + 1) count) (scroll + view_height)); [lia|].
  destruct (Z.eqb_spec (Z.rem (h + 1) count) 0); lia.
Qed.

Lemma right_view_pos (r : Z) : 1 <= right_view r.
Proof. unfold right_view. destruct (Z.ltb_spec (r - 8) 1); lia. Qed.

Lemma in_view_zero (view_height : Z) : 1 <= view_height -> in_view 0 0 view_height.
Proof. unfold in_view. lia. Qed.

Lemma right_panel_view_height_rows (s : App) :
  right_panel_view_height s = right_view (rows s).
Proof. reflexivity. Qed.

Ltac brute H :=
  repeat (cbn [bind] in H;
          match type of H with
          | Ok (Continue _) = Ok (Continue _) => injection H as <-
          | UB = _ => discriminate H
          | Ok (Return _) = Ok (Continue _) => discriminate H
          | context [match position_target_displays ?s with _ => _ end] =>
              destruct (position_target_displays s) eqn:?
          | context [match setup_display_data ?p with _ => _ end] =>
              destruct (setup_display_data p) as [[?|]|] eqn:?
          | context [match written ?a with _ => _ end] =>
              destruct (written a) eqn:?
          | context [bind (setup_display_data ?p) _] =>
              destruct (setup_display_data p) as [[?|]|] eqn:?
          | context [bind ?e _] =>
              lazymatch e with
              | bind _ _ => fail
              | (if _ then _ else _) => fail
              | _ => destruct e eqn:?
              end
          | context [if ?b then _ else _] => destruct b eqn:?
          end).

Ltac wsplit :=
  refine (conj (conj _ (conj _ _)) _);
  try assumption; try reflexivity.

Lemma windows_on_up (r : Z) (s s' : App) :
  5 <= r -> rows s = r -> invariant s -> discipline s -> windows r s ->
  on_up s = Ok (Continue s') -> windows r s' /\ rows s' = r.
Proof.
  intros Hr Hrows Hinv Hd (W1 & W2 & W3) H. unfold on_up in H.
  destruct Hinv as (I1 & I2 & I3 & I4).
  destruct Hd as (P1 & P2 & S1 & S2 & S3).
  pose proof (right_view_pos r) as Hrv.
  unfold windows. disc_unfold.
  destruct (state s) eqn:Est; cbn [bind] in H.
  - injection H as <-. cbn. wsplit.
    unfold monitor_view_height. rewrite Hrows.
    apply scroll_up_in_view; try assumption; lia.
  - destruct I4 as (d & Hd & Hm). rewrite Hd in H. cbn [bind] in H.
    destruct (Z.gtb_spec (mode_count d) 0); cbn [bind] in H;
      injection H as <-; cbn; wsplit.
    rewrite right_panel_view_height_rows, Hrows.
    apply scroll_up_in_view; try assumption; lia.
  - destruct I4 as (d & Hd & Hm). rewrite Hd in H. cbn [bind] in H.
    rewrite Hd in P2. cbn [bind] in P2.
    destruct (mode_count d >? 0); cbn [bind] in H;
      [ destruct (array_get (modes d) (mode_highlight s)) as [m|] eqn:Em;
        cbn [bind] in H; [|discriminate];
        destruct (Z.gtb_spec (rate_count m) 0); cbn [bind] in H | ];
      injection H as <-; cbn; wsplit.
    rewrite right_panel_view_height_rows, Hrows.
    apply scroll_up_in_view; try assumption; try lia.
    destruct (P2 m eq_refl); lia.
  - destruct (pos_panel_focus s);
      [destruct (position_target_count s >? 0)|]; cbn [bind] in H;
      injection H as <-; cbn; wsplit.
Qed.

Lemma windows_on_down (r : Z) (s s' : App) :
  5 <= r -> rows s = r -> invariant s -> discipline s -> windows r s ->
  on_down s = Ok (Continue s') -> windows r s' /\ rows s' = r.
Proof.
  intros Hr Hrows Hinv Hd (W1 & W2 & W3) H. unfold on_down in H.
  destruct Hinv as (I1 & I2 & I3 & I4).
  destruct Hd as (P1 & P2 & S1 & S2 & S3).
  pose proof (right_view_pos r) as Hrv.
  unfold windows. disc_unfold.
  destruct (state s) eqn:Est; cbn [bind] in H.
  - destruct (wrap_down (d_num_items (data s)) (monitor_highlight s))
      as [h|] eqn:Hw; cbn [bind] in H; [|discriminate].
    injection H as <-. cbn. wsplit.
    unfold monitor_view_height. rewrite Hrows.
    eapply scroll_down_in_view; [| | |exact W1|exact Hw]; lia.
  - destruct I4 as (d & Hd & Hm). rewrite Hd in H. cbn [bind] in H.
    destruct (Z.gtb_spec (mode_count d) 0); cbn [bind] in H.
    + destruct (wrap_down (mode_count d) (mode_highlight s))
        as [h|] eqn:Hw; cbn [bind] in H; [|discriminate].
      injection H as <-. cbn. wsplit.
      rewrite right_panel_view_height_rows, Hrows.
      eapply scroll_down_in_view; [| | |exact W2|exact Hw]; lia.
    + injection H as <-. cbn. wsplit.
  - destruct I4 as (d & Hd & Hm). rewrite Hd in H. cbn [bind] in H.
    rewrite Hd in P2. cbn [bind] in P2.
    destruct (mode_count d >? 0); cbn [bind] in H;
      [ destruct (array_get (modes d) (mode_highlight s)) as [m|] eqn:Em;
        cbn [bind] in H; [|discriminate];
        destruct (Z.gtb_spec (rate_count m) 0); cbn [bind] in H;
        [ destruct (wrap_down (rate_count m) (rate_highlight s))
            as [h|] eqn:Hw; cbn [bind] in H; [|discriminate] | ] | ];
      injection H as <-; cbn; wsplit.
    rewrite right_panel_view_height_rows, Hrows.
    eapply scroll_down_in_view; [| | |exact W3|exact Hw]; try lia.
    destruct (P2 m eq_refl); lia.
  - destruct (pos_panel_focus s);
      [destruct (position_target_count s >? 0)|]; brute H; cbn; wsplit.
Qed.

Lemma windows_case_body (r : Z) (label : case_label) (popen : option string)
  (s s' : App) :
  5 <= r -> rows s = r -> invariant s -> discipline s -> windows r s ->
  case_body label popen s = Ok (Continue s') -> windows r s' /\ rows s' = r.
Proof.
  intros Hr Hrows Hinv Hd Hw H.
  pose proof (right_view_pos r) as Hrv.
  destruct label; cbn [case_body] in H;
    try (eapply windows_on_up; eassumption);
    try (eapply windows_on_down; eassumption);
    destruct Hw as (W1 & W2 & W3);
    unfold on_toggle, on_position, on_tab, on_right, on_left, on_enter,
      free_targets_null, free_targets, reparse_and_reset,
      enter_mode_select, enter_rate_select in H;
    unfold windows in *; try (destruct (state s) eqn:Est);
    brute H; cbn; wsplit; apply in_view_zero; lia || assumption.
Qed.

Lemma windows_iteration (r : Z) (ch : key) (popen : option string)
  (s s' : App) :
  5 <= r -> reachable s -> windows r s -> sized r s ->
  iteration r ch popen s = Ok (Continue s') ->
  windows r s' /\ rows s' = r.
Proof.
  intros Hr Hs Hw Hz H. unfold iteration, handle_key in H.
  destruct (redraw_reachable_facts r s Hs) as [Hinv Hd].
  eapply windows_case_body; [exact Hr| |exact Hinv|exact Hd| |exact H].
  - unfold redraw. destruct (needs_redraw s) eqn:E; [reflexivity|auto].
  - redraw_fields r s. unfold windows in *. congruence.
Qed.

Lemma windows_start (popen : option string) (rows0 r : Z) (s : App) :
  5 <= r -> main_start popen rows0 = Ok (Some s) -> windows r s /\ sized r s.
Proof.
  intros Hr. unfold main_start.
  destruct (setup_display_data popen) as [[d|]|]; cbn [bind]; try discriminate.
  intros [= <-]. pose proof (right_view_pos r).
  unfold windows, sized, in_view. cbn. repeat split; try lia; discriminate.
Qed.

Lemma windows_run (r : Z) (inputs : list (Z * key * option string)) :
  forall s s',
    5 <= r -> at_height r inputs ->
    reachable s -> windows r s -> sized r s ->
    run inputs s = Ok (Continue s') ->
    reachable s' /\ windows r s' /\ sized r s'.
Proof.
  induction inputs as [|[[r1 ch] popen] inputs IH];
    intros s s' Hr Hall Hs Hw Hz H; simpl in H.
  - injection H as <-. auto.
  - apply Forall_cons_iff in Hall. destruct Hall as [Hhd Htl].
    cbn in Hhd. subst r1.
    destruct (iteration r ch popen s) as [[s1|code]|] eqn:E; cbn [bind] in H;
      try discriminate.
    destruct (windows_iteration r ch popen s s1 Hr Hs Hw Hz E) as [Hw1 Hr1].
    eapply IH; [exact Hr | exact Htl | | exact Hw1 | | exact H].
    + eapply reach_round; eauto.
    + intros _. exact Hr1.
Qed.

(** X18: on a terminal that keeps its height of [r >= 5] rows, every
    state the loop reaches has each selection inside its scroll window:
    the monitor selection among the [r - 4] rows from [monitor_scroll] on,
    the mode and rate selections among the [max 1 (r - 8)] rows from
    their scroll offsets on. *)
Theorem selection_stays_in_view :
  forall (popen : option string) (rows0 r : Z) (s0 s : App)
         (inputs : list (Z * key * option string)),
    5 <= r ->
    main_start popen rows0 = Ok (Some s0) ->
    at_height r inputs ->
    run inputs s0 = Ok (Continue s) ->
    in_view (monitor_scroll s) (monitor_highlight s) (r - 4)
    /\ in_view (mode_scroll s) (mode_highlight s) (right_view r)
    /\ in_view (rate_scroll s) (rate_highlight s) (right_view r).
Proof.
  intros popen rows0 r s0 s inputs Hr Hstart Hall Hrun.
  destruct (windows_start popen rows0 r s0 Hr Hstart) as [Hw Hz].
  destruct (windows_run r inputs s0 s Hr Hall
              (reach_start _ _ _ Hstart) Hw Hz Hrun) as (_ & Hw' & _).
  exact Hw'.
Qed.

(** ** What is drawn *)

Lemma seq_ok (a b : result (list call)) (x y : list call) :
  a = Ok x -> b = Ok y -> a >> b = Ok (x ++ y)%list.
Proof. intros -> ->. reflexivity. Qed.

Lemma seq_inv (a b : result (list call)) (l : list call) :
  a >> b = Ok l -> exists x y, a = Ok x /\ b = Ok y /\ l = (x ++ y)%list.
Proof.
  unfold andthen. destruct a as [x|]; [|discriminate].
  destruct b as [y|]; [|discriminate]. cbn [bind]. intros [= <-]. eauto.
Qed.

Lemma defined_seq (a b : result (list call)) :
  defined a -> defined b -> defined (a >> b).
Proof. intros [x ->] [y ->]. eexists. reflexivity. Qed.

Lemma defined_when (b : bool) (c : call) : defined (when b c).
Proof. destruct b; eexists; reflexivity. Qed.

Lemma defined_for_loop (fuel : nat) (cond : Z -> bool)
  (body : Z -> result (list call)) :
  forall i0,
    (forall i, i0 <= i -> cond i = true -> defined (body i)) ->
    defined (for_loop fuel cond body i0).
Proof.
  induction fuel as [|fuel IH]; intros i0 Hbody; cbn [for_loop].
  - eexists; reflexivity.
  - destruct (cond i0) eqn:Ec; [|eexists; reflexivity].
    apply defined_seq.
    + apply Hbody; [lia | exact Ec].
    + apply IH. intros i Hi. apply Hbody. lia.
Qed.

(** More fuel than the bound of the loop changes nothing. *)
Lemma for_loop_fuel (bound : Z) (cond : Z -> bool)
  (body : Z -> result (list call)) (fuel : nat) :
  (forall i, bound <= i -> cond i = false) ->
  forall i0 extra,
    bound <= i0 + Z.of_nat fuel ->
    for_loop (fuel + extra) cond body i0 = for_loop fuel cond body i0.
Proof.
  intros Hcond. induction fuel as [|fuel IH]; intros i0 extra Hb.
  - cbn [for_loop Nat.add]. destruct extra; [reflexivity|]. cbn [for_loop].
    rewrite Hcond by lia. reflexivity.
  - cbn [for_loop Nat.add]. destruct (cond i0); [|reflexivity].
    rewrite IH by lia. reflexivity.
Qed.

Ltac defd :=
  repeat first
    [ apply defined_seq
    | apply defined_when
    | (eexists; reflexivity)
    | (unfold mvprintw; cbn [format bind]; eexists; reflexivity) ].

Lemma defined_draw_border (rows cols : Z) (state : AppState) :
  defined (draw_border rows cols state).
Proof. unfold draw_border. defd. Qed.

Lemma defined_draw_monitor_list (displays : list Display)
  (display_count total_items highlight : Z) (is_active : bool)
  (scroll_offset view_height : Z) :
  0 <= scroll_offset ->
  display_count <= Z.of_nat (List.length displays) ->
  defined (draw_monitor_list displays display_count total_items highlight
             is_active scroll_offset view_height).
Proof.
  intros Hs Hc. unfold draw_monitor_list. cbv zeta.
  apply defined_seq; [defd|].
  apply defined_for_loop. intros i Hi _.
  apply defined_seq; [defd|]. apply defined_seq; [|defd].
  destruct (Z.ltb_spec (scroll_offset + i) display_count); [|defd].
  destruct (array_get_in_range displays (scroll_offset + i)) as [d ->]; [lia|].
  cbn [bind]. defd.
Qed.

Lemma defined_draw_position_panel (source_display : Display)
  (targets : list Display) (target_count : Z)
  (directions : list string) (direction_count : Z)
  (target_highlight direction_highlight : Z)
  (active_panel : PositionPanelFocus) (y start_col : Z) :
  target_count <= Z.of_nat (List.length targets) ->
  direction_count <= Z.of_nat (List.length directions) ->
  defined (draw_position_panel source_display (Live targets) target_count
             directions direction_count target_highlight
             direction_highlight active_panel y start_col).
Proof.
  intros Ht Hd. unfold draw_position_panel. cbv zeta.
  apply defined_seq; [defd|]. apply defined_seq; [defd|].
  apply defined_seq; [defd|]. apply defined_seq.
  { apply defined_for_loop. intros i Hi Hc. apply Z.ltb_lt in Hc.
    apply defined_seq; [defd|]. apply defined_seq; [|defd].
    cbn [target_at].
    destruct (array_get_in_range targets i) as [d ->]; [lia|].
    cbn [bind]. defd. }
  apply defined_seq; [defd|]. apply defined_seq; [defd|].
  apply defined_seq; [defd|]. apply defined_seq; [|defd].
  apply defined_for_loop. intros i Hi Hc. apply Z.ltb_lt in Hc.
  apply defined_seq; [defd|]. apply defined_seq; [|defd].
  destruct (array_get_in_range directions i) as [d ->]; [lia|].
  cbn [bind]. defd.
Qed.

Lemma defined_mode_rows (display : Display) (a : attr)
  (mode_highlight mode_scroll list_view_height mode_y mode_col : Z) :
  0 <= mode_scroll ->
  defined
    (for_loop (Z.to_nat list_view_height)
       (fun i => (i <? list_view_height)
                 && (mode_scroll + i <? mode_count display))
       (fun i =>
          let item_index := mode_scroll + i in
          when (item_index =? mode_highlight) (Wattron a) >>
          (m <- array_get (modes display) item_index ;;
           mvprintw (mode_y + i) (mode_col + 2) "%dx%d"
             [P_int (m_width m); P_int (m_height m)]) >>
          when (item_index =? mode_highlight) (Wattroff a))
       0).
Proof.
  intros Hs. apply defined_for_loop. intros i Hi Hc.
  apply andb_true_iff in Hc. destruct Hc as [_ Hc]. apply Z.ltb_lt in Hc.
  cbv zeta. apply defined_seq; [defd|]. apply defined_seq; [|defd].
  destruct (array_get_in_range (modes display) (mode_scroll + i)) as [m ->];
    [unfold mode_count in Hc; lia|].
  cbn [bind]. defd.
Qed.

Lemma defined_rate_rows (selected_mode : Mode)
  (rate_highlight rate_scroll list_view_height rate_y rate_col : Z) :
  0 <= rate_scroll ->
  defined
    (for_loop (Z.to_nat list_view_height)
       (fun i => (i <? list_view_height)
                 && (rate_scroll + i <? rate_count selected_mode))
       (fun i =>
          let item_index := rate_scroll + i in
          when (item_index =? rate_highlight) (Wattron A_REVERSE) >>
          (r <- array_get (refresh_rates selected_mode) item_index ;;
           mvprintw (rate_y + i) (rate_col + 2) "%.2fHz%s%s"
             [P_dbl (rate r);
              P_str (if is_current r then "*" else "");
              P_str (if is_preferred r then "+" else "")]) >>
          when (item_index =? rate_highlight) (Wattroff A_REVERSE))
       0).
Proof.
  intros Hs. apply defined_for_loop. intros i Hi Hc.
  apply andb_true_iff in Hc. destruct Hc as [_ Hc]. apply Z.ltb_lt in Hc.
  cbv zeta. apply defined_seq; [defd|]. apply defined_seq; [|defd].
  destruct (array_get_in_range (refresh_rates selected_mode)
              (rate_scroll + i)) as [m ->];
    [unfold rate_count in Hc; lia|].
  cbn [bind]. defd.
Qed.

Lemma defined_draw_right_panel (display : Display) (state : AppState)
  (mode_highlight rate_highlight mode_scroll rate_scroll : Z)
  (pos_targets : target_array)
  (pos_target_count pos_target_highlight : Z)
  (pos_directions : list string)
  (pos_direction_count pos_direction_highlight : Z)
  (pos_focus : PositionPanelFocus) (rows cols : Z) :
  0 <= mode_scroll -> 0 <= rate_scroll ->
  (state = STATE_RATE_SELECT -> 0 <= mode_highlight) ->
  (state = STATE_POSITION_SELECT ->
   exists targets,
     pos_targets = Live targets
     /\ pos_target_count <= Z.of_nat (List.length targets)
     /\ pos_direction_count <= Z.of_nat (List.length pos_directions)) ->
  defined (draw_right_panel display state mode_highlight rate_highlight
             mode_scroll rate_scroll pos_targets pos_target_count
             pos_target_highlight pos_directions pos_direction_count
             pos_direction_highlight pos_focus rows cols).
Proof.
  intros Hms Hrs Hmh Hpos. unfold draw_right_panel. cbv zeta.
  apply defined_seq; [defd|]. apply defined_seq; [defd|].
  apply defined_seq.
  { destruct (width display >? 0); [|defd].
    destruct (find_current_rate (modes display)); defd. }
  destruct state.
  - defd.
  - apply defined_seq; [defd|]. apply defined_seq; [defd|].
    apply defined_seq; [apply defined_mode_rows; exact Hms|].
    apply defined_seq; [defd|]. cbn. defd.
  - apply defined_seq; [defd|]. apply defined_seq; [defd|].
    apply defined_seq; [apply defined_mode_rows; exact Hms|].
    apply defined_seq; [defd|]. cbn [state_eqb negb].
    destruct (mode_count display =? 0); cbn [orb]; [defd|].
    destruct (Z.geb_spec mode_highlight (mode_count display)); [defd|].
    destruct (array_get_in_range (modes display) mode_highlight) as [m ->];
      [unfold mode_count in *; specialize (Hmh eq_refl); lia|].
    cbn [bind]. apply defined_seq; [defd|].
    apply defined_rate_rows. exact Hrs.
  - destruct (Hpos eq_refl) as (targets & -> & Ht & Hd).
    apply defined_draw_position_panel; assumption.
Qed.

Lemma defined_draw_rest (rows cols : Z) (s : App) :
  invariant s -> discipline s ->
  defined
    (if monitor_highlight s <? connected_count s then
       d <- array_get (connected_displays s) (monitor_highlight s) ;;
       draw_right_panel d (state s) (mode_highlight s) (rate_highlight s)
         (mode_scroll s) (rate_scroll s) (position_target_displays s)
         (position_target_count s) (pos_target_highlight s)
         position_directions position_direction_count
         (pos_direction_highlight s) (pos_panel_focus s) rows cols
     else mvprintw 4 (Z.quot cols 2) "Select to quit the application." []).
Proof.
  intros (I1 & I2 & I3 & I4) (P1 & P2 & S1 & S2 & S3).
  destruct (Z.ltb_spec (monitor_highlight s) (connected_count s)); [|defd].
  destruct (array_get_in_range (connected_displays s) (monitor_highlight s))
    as [d Hd]; [lia|].
  rewrite Hd. cbn [bind].
  apply defined_draw_right_panel; try assumption.
  - intros Est. rewrite Est in I4. destruct I4 as (d' & _ & Hm). lia.
  - intros Est. unfold position_panel_ok in P1. rewrite Est in P1.
    destruct P1 as (ts & T1 & T2 & _). exists ts.
    split; [exact T1|]. split; [lia|]. reflexivity.
Qed.

(** X19: in every state the loop reaches, and for every terminal size,
    the drawing of the screen is defined: no row of the monitor, mode,
    rate, target or direction list is read outside its array, and
    [position_target_displays] is read only while it is live. *)
Theorem screen_drawing_is_defined :
  forall (s : App) (rows cols : Z),
    reachable s ->
    exists calls, draw_screen rows cols s = Ok calls.
Proof.
  intros s rows cols Hs.
  pose proof (reachable_invariant s Hs) as Hinv.
  pose proof (reachable_discipline s Hs) as Hd.
  unfold draw_screen. cbv zeta.
  apply defined_seq; [apply defined_draw_border|].
  apply defined_seq; [|apply defined_draw_rest; assumption].
  destruct Hinv as (I1 & I2 & I3 & I4).
  destruct Hd as (P1 & P2 & S1 & S2 & S3).
  apply defined_draw_monitor_list; [exact S1 | lia].
Qed.

(** ** The highlighted rows *)

Lemma has_run_refl (p : list call) : has_run p p.
Proof. exists [], []. rewrite app_nil_r. reflexivity. Qed.

Lemma has_run_app_l (p x y : list call) : has_run p x -> has_run p (x ++ y).
Proof.
  intros (b & a & ->). exists b, (a ++ y)%list.
  rewrite <- !app_assoc. reflexivity.
Qed.

Lemma has_run_app_r (p x y : list call) : has_run p y -> has_run p (x ++ y).
Proof.
  intros (b & a & ->). exists (x ++ b)%list, a.
  rewrite <- !app_assoc. reflexivity.
Qed.

Lemma draws_seq_l (p : list call) (a b : result (list call)) :
  draws p a -> defined b -> draws p (a >> b).
Proof.
  intros (x & -> & Hx) (y & ->). eexists. split; [reflexivity|].
  now apply has_run_app_l.
Qed.

Lemma draws_seq_r (p : list call) (a b : result (list call)) :
  defined a -> draws p b -> draws p (a >> b).
Proof.
  intros (x & ->) (y & -> & Hy). eexists. split; [reflexivity|].
  now apply has_run_app_r.
Qed.

Lemma draws_for_loop (p : list call) (cond : Z -> bool)
  (body : Z -> result (list call)) (k : Z) (fuel : nat) :
  forall i0,
    (forall i, i0 <= i -> cond i = true -> defined (body i)) ->
    (forall i, i0 <= i <= k -> cond i = true) ->
    i0 <= k -> k - i0 < Z.of_nat fuel ->
    draws p (body k) ->
    draws p (for_loop fuel cond body i0).
Proof.
  induction fuel as [|fuel IH]; intros i0 Hbody Hcond Hk Hfuel Hp; [lia|].
  cbn [for_loop]. rewrite Hcond by lia.
  destruct (Z.eq_dec i0 k) as [->|Hne].
  - apply draws_seq_l; [exact Hp|].
    apply defined_for_loop. intros i Hi. apply Hbody. lia.
  - apply draws_seq_r; [apply Hbody; [lia | apply Hcond; lia]|].
    apply IH; try lia.
    + intros i Hi. apply Hbody. lia.
    + intros i Hi. apply Hcond. lia.
    + exact Hp.
Qed.

(** A list drawn from [scroll] on, [view_height] rows at most, with the
    entry [highlight] between the attribute calls. *)
Lemma draws_highlighted_row (view_height scroll count highlight : Z)
  (a : attr) (line : Z -> result (list call)) (y x : Z) (text : string) :
  0 <= scroll -> in_view scroll highlight view_height -> highlight < count ->
  (forall i, 0 <= i -> scroll + i < count ->
             exists calls, line i = Ok calls) ->
  line (highlight - scroll) = Ok [Mvprintw y x text] ->
  draws (highlighted a y x text)
    (for_loop (Z.to_nat view_height)
       (fun i => (i <? view_height) && (scroll + i <? count))
       (fun i =>
          when (scroll + i =? highlight) (Wattron a) >> line i >>
          when (scroll + i =? highlight) (Wattroff a))
       0).
Proof.
  intros Hs [Hlo Hhi] Hc Hline Hrow.
  apply (draws_for_loop _ _ _ (highlight - scroll));
    [ | intros i Hi; apply andb_true_iff; split; apply Z.ltb_lt; lia
      | lia | lia | ].
  - intros i Hi Hcond. apply andb_true_iff in Hcond.
    destruct Hcond as [_ Hcond]. apply Z.ltb_lt in Hcond.
    apply defined_seq; [defd|]. apply defined_seq; [|defd].
    apply Hline; lia.
  - replace (scroll + (highlight - scroll)) with highlight by lia.
    rewrite Z.eqb_refl, Hrow. eexists. split; [reflexivity|].
    apply has_run_refl.
Qed.

Lemma draws_monitor_row (s : App) (view_height : Z) (is_active : bool) :
  invariant s -> discipline s ->
  in_view (monitor_scroll s) (monitor_highlight s) view_height ->
  draws
    (highlighted (if is_active then A_REVERSE else A_BOLD)
       (3 + (monitor_highlight s - monitor_scroll s)) 4
       (monitor_row_text s (monitor_highlight s)))
    (draw_monitor_list (connected_displays s) (connected_count s)
       (num_items s) (monitor_highlight s) is_active (monitor_scroll s)
       view_height).
Proof.
  intros (I1 & I2 & I3 & I4) (P1 & P2 & S1 & S2 & S3) Hv.
  unfold draw_monitor_list. cbv zeta.
  apply draws_seq_r; [defd|].
  apply (draws_highlighted_row view_height (monitor_scroll s) (num_items s)
           (monitor_highlight s) _
           (fun i =>
              if monitor_scroll s + i <? connected_count s
              then d <- array_get (connected_displays s)
                          (monitor_scroll s + i) ;;
                   mvprintw (2 + 1 + i) (2 + 2) "%s [%s]"
                     [P_str (name d);
                      P_str (if Parser.is_active d then "On" else "Off")]
              else mvprintw (2 + 1 + i) (2 + 2) "Exit" []));
    try assumption; try lia.
  - intros i Hi Hlt.
    destruct (Z.ltb_spec (monitor_scroll s + i) (connected_count s)); [|defd].
    destruct (array_get_in_range (connected_displays s) (monitor_scroll s + i))
      as [d ->]; [lia|].
    cbn [bind]. defd.
  - replace (monitor_scroll s + (monitor_highlight s - monitor_scroll s))
      with (monitor_highlight s) by lia.
    unfold monitor_row_text, array_get.
    destruct (Z.ltb_spec (monitor_highlight s) (connected_count s)).
    + destruct (Z.ltb_spec (monitor_highlight s) 0); [lia|].
      destruct (nth_error (connected_displays s)
                  (Z.to_nat (monitor_highlight s))) as [d|] eqn:E.
      * reflexivity.
      * apply nth_error_None in E. lia.
    + destruct (nth_error (connected_displays s)
                  (Z.to_nat (monitor_highlight s))) as [d|] eqn:E.
      * assert (Z.to_nat (monitor_highlight s)
                < List.length (connected_displays s))%nat
          by (apply nth_error_Some; congruence).
        lia.
      * reflexivity.
Qed.

Lemma in_view_wider (scroll highlight v w : Z) :
  v <= w -> in_view scroll highlight v -> in_view scroll highlight w.
Proof. unfold in_view. lia. Qed.

Lemma right_view_fits (r : Z) (d : Display) :
  MIN_ROWS <= r ->
  right_view r <= r - 1 - (first_list_row d)
  /\ first_list_row d + right_view r <= r - 1.
Proof.
  unfold MIN_ROWS, right_view, first_list_row. intros Hr.
  destruct (Z.ltb_spec (r - 8) 1); [lia|].
  destruct (width d >? 0); lia.
Qed.

Lemma first_list_row_eq (d : Display) :
  (if width d >? 0 then 2 + 1 + 1 else 2 + 1) + 1 + 1 = first_list_row d.
Proof. unfold first_list_row. destruct (width d >? 0); reflexivity. Qed.

Lemma defined_rate_part (d : Display) (mode_highlight rate_highlight
  rate_scroll list_view_height y start_col : Z) :
  0 <= mode_highlight -> 0 <= rate_scroll ->
  exists calls,
    (if (mode_count d =? 0) || (mode_highlight >=? mode_count d) then Ok []
     else
       m0 <- array_get (modes d) mode_highlight ;;
       (mvprintw y (start_col + 18) "Refresh Rates:" [] >>
       for_loop (Z.to_nat list_view_height)
         (fun i => (i <? list_view_height)
                   && (rate_scroll + i <? rate_count m0))
         (fun i =>
            let item_index := rate_scroll + i in
            when (item_index =? rate_highlight) (Wattron A_REVERSE) >>
            (r <- array_get (refresh_rates m0) item_index ;;
             mvprintw (y + 1 + i) (start_col + 18 + 2) "%.2fHz%s%s"
               [P_dbl (rate r);
                P_str (if is_current r then "*" else "");
                P_str (if is_preferred r then "+" else "")]) >>
            when (item_index =? rate_highlight) (Wattroff A_REVERSE))
         0))
    = Ok calls.
Proof.
  intros Hmh Hrs.
  destruct (mode_count d =? 0); cbn [orb]; [defd|].
  destruct (Z.geb_spec mode_highlight (mode_count d)); [defd|].
  destruct (array_get_in_range (modes d) mode_highlight) as [m ->];
    [unfold mode_count in *; lia|].
  cbn [bind]. apply defined_seq; [defd|].
  apply defined_rate_rows. exact Hrs.
Qed.

Lemma draws_mode_row (d : Display) (st : AppState)
  (mh rh ms rs : Z) (pt : target_array) (ptc pth : Z) (pd : list string)
  (pdc pdh : Z) (pf : PositionPanelFocus) (r cols : Z) (m : Mode) :
  MIN_ROWS <= r ->
  st = STATE_MODE_SELECT \/ st = STATE_RATE_SELECT ->
  0 <= ms -> 0 <= rs ->
  in_view ms mh (right_view r) ->
  array_get (modes d) mh = Ok m ->
  draws
    (highlighted (if state_eqb st STATE_MODE_SELECT then A_REVERSE else A_BOLD)
       (first_list_row d + (mh - ms)) (Z.quot cols 3 + 2) (mode_row_text m))
    (draw_right_panel d st mh rh ms rs pt ptc pth pd pdc pdh pf r cols).
Proof.
  intros Hr Hst Hms Hrs Hv Hm.
  pose proof (array_get_bound _ _ _ Hm) as Hb.
  destruct (right_view_fits r d Hr) as [Hfit _].
  unfold draw_right_panel. cbv zeta.
  apply draws_seq_r; [defd|]. apply draws_seq_r; [defd|].
  apply draws_seq_r.
  { destruct (width d >? 0); [|defd].
    destruct (find_current_rate (modes d)); defd. }
  assert (Hrows :
    draws
      (highlighted
         (if state_eqb st STATE_MODE_SELECT then A_REVERSE else A_BOLD)
         (first_list_row d + (mh - ms)) (Z.quot cols 3 + 2) (mode_row_text m))
      (for_loop
         (Z.to_nat (r - 1 - ((if width d >? 0 then 2 + 1 + 1 else 2 + 1)
                             + 1 + 1)))
         (fun i =>
            (i <? r - 1 - ((if width d >? 0 then 2 + 1 + 1 else 2 + 1)
                           + 1 + 1))
            && (ms + i <? mode_count d))
         (fun i =>
            when (ms + i =? mh)
              (Wattron (if state_eqb st STATE_MODE_SELECT
                        then A_REVERSE else A_BOLD)) >>
            (m0 <- array_get (modes d) (ms + i) ;;
             mvprintw ((if width d >? 0 then 2 + 1 + 1 else 2 + 1) + 1 + 1 + i)
               (Z.quot cols 3 + 2) "%dx%d"
               [P_int (m_width m0); P_int (m_height m0)]) >>
            when (ms + i =? mh)
              (Wattroff (if state_eqb st STATE_MODE_SELECT
                         then A_REVERSE else A_BOLD)))
         0)).
  { rewrite first_list_row_eq.
    apply (draws_highlighted_row _ ms (mode_count d) mh _
             (fun i =>
                m0 <- array_get (modes d) (ms + i) ;;
                mvprintw (first_list_row d + i) (Z.quot cols 3 + 2) "%dx%d"
                  [P_int (m_width m0); P_int (m_height m0)])).
    - exact Hms.
    - eapply in_view_wider; [exact Hfit | exact Hv].
    - unfold mode_count. lia.
    - intros i Hi Hlt.
      destruct (array_get_in_range (modes d) (ms + i)) as [m0 ->];
        [unfold mode_count in Hlt; lia|].
      cbn [bind]. defd.
    - replace (ms + (mh - ms)) with mh by lia. rewrite Hm. cbn [bind].
      unfold mvprintw, mode_row_text. cbn [format bind].
      rewrite append_empty_r. reflexivity. }
  destruct Hst as [-> | ->].
  - apply draws_seq_r; [defd|]. apply draws_seq_r; [defd|].
    apply draws_seq_l; [exact Hrows|]. cbn. defd.
  - apply draws_seq_r; [defd|]. apply draws_seq_r; [defd|].
    apply draws_seq_l; [exact Hrows|].
    apply defined_seq; [defd|]. cbn [state_eqb negb].
    apply defined_rate_part; lia.
Qed.

Lemma draws_rate_row (d : Display)
  (mh rh ms rs : Z) (pt : target_array) (ptc pth : Z) (pd : list string)
  (pdc pdh : Z) (pf : PositionPanelFocus) (r cols : Z) (m : Mode)
  (x : RefreshRate) :
  MIN_ROWS <= r ->
  0 <= ms -> 0 <= rs ->
  in_view rs rh (right_view r) ->
  array_get (modes d) mh = Ok m ->
  array_get (refresh_rates m) rh = Ok x ->
  draws
    (highlighted A_REVERSE (first_list_row d + (rh - rs))
       (Z.quot cols 3 + 18 + 2) (rate_row_text x))
    (draw_right_panel d STATE_RATE_SELECT mh rh ms rs pt ptc pth pd pdc pdh
       pf r cols).
Proof.
  intros Hr Hms Hrs Hv Hm Hx.
  pose proof (array_get_bound _ _ _ Hm) as Hb.
  pose proof (array_get_bound _ _ _ Hx) as Hbx.
  destruct (right_view_fits r d Hr) as [Hfit _].
  unfold draw_right_panel. cbv zeta.
  apply draws_seq_r; [defd|]. apply draws_seq_r; [defd|].
  apply draws_seq_r.
  { destruct (width d >? 0); [|defd].
    destruct (find_current_rate (modes d)); defd. }
  apply draws_seq_r; [defd|]. apply draws_seq_r; [defd|].
  apply draws_seq_r; [apply defined_mode_rows; exact Hms|].
  apply draws_seq_r; [defd|]. cbn [state_eqb negb].
  destruct (Z.eqb_spec (mode_count d) 0); [unfold mode_count in *; lia|].
  destruct (Z.geb_spec mh (mode_count d)); [unfold mode_count in *; lia|].
  cbn [orb]. rewrite Hm. cbn [bind].
  apply draws_seq_r; [defd|].
  rewrite first_list_row_eq.
  apply (draws_highlighted_row _ rs (rate_count m) rh _
           (fun i =>
              r0 <- array_get (refresh_rates m) (rs + i) ;;
              mvprintw (first_list_row d + i) (Z.quot cols 3 + 18 + 2)
                "%.2fHz%s%s"
                [P_dbl (rate r0);
                 P_str (if is_current r0 then "*" else "");
                 P_str (if is_preferred r0 then "+" else "")])).
  - exact Hrs.
  - eapply in_view_wider; [exact Hfit | exact Hv].
  - unfold rate_count. lia.
  - intros i Hi Hlt.
    destruct (array_get_in_range (refresh_rates m) (rs + i)) as [r0 ->];
      [unfold rate_count in Hlt; lia|].
    cbn [bind]. defd.
  - replace (rs + (rh - rs)) with rh by lia. rewrite Hx. cbn [bind].
    unfold mvprintw, rate_row_text. cbn [format bind].
    rewrite append_empty_r. reflexivity.
Qed.

Lemma draws_in_right_panel (p : list call) (r cols : Z) (s : App)
  (d : Display) :
  invariant s -> discipline s ->
  selected_display s = Ok d ->
  draws p
    (draw_right_panel d (state s) (mode_highlight s) (rate_highlight s)
       (mode_scroll s) (rate_scroll s) (position_target_displays s)
       (position_target_count s) (pos_target_highlight s)
       position_directions position_direction_count
       (pos_direction_highlight s) (pos_panel_focus s) r cols) ->
  draws p (draw_screen r cols s).
Proof.
  intros Hinv Hd Hsel Hp.
  pose proof (array_get_bound _ _ _ Hsel) as Hb.
  unfold draw_screen. cbv zeta.
  apply draws_seq_r; [apply defined_draw_border|].
  apply draws_seq_r.
  { destruct Hinv as (I1 & I2 & I3 & I4).
    destruct Hd as (P1 & P2 & S1 & S2 & S3).
    apply defined_draw_monitor_list; [exact S1 | lia]. }
  destruct Hinv as (I1 & I2 & I3 & I4).
  destruct (Z.ltb_spec (monitor_highlight s) (connected_count s)); [|lia].
  unfold selected_display in Hsel. rewrite Hsel. cbn [bind]. exact Hp.
Qed.

(** ** The theorems on the report of two displays *)

Ltac known E := vm_compute in E; first [discriminate E | injection E as <-].

(** The theorem after two steps down on a terminal of 6 rows, which shows
    two rows of the list of three. *)
Lemma selection_stays_in_view_witness :
  match main_start (Some two_display_report) 0 with
  | Ok (Some s0) =>
      match run (rounds 6 two_display_report [KEY_DOWN; KEY_DOWN]) s0 with
      | Ok (Continue s) =>
          in_view (monitor_scroll s) (monitor_highlight s) (6 - 4)
          /\ in_view (mode_scroll s) (mode_highlight s) (right_view 6)
          /\ in_view (rate_scroll s) (rate_highlight s) (right_view 6)
      | _ => False
      end
  | _ => False
  end.
Proof.
  destruct (main_start (Some two_display_report) 0) as [[s0|]|] eqn:E0;
    [|known E0..].
  destruct (run (rounds 6 two_display_report [KEY_DOWN; KEY_DOWN]) s0)
    as [[s|code]|] eqn:E1; [|known E0; known E1..].
  apply (selection_stays_in_view (Some two_display_report) 0 6 s0 s
           (rounds 6 two_display_report [KEY_DOWN; KEY_DOWN])).
  - lia.
  - exact E0.
  - repeat constructor.
  - exact E1.
Defined.

(** The theorem in PositionSelect on two displays. *)
Lemma screen_drawing_is_defined_witness :
  match after_keys two_display_report [Char "p"] with
  | Ok (Continue s) => exists calls, draw_screen 24 80 s = Ok calls
  | _ => False
  end.
Proof.
  destruct (after_keys two_display_report [Char "p"]) as [[s|code]|] eqn:E;
    [|known E..].
  apply (screen_drawing_is_defined s 24 80).
  exact (after_keys_reachable _ _ _ E).
Defined.

(** ** The parser and the set-up together *)




(* ================================================================== *)
(** * Proofs: rate tokens and names                                     *)
(* ================================================================== *)

Section TokensAndNames.

Close Scope Z_scope.
Open Scope string_scope.

(** ** The rate scan up to a token *)






(** ** A rate token in a mode line *)





(** ** The names of the displays *)

Lemma array_store_names (a : list Display) :
  forall i x a' d,
    array_store a i x = Ok a' -> nth_error a i = Some d ->
    name x = name d -> map name a' = map name a.
Proof.
  induction a as [|y a IH]; intros i x a' d H Hn Hx; simpl in H;
    [discriminate|].
  destruct i as [|i].
  - injection H as <-. simpl in Hn. injection Hn as ->. simpl. now rewrite Hx.
  - destruct (array_store a i x) as [a''|] eqn:E; [|discriminate].
    simpl in H. injection H as <-. simpl in *. f_equal. eauto.
Qed.

Lemma process_line_name_list (st st' : loop_state) (buf : string) :
  process_line st buf = Ok st' ->
  map name (Parser.displays st')
  = (map name (Parser.displays st)
     ++ (if is_header buf then [first_word (c_str buf)] else []))%list.
Proof.
  unfold process_line, is_header. intros H.
  destruct (non_null (strstr (c_str buf) " connected")) eqn:Eh.
  - destruct (header_line_name _ _ _ Eh H) as (d & -> & Hn & _).
    rewrite map_app. simpl. now rewrite Hn.
  - rewrite app_nil_r.
    destruct (current_display_ptr st) as [i|].
    + destruct (nth_error (Parser.displays st) i) as [d|] eqn:En;
        [|discriminate].
      destruct (connected d && first_char_isspace (c_str buf)).
      * unfold mode_line in H.
        destruct (negb (ints_fit (sscanf (c_str buf) " %dx%d %n")));
          [discriminate|].
        destruct (sscanf (c_str buf) " %dx%d %n") as [|[s|w|n] vals];
          try (now inversion H).
        destruct vals as [|[s|h|n] vals]; try (now inversion H).
        destruct vals as [|[s|z|n] vals]; try (now inversion H).
        destruct vals; try (now inversion H).
        match type of H with
        | bind (array_store ?a ?i ?x) _ = _ =>
            destruct (array_store a i x) as [ds|] eqn:Ea; [|discriminate]
        end.
        simpl in H. injection H as <-. cbn [Parser.displays].
        eapply array_store_names; eauto.
      * now inversion H.
    + now inversion H.
Qed.

Lemma line_loop_name_list (bufs : list string) :
  forall st st',
    line_loop bufs st = Ok st' ->
    map name (Parser.displays st')
    = (map name (Parser.displays st)
       ++ map (fun buf => first_word (c_str buf)) (filter is_header bufs))%list.
Proof.
  induction bufs as [|buf bufs IH]; intros st st' H; simpl in H.
  - injection H as <-. simpl. now rewrite app_nil_r.
  - destruct (process_line st buf) as [st1|] eqn:E; [|discriminate].
    simpl in H. rewrite (IH _ _ H), (process_line_name_list _ _ _ E).
    rewrite <- app_assoc. f_equal. simpl.
    destruct (is_header buf); reflexivity.
Qed.

(** X4: the names of the displays the parser returns are the first words
    of the lines read that contain [" connected"], in the order of the
    lines; each is what [%s] takes, so it is not empty and holds no white
    space. *)
Theorem parsed_names_are_first_words :
  forall (stream : string) (ds : list Display),
    parse_xrandr_output (Some stream) = Ok (Some ds) ->
    map name ds
    = map (fun buf => first_word (c_str buf))
        (filter is_header (fgets_all LINE_SIZE stream))
    /\ Forall (fun d => name d <> "" /\ no_space (name d) = true) ds.
Proof.
  intros stream ds. unfold parse_xrandr_output, parse_buffers.
  destruct (line_loop _ initial_state) as [st|] eqn:E; [|discriminate].
  apply line_loop_name_list in E. simpl in E. cbn [bind]. intros H.
  assert (Hds : Parser.displays st = ds)
    by (destruct (Parser.displays st); [discriminate | now injection H]).
  rewrite Hds in E. split; [exact E|].
  apply Forall_forall. intros d Hd.
  apply (in_map name) in Hd. rewrite E in Hd.
  apply in_map_iff in Hd. destruct Hd as (buf & <- & Hbuf).
  apply filter_In in Hbuf. destruct Hbuf as [_ Hh]. split.
  - apply first_word_of_header. exact Hh.
  - apply scan_word_no_space.
Qed.

(** The theorem at the report of two displays. *)
Lemma parsed_names_are_first_words_witness :
  match parse_xrandr_output (Some two_display_report) with
  | Ok (Some ds) =>
      map name ds
      = map (fun buf => first_word (c_str buf))
          (filter is_header (fgets_all LINE_SIZE two_display_report))
      /\ Forall (fun d => name d <> "" /\ no_space (name d) = true) ds
  | _ => False
  end.
Proof.
  destruct (parse_xrandr_output (Some two_display_report)) as [[ds|]|] eqn:E;
    [|vm_compute in E; discriminate E..].
  apply (parsed_names_are_first_words two_display_report ds). exact E.
Defined.

End TokensAndNames.

(* ================================================================== *)
(** * Proofs: the redraw of a round                                     *)
(* ================================================================== *)

(** On a terminal that is not too small the redraw is the drawing of the
    screen between [clear()] and [refresh()]. *)
Lemma draws_main_redraw (p : list call) (r cols : Z) (s : App) :
  MIN_ROWS <= r -> MIN_COLS <= cols ->
  draws p (draw_screen r cols s) -> draws p (main_redraw r cols s).
Proof.
  intros Hr Hc Hp. unfold main_redraw.
  destruct (Z.ltb_spec r MIN_ROWS); [lia|].
  destruct (Z.ltb_spec cols MIN_COLS); [lia|]. cbn [orb].
  apply draws_seq_r; [defd|]. apply draws_seq_l; [exact Hp | defd].
Qed.

(** ** Drawings without reverse video *)

Lemma no_reverse_seq (a b : result (list call)) :
  no_reverse a -> no_reverse b -> no_reverse (a >> b).
Proof.
  intros (x & -> & Hx) (y & -> & Hy). eexists. split; [reflexivity|].
  intros H. apply in_app_or in H. tauto.
Qed.

Lemma no_reverse_calls (calls : list call) :
  ~ In (Wattron A_REVERSE) calls -> no_reverse (Ok calls).
Proof. intros H. exists calls. auto. Qed.

Lemma no_reverse_when (b : bool) (c : call) :
  c <> Wattron A_REVERSE -> no_reverse (when b c).
Proof.
  intros Hc. destruct b; eexists; (split; [reflexivity|]); simpl; tauto.
Qed.

Lemma no_reverse_mvprintw (y x : Z) (fmt : string) (args : list parg) :
  defined (mvprintw y x fmt args) -> no_reverse (mvprintw y x fmt args).
Proof.
  unfold mvprintw. intros (calls & H).
  destruct (format fmt args) as [text|]; [|discriminate].
  eexists. split; [reflexivity|]. simpl. intros [E | []]. discriminate E.
Qed.

Lemma no_reverse_for_loop (fuel : nat) (cond : Z -> bool)
  (body : Z -> result (list call)) :
  forall i0,
    (forall i, i0 <= i -> cond i = true -> no_reverse (body i)) ->
    no_reverse (for_loop fuel cond body i0).
Proof.
  induction fuel as [|fuel IH]; intros i0 Hbody; cbn [for_loop].
  - apply no_reverse_calls. simpl. tauto.
  - destruct (cond i0) eqn:Ec; [|apply no_reverse_calls; simpl; tauto].
    apply no_reverse_seq.
    + apply Hbody; [lia | exact Ec].
    + apply IH. intros i Hi. apply Hbody. lia.
Qed.

Ltac quiet :=
  repeat first
    [ apply no_reverse_seq
    | (apply no_reverse_when; discriminate)
    | (apply no_reverse_calls; simpl; intuition discriminate)
    | (apply no_reverse_mvprintw; defd) ].

Lemma no_reverse_draw_border (rows cols : Z) (state : AppState) :
  no_reverse (draw_border rows cols state).
Proof. unfold draw_border. quiet. Qed.

(** The monitor list of a panel that is not the active one. *)
Lemma no_reverse_draw_monitor_list (displays : list Display)
  (display_count total_items highlight scroll_offset view_height : Z) :
  0 <= scroll_offset ->
  display_count <= Z.of_nat (List.length displays) ->
  no_reverse (draw_monitor_list displays display_count total_items highlight
                false scroll_offset view_height).
Proof.
  intros Hs Hc. unfold draw_monitor_list. cbv zeta.
  apply no_reverse_seq; [quiet|].
  apply no_reverse_for_loop. intros i Hi _.
  apply no_reverse_seq; [quiet|]. apply no_reverse_seq; [|quiet].
  destruct (Z.ltb_spec (scroll_offset + i) display_count); [|quiet].
  destruct (array_get_in_range displays (scroll_offset + i)) as [d ->]; [lia|].
  cbn [bind]. quiet.
Qed.

Lemma no_reverse_head (d : Display) (rows start_col : Z) :
  no_reverse
    (Ok [Mvvline 1 (start_col - 2) (rows - 2)] >>
     mvprintw 2 start_col "Display: %s (%s)"
       [P_str (name d);
        P_str (if is_primary d then "Primary" else "Secondary")]) .
Proof. quiet. Qed.

(** The right panel in ModeSelect on a display without modes. *)
Lemma no_reverse_mode_select (d : Display)
  (mh rh ms rs : Z) (pt : target_array) (ptc pth : Z) (pd : list string)
  (pdc pdh : Z) (pf : PositionPanelFocus) (r cols : Z) :
  mode_count d = 0 -> 0 <= ms ->
  no_reverse
    (draw_right_panel d STATE_MODE_SELECT mh rh ms rs pt ptc pth pd pdc pdh
       pf r cols).
Proof.
  intros Hm Hms. unfold draw_right_panel. cbv zeta.
  apply no_reverse_seq; [quiet|]. apply no_reverse_seq; [quiet|].
  apply no_reverse_seq.
  { destruct (width d >? 0); [|quiet].
    destruct (find_current_rate (modes d)); quiet. }
  apply no_reverse_seq; [quiet|]. apply no_reverse_seq; [quiet|].
  apply no_reverse_seq; [|cbn; quiet].
  apply no_reverse_for_loop. intros i Hi Hc.
  apply andb_true_iff in Hc. destruct Hc as [_ Hc]. apply Z.ltb_lt in Hc. lia.
Qed.

(** The right panel in RateSelect on a mode without rates. *)
Lemma no_reverse_rate_select (d : Display) (m : Mode)
  (mh rh ms rs : Z) (pt : target_array) (ptc pth : Z) (pd : list string)
  (pdc pdh : Z) (pf : PositionPanelFocus) (r cols : Z) :
  array_get (modes d) mh = Ok m -> rate_count m = 0 ->
  0 <= ms -> 0 <= rs ->
  no_reverse
    (draw_right_panel d STATE_RATE_SELECT mh rh ms rs pt ptc pth pd pdc pdh
       pf r cols).
Proof.
  intros Hm Hr Hms Hrs. pose proof (array_get_bound _ _ _ Hm) as Hb.
  unfold draw_right_panel. cbv zeta.
  apply no_reverse_seq; [quiet|]. apply no_reverse_seq; [quiet|].
  apply no_reverse_seq.
  { destruct (width d >? 0); [|quiet].
    destruct (find_current_rate (modes d)); quiet. }
  apply no_reverse_seq; [quiet|]. apply no_reverse_seq; [quiet|].
  apply no_reverse_seq.
  { apply no_reverse_for_loop. intros i Hi Hc.
    apply andb_true_iff in Hc. destruct Hc as [_ Hc]. apply Z.ltb_lt in Hc.
    cbv zeta. cbn [state_eqb].
    apply no_reverse_seq; [quiet|]. apply no_reverse_seq; [|quiet].
    destruct (array_get_in_range (modes d) (ms + i)) as [m0 ->];
      [unfold mode_count in Hc; lia|].
    cbn [bind]. quiet. }
  apply no_reverse_seq; [quiet|]. cbn [state_eqb negb].
  destruct (Z.eqb_spec (mode_count d) 0); [unfold mode_count in *; lia|].
  destruct (Z.geb_spec mh (mode_count d)); [unfold mode_count in *; lia|].
  cbn [orb]. rewrite Hm. cbn [bind].
  apply no_reverse_seq; [quiet|].
  apply no_reverse_for_loop. intros i Hi Hc.
  apply andb_true_iff in Hc. destruct Hc as [_ Hc]. apply Z.ltb_lt in Hc. lia.
Qed.

(** The redraw in a state other than MonitorSelect, given the right
    panel. *)
Lemma no_reverse_main_redraw (r cols : Z) (s : App) (d : Display) :
  MIN_ROWS <= r -> MIN_COLS <= cols ->
  invariant s -> discipline s ->
  state s <> STATE_MONITOR_SELECT ->
  selected_display s = Ok d ->
  no_reverse
    (draw_right_panel d (state s) (mode_highlight s) (rate_highlight s)
       (mode_scroll s) (rate_scroll s) (position_target_displays s)
       (position_target_count s) (pos_target_highlight s)
       position_directions position_direction_count
       (pos_direction_highlight s) (pos_panel_focus s) r cols) ->
  no_reverse (main_redraw r cols s).
Proof.
  intros Hr Hc Hinv Hd Hst Hsel Hp.
  pose proof (array_get_bound _ _ _ Hsel) as Hb.
  unfold main_redraw.
  destruct (Z.ltb_spec r MIN_ROWS); [lia|].
  destruct (Z.ltb_spec cols MIN_COLS); [lia|]. cbn [orb].
  apply no_reverse_seq; [quiet|]. apply no_reverse_seq; [|quiet].
  unfold draw_screen. cbv zeta.
  apply no_reverse_seq; [apply no_reverse_draw_border|].
  destruct Hinv as (I1 & I2 & I3 & I4).
  destruct Hd as (P1 & P2 & S1 & S2 & S3).
  apply no_reverse_seq.
  - replace (state_eqb (state s) STATE_MONITOR_SELECT) with false
      by (destruct (state s); [congruence | reflexivity..]).
    apply no_reverse_draw_monitor_list; [exact S1 | lia].
  - destruct (Z.ltb_spec (monitor_highlight s) (connected_count s)); [|lia].
    unfold selected_display in Hsel. rewrite Hsel. cbn [bind]. exact Hp.
Qed.

(** ** The highlighted rows in the redraw *)

(** X20: on a terminal that keeps its height of [r >= MIN_ROWS] rows and
    is [cols >= MIN_COLS] columns wide at the redraw, the redraw of every
    state the loop reaches draws the selected row of the monitor list:
    between the calls that switch the highlight on and off (reverse in
    MonitorSelect, bold elsewhere) it prints the row of the selection with
    its text, in column 4 of a row from 3 to [r - 2], inside the border. *)
Theorem selected_monitor_row_is_drawn :
  forall (popen : option string) (rows0 r cols : Z) (s0 s : App)
         (inputs : list (Z * key * option string)),
    MIN_ROWS <= r ->
    MIN_COLS <= cols ->
    main_start popen rows0 = Ok (Some s0) ->
    at_height r inputs ->
    run inputs s0 = Ok (Continue s) ->
    3 <= 3 + (monitor_highlight s - monitor_scroll s) <= r - 2
    /\ draws
         (highlighted
            (if state_eqb (state s) STATE_MONITOR_SELECT
             then A_REVERSE else A_BOLD)
            (3 + (monitor_highlight s - monitor_scroll s)) 4
            (monitor_row_text s (monitor_highlight s)))
         (main_redraw r cols s).
Proof.
  intros popen rows0 r cols s0 s inputs Hr Hc Hstart Hall Hrun.
  assert (Hr5 : 5 <= r) by (unfold MIN_ROWS in Hr; lia).
  destruct (windows_start popen rows0 r s0 Hr5 Hstart) as [Hw Hz].
  destruct (windows_run r inputs s0 s Hr5 Hall
              (reach_start _ _ _ Hstart) Hw Hz Hrun) as (Hs & (W1 & _) & _).
  pose proof (reachable_invariant s Hs) as Hinv.
  pose proof (reachable_discipline s Hs) as Hd.
  split; [unfold in_view in W1; lia|].
  apply draws_main_redraw; [exact Hr | exact Hc |].
  unfold draw_screen. cbv zeta.
  apply draws_seq_r; [apply defined_draw_border|].
  apply draws_seq_l; [|apply defined_draw_rest; assumption].
  apply draws_monitor_row; assumption.
Qed.

(** X21: on a terminal that keeps its height of [r >= MIN_ROWS] rows and
    is [cols >= MIN_COLS] columns wide at the redraw, the redraw of every
    state the loop reaches in ModeSelect or RateSelect is on a display,
    and when that display has a mode it draws the selected one: its "WxH"
    text stands between the calls
    that switch the highlight on and off (reverse in ModeSelect, bold in
    RateSelect), two columns right of the panel's start, in a row above the
    bottom border.  A display without modes is met in ModeSelect only, and
    its redraw switches reverse video on nowhere. *)
Theorem selected_mode_row_is_drawn :
  forall (popen : option string) (rows0 r cols : Z) (s0 s : App)
         (inputs : list (Z * key * option string)),
    MIN_ROWS <= r ->
    MIN_COLS <= cols ->
    main_start popen rows0 = Ok (Some s0) ->
    at_height r inputs ->
    run inputs s0 = Ok (Continue s) ->
    state s = STATE_MODE_SELECT \/ state s = STATE_RATE_SELECT ->
    exists d,
      selected_display s = Ok d
      /\ (0 < mode_count d ->
          exists m,
            selected_mode s = Ok m
            /\ first_list_row d + (mode_highlight s - mode_scroll s) <= r - 2
            /\ draws
                 (highlighted
                    (if state_eqb (state s) STATE_MODE_SELECT
                     then A_REVERSE else A_BOLD)
                    (first_list_row d + (mode_highlight s - mode_scroll s))
                    (Z.quot cols 3 + 2) (mode_row_text m))
                 (main_redraw r cols s))
      /\ (mode_count d = 0 ->
          state s = STATE_MODE_SELECT /\ no_reverse (main_redraw r cols s)).
Proof.
  intros popen rows0 r cols s0 s inputs Hr Hc Hstart Hall Hrun Hst.
  assert (Hr5 : 5 <= r) by (unfold MIN_ROWS in Hr; lia).
  destruct (windows_start popen rows0 r s0 Hr5 Hstart) as [Hw Hz].
  destruct (windows_run r inputs s0 s Hr5 Hall
              (reach_start _ _ _ Hstart) Hw Hz Hrun)
    as (Hs & (_ & W2 & _) & _).
  pose proof (reachable_invariant s Hs) as Hinv.
  pose proof (reachable_discipline s Hs) as Hd.
  assert (Hsel : exists d,
             selected_display s = Ok d
             /\ (mode_highlight s = 0 \/ 0 <= mode_highlight s < mode_count d)
             /\ (state s = STATE_RATE_SELECT -> 0 < mode_count d)).
  { destruct Hinv as (_ & _ & _ & I4).
    destruct Hst as [Est | Est]; rewrite Est in I4;
      destruct I4 as (d & Hsel & Hm); exists d;
      (split; [exact Hsel|]); (split; [tauto|]); intros E;
      [congruence | lia]. }
  destruct Hsel as (d & Hsel & Hmh & Hrate).
  exists d. split; [exact Hsel|]. split.
  - intros Hmc.
    destruct (array_get_in_range (modes d) (mode_highlight s)) as [m Hm];
      [unfold mode_count in *; lia|].
    exists m. split; [unfold selected_mode; rewrite Hsel; exact Hm|].
    destruct (right_view_fits r d Hr) as [_ Hfit].
    split; [unfold in_view in W2; lia|].
    apply draws_main_redraw; [exact Hr | exact Hc |].
    apply (draws_in_right_panel _ r cols s d Hinv Hd Hsel).
    destruct Hd as (_ & _ & _ & S2 & S3).
    apply draws_mode_row; assumption.
  - intros Hmc.
    assert (Est : state s = STATE_MODE_SELECT)
      by (destruct Hst as [E | E]; [exact E | specialize (Hrate E); lia]).
    split; [exact Est|].
    apply (no_reverse_main_redraw r cols s d Hr Hc Hinv Hd);
      [congruence | exact Hsel |].
    rewrite Est. destruct Hd as (_ & _ & _ & S2 & S3).
    apply no_reverse_mode_select; assumption.
Qed.

(** X22: on a terminal that keeps its height of [r >= MIN_ROWS] rows and
    is [cols >= MIN_COLS] columns wide at the redraw, the redraw of every
    state the loop reaches in RateSelect is on a mode of a display, and
    when that mode has a rate it draws the selected one: its text, the
    rate with two decimals, "Hz" and its markers, stands between the calls
    that switch reverse video on and off, twenty columns right of the
    panel's start, in a row above the bottom border.  On a mode without
    rates the redraw switches reverse video on nowhere. *)
Theorem selected_rate_row_is_drawn :
  forall (popen : option string) (rows0 r cols : Z) (s0 s : App)
         (inputs : list (Z * key * option string)),
    MIN_ROWS <= r ->
    MIN_COLS <= cols ->
    main_start popen rows0 = Ok (Some s0) ->
    at_height r inputs ->
    run inputs s0 = Ok (Continue s) ->
    state s = STATE_RATE_SELECT ->
    exists d m,
      selected_display s = Ok d
      /\ selected_mode s = Ok m
      /\ (0 < rate_count m ->
          exists x,
            array_get (refresh_rates m) (rate_highlight s) = Ok x
            /\ first_list_row d + (rate_highlight s - rate_scroll s) <= r - 2
            /\ draws
                 (highlighted A_REVERSE
                    (first_list_row d + (rate_highlight s - rate_scroll s))
                    (Z.quot cols 3 + 18 + 2) (rate_row_text x))
                 (main_redraw r cols s))
      /\ (rate_count m = 0 -> no_reverse (main_redraw r cols s)).
Proof.
  intros popen rows0 r cols s0 s inputs Hr Hc Hstart Hall Hrun Hst.
  assert (Hr5 : 5 <= r) by (unfold MIN_ROWS in Hr; lia).
  destruct (windows_start popen rows0 r s0 Hr5 Hstart) as [Hw Hz].
  destruct (windows_run r inputs s0 s Hr5 Hall
              (reach_start _ _ _ Hstart) Hw Hz Hrun)
    as (Hs & (_ & _ & W3) & _).
  pose proof (reachable_invariant s Hs) as Hinv.
  pose proof (reachable_discipline s Hs) as Hd.
  assert (Hsel : exists d m,
             selected_display s = Ok d /\ selected_mode s = Ok m
             /\ array_get (modes d) (mode_highlight s) = Ok m).
  { destruct Hinv as (_ & _ & _ & I4). rewrite Hst in I4.
    destruct I4 as (d & Hsel & Hm).
    destruct (array_get_in_range (modes d) (mode_highlight s)) as [m Hget];
      [unfold mode_count in *; lia|].
    exists d, m. unfold selected_mode. rewrite Hsel. auto. }
  destruct Hsel as (d & m & Hsel & Hm & Hget).
  exists d, m. split; [exact Hsel|]. split; [exact Hm|].
  assert (Hrh : rate_highlight s = 0
                \/ 0 <= rate_highlight s < rate_count m).
  { destruct Hd as (_ & P2 & _). unfold panels_ok in P2.
    rewrite Hst in P2. exact (P2 m Hm). }
  split.
  - intros Hrc.
    destruct (array_get_in_range (refresh_rates m) (rate_highlight s))
      as [x Hx]; [unfold rate_count in *; lia|].
    exists x. split; [exact Hx|].
    destruct (right_view_fits r d Hr) as [_ Hfit].
    split; [unfold in_view in W3; lia|].
    apply draws_main_redraw; [exact Hr | exact Hc |].
    apply (draws_in_right_panel _ r cols s d Hinv Hd Hsel).
    destruct Hd as (_ & _ & _ & S2 & S3).
    rewrite Hst. eapply draws_rate_row; eassumption.
  - intros Hrc.
    apply (no_reverse_main_redraw r cols s d Hr Hc Hinv Hd);
      [congruence | exact Hsel |].
    rewrite Hst. destruct Hd as (_ & _ & _ & S2 & S3).
    eapply no_reverse_rate_select; eassumption.
Qed.

(** The theorem after one step down on a terminal of 24 rows by 80
    columns. *)
Lemma selected_monitor_row_is_drawn_witness :
  match main_start (Some two_display_report) 0 with
  | Ok (Some s0) =>
      match run (rounds 24 two_display_report [KEY_DOWN]) s0 with
      | Ok (Continue s) =>
          3 <= 3 + (monitor_highlight s - monitor_scroll s) <= 24 - 2
          /\ draws
               (highlighted
                  (if state_eqb (state s) STATE_MONITOR_SELECT
                   then A_REVERSE else A_BOLD)
                  (3 + (monitor_highlight s - monitor_scroll s)) 4
                  (monitor_row_text s (monitor_highlight s)))
               (main_redraw 24 80 s)
      | _ => False
      end
  | _ => False
  end.
Proof.
  destruct (main_start (Some two_display_report) 0) as [[s0|]|] eqn:E0;
    [|known E0..].
  destruct (run (rounds 24 two_display_report [KEY_DOWN]) s0)
    as [[s|code]|] eqn:E1; [|known E0; known E1..].
  apply (selected_monitor_row_is_drawn (Some two_display_report) 0 24 80 s0 s
           (rounds 24 two_display_report [KEY_DOWN])).
  - unfold MIN_ROWS. lia.
  - unfold MIN_COLS. lia.
  - exact E0.
  - repeat constructor.
  - exact E1.
Defined.

(** The theorem in ModeSelect on the second mode of HDMI-1. *)
Lemma selected_mode_row_is_drawn_witness :
  match main_start (Some two_display_report) 0 with
  | Ok (Some s0) =>
      match run (rounds 24 two_display_report [enter; KEY_DOWN]) s0 with
      | Ok (Continue s) =>
          exists d,
            selected_display s = Ok d
            /\ (0 < mode_count d ->
                exists m,
                  selected_mode s = Ok m
                  /\ first_list_row d + (mode_highlight s - mode_scroll s)
                     <= 24 - 2
                  /\ draws
                       (highlighted
                          (if state_eqb (state s) STATE_MODE_SELECT
                           then A_REVERSE else A_BOLD)
                          (first_list_row d
                           + (mode_highlight s - mode_scroll s))
                          (Z.quot 80 3 + 2) (mode_row_text m))
                       (main_redraw 24 80 s))
            /\ (mode_count d = 0 ->
                state s = STATE_MODE_SELECT
                /\ no_reverse (main_redraw 24 80 s))
      | _ => False
      end
  | _ => False
  end.
Proof.
  destruct (main_start (Some two_display_report) 0) as [[s0|]|] eqn:E0;
    [|known E0..].
  destruct (run (rounds 24 two_display_report [enter; KEY_DOWN]) s0)
    as [[s|code]|] eqn:E1; [|known E0; known E1..].
  apply (selected_mode_row_is_drawn (Some two_display_report) 0 24 80 s0 s
           (rounds 24 two_display_report [enter; KEY_DOWN])).
  - unfold MIN_ROWS. lia.
  - unfold MIN_COLS. lia.
  - exact E0.
  - repeat constructor.
  - exact E1.
  - left. known E0. known E1. reflexivity.
Defined.

(** The theorem in RateSelect on the second rate of the first mode of
    HDMI-1. *)
Lemma selected_rate_row_is_drawn_witness :
  match main_start (Some two_display_report) 0 with
  | Ok (Some s0) =>
      match run (rounds 24 two_display_report [enter; enter; KEY_DOWN]) s0
      with
      | Ok (Continue s) =>
          exists d m,
            selected_display s = Ok d
            /\ selected_mode s = Ok m
            /\ (0 < rate_count m ->
                exists x,
                  array_get (refresh_rates m) (rate_highlight s) = Ok x
                  /\ first_list_row d + (rate_highlight s - rate_scroll s)
                     <= 24 - 2
                  /\ draws
                       (highlighted A_REVERSE
                          (first_list_row d
                           + (rate_highlight s - rate_scroll s))
                          (Z.quot 80 3 + 18 + 2) (rate_row_text x))
                       (main_redraw 24 80 s))
            /\ (rate_count m = 0 -> no_reverse (main_redraw 24 80 s))
      | _ => False
      end
  | _ => False
  end.
Proof.
  destruct (main_start (Some two_display_report) 0) as [[s0|]|] eqn:E0;
    [|known E0..].
  destruct (run (rounds 24 two_display_report [enter; enter; KEY_DOWN]) s0)
    as [[s|code]|] eqn:E1; [|known E0; known E1..].
  apply (selected_rate_row_is_drawn (Some two_display_report) 0 24 80 s0 s
           (rounds 24 two_display_report [enter; enter; KEY_DOWN])).
  - unfold MIN_ROWS. lia.
  - unfold MIN_COLS. lia.
  - exact E0.
  - repeat constructor.
  - exact E1.
  - known E0. known E1. reflexivity.
Defined.
